(** * Hybrid retrieval engine (FAISS + BM25)

    A shallow embedding of the three retrieval modules of the application
    ([app/services/bm25_retriever.py], [app/services/faiss_retriever.py],
    [app/services/hybrid_retriever.py]) together with the part of
    [app/services/text_processor.py] they call, and the properties of the
    retrieval engine stated over that embedding.

    Modelling conventions.
    - Python [float] scores are exact rationals ([Q]); rounding, infinities
      and NaN are outside the model.
    - Python [int] arguments such as [top_k] are [Z]; list slices follow
      Python's rules for negative bounds.
    - A Python [str] is a [string] whose characters are read as code points
      below 256.
    - Code that may raise returns a [Result]; [try ... except Exception] is
      [try_except].
    - The persistent store is a finite map from paths to entries, files and
      directories.  Paths are compared as strings: a file has one name (no
      links, no ['.'] or ['..'] components); permissions and the size of
      the disk are outside the model.
    - Third-party collaborators (langdetect, the regular expressions of the
      text processor, the sentence encoder, [faiss.normalize_L2] and
      [rank_bm25.BM25Okapi]) are the fields of the class [Collaborators].
      So is what NumPy and FAISS leave open: the order they give to equal
      scores. *)

From Stdlib Require Import ZArith QArith Qminmax List String Ascii Bool Lia Lqa.
From Stdlib Require Import Permutation Sorted.
From stdpp Require Import gmap strings.
Import ListNotations.

Local Open Scope Z_scope.

(** ** Exceptions *)

Inductive Exception : Type :=
| AssertionError
| FileNotFoundError
| FileExistsError
| IsADirectoryError
| NotADirectoryError
| IndexError
| ValueError
| UnpicklingError
| RuntimeError
| OtherException (msg : string).

Inductive Result (A : Type) : Type :=
| Ok (a : A)
| Raise (e : Exception).

Arguments Ok {A} a.
Arguments Raise {A} e.

Definition bind {A B : Type} (r : Result A) (k : A -> Result B) : Result B :=
  match r with
  | Ok a => k a
  | Raise e => Raise e
  end.

Notation "'let!' x ':=' r 'in' k" := (bind r (fun x => k))
  (at level 10, x name, r at level 100, k at level 200, only parsing).

(** [try: body except Exception as e: handler] *)
Definition try_except {A : Type} (body : Result A) (handler : Exception -> A) : A :=
  match body with
  | Ok a => a
  | Raise e => handler e
  end.

(** ** Python built-ins used by the retrievers *)

Module Py.

(** [str.isspace] on one character (code points below 256). *)
Definition isspace (c : ascii) : bool :=
  let n := nat_of_ascii c in
  ((9 <=? n) && (n <=? 13) || (28 <=? n) && (n <=? 32)
   || (n =? 133) || (n =? 160))%nat.

Fixpoint lstrip (s : string) : string :=
  match s with
  | EmptyString => EmptyString
  | String c t => if isspace c then lstrip t else s
  end.

Fixpoint rstrip (s : string) : string :=
  match s with
  | EmptyString => EmptyString
  | String c t =>
      match rstrip t with
      | EmptyString => if isspace c then EmptyString else String c EmptyString
      | t' => String c t'
      end
  end.

(** [s.strip()] *)
Definition strip (s : string) : string := rstrip (lstrip s).

(** Truth value of a [str]: [bool(s)]. *)
Definition truthy (s : string) : bool :=
  match s with
  | EmptyString => false
  | String _ _ => true
  end.

(** Truth value of an optional [str] ([None] is falsy). *)
Definition truthy_opt (s : option string) : bool :=
  match s with
  | None => false
  | Some s => truthy s
  end.

(** [not query or not query.strip()] *)
Definition blank (query : string) : bool :=
  negb (truthy query) || negb (truthy (strip query)).

Definition len {A : Type} (l : list A) : Z := Z.of_nat (List.length l).

(** [l[:stop]] *)
Definition slice_to {A : Type} (stop : Z) (l : list A) : list A :=
  if stop <? 0 then firstn (Z.to_nat (len l + stop)) l
  else firstn (Z.to_nat stop) l.

(** [l[start:]] *)
Definition slice_from {A : Type} (start : Z) (l : list A) : list A :=
  if start <? 0 then skipn (Z.to_nat (len l + start)) l
  else skipn (Z.to_nat start) l.

(** [enumerate(l)], counting from [start]. *)
Fixpoint enumerate_from {A : Type} (start : nat) (l : list A) : list (nat * A) :=
  match l with
  | [] => []
  | x :: t => (start, x) :: enumerate_from (S start) t
  end.

Definition enumerate {A : Type} (l : list A) : list (nat * A) :=
  enumerate_from 0 l.

(** Insertion into a list sorted for [leb]: [x] goes in front of the first
    element [y] with [leb x y]. *)
Fixpoint insert_sorted {A : Type} (leb : A -> A -> bool) (x : A) (l : list A) : list A :=
  match l with
  | [] => [x]
  | y :: t => if leb x y then x :: l else y :: insert_sorted leb x t
  end.

(** A stable sort: elements that [leb] relates both ways keep their order. *)
Definition stable_sort {A : Type} (leb : A -> A -> bool) (l : list A) : list A :=
  fold_right (insert_sorted leb) [] l.

(** [sorted(l, key=key, reverse=True)]: descending, stable. *)
Definition sorted_reverse {A : Type} (key : A -> Q) (l : list A) : list A :=
  stable_sort (fun x y => Qle_bool (key y) (key x)) l.

(** [min(l)] and [max(l)] of a non-empty list, given as head and tail. *)
Definition min_of (x : Q) (l : list Q) : Q := fold_left Qmin l x.
Definition max_of (x : Q) (l : list Q) : Q := fold_left Qmax l x.

(** [str.startswith] *)
Fixpoint startswith (s p : string) : bool :=
  match p, s with
  | EmptyString, _ => true
  | String c p', String c' s' => Ascii.eqb c c' && startswith s' p'
  | String _ _, EmptyString => false
  end.

Fixpoint drop (n : nat) (s : string) : string :=
  match n, s with
  | O, _ => s
  | S n', String _ t => drop n' t
  | S _, EmptyString => EmptyString
  end.

(** [s.replace(old, new)] for a non-empty [old]: occurrences are replaced
    from left to right without overlap. *)
Fixpoint replace_fuel (fuel : nat) (s old new : string) : string :=
  match fuel with
  | O => s
  | S fuel' =>
      match s with
      | EmptyString => EmptyString
      | String c t =>
          if startswith s old
          then new ++ replace_fuel fuel' (drop (String.length old) s) old new
          else String c (replace_fuel fuel' t old new)
      end
  end.

Definition replace (s old new : string) : string :=
  replace_fuel (String.length s) s old new.

(** Position just after the last ['/'] of [p]: [p.rfind('/') + 1]. *)
Fixpoint after_last_slash (p : string) : nat :=
  match p with
  | EmptyString => O
  | String c t =>
      match after_last_slash t with
      | O => if Ascii.eqb c "/" then 1%nat else O
      | S n => S (S n)
      end
  end.

Fixpoint take (n : nat) (s : string) : string :=
  match n, s with
  | O, _ => EmptyString
  | S n', String c t => String c (take n' t)
  | S _, EmptyString => EmptyString
  end.

Fixpoint all_slashes (s : string) : bool :=
  match s with
  | EmptyString => true
  | String c t => Ascii.eqb c "/" && all_slashes t
  end.

Fixpoint rstrip_slash (s : string) : string :=
  match s with
  | EmptyString => EmptyString
  | String c t =>
      match rstrip_slash t with
      | EmptyString => if Ascii.eqb c "/" then EmptyString else String c EmptyString
      | t' => String c t'
      end
  end.

(** [os.path.dirname] (posixpath). *)
Definition dirname (p : string) : string :=
  let head := take (after_last_slash p) p in
  if truthy head && negb (all_slashes head) then rstrip_slash head else head.

(** [os.path.basename] (posixpath). *)
Definition basename (p : string) : string := drop (after_last_slash p) p.

(** The order "by key, then by place": [a] is not after [b]. *)
Definition key_then_place {A : Type} (key : A -> Q) (place : A -> nat) (a b : A) : bool :=
  match (key a ?= key b)%Q with
  | Lt => true
  | Eq => (place a <=? place b)%nat
  | Gt => false
  end.

End Py.


(** ** Data model *)

(** A document dictionary: ['id'] is always present, ['language'] is read
    with [doc.get('language')] and may be missing. *)
Record Document : Type := mkDocument {
  id : string;
  language : option string;
  content : string
}.

(** A result dictionary.  The sub-retrievers produce ['document'], ['score']
    and ['rank']; the fused results also carry ['faiss_score'] and
    ['bm25_score']. *)
Record SearchResult : Type := mkResult {
  document : Document;
  score : Q;
  rank : Z;
  faiss_score : option Q;
  bm25_score : option Q
}.

Definition sub_result (doc : Document) (s : Q) (r : Z) : SearchResult :=
  mkResult doc s r None None.

Definition set_score (s : Q) (r : SearchResult) : SearchResult :=
  mkResult (document r) s (rank r) (faiss_score r) (bm25_score r).

Definition Vec : Type := list Q.

(** ** External collaborators *)

Class Collaborators : Type := {
  (** [LANGDETECT_AVAILABLE] *)
  LANGDETECT_AVAILABLE : bool;
  (** [langdetect.detect] *)
  detect : string -> Result string;
  (** [re.search(r'[\u0600-\u06FF]', text)] finds a match *)
  has_arabic : string -> bool;
  (** [TextProcessor.normalize_text], [tokenize] and [remove_stopwords]
      (regular expressions and NLTK stop-word lists) *)
  normalize_text : string -> string -> Result string;
  tokenize : string -> string -> Result (list string);
  remove_stopwords : list string -> string -> Result (list string);
  (** [str.split()] *)
  split : string -> list string;
  (** [SentenceTransformer.encode(texts, convert_to_numpy=True, ...)] *)
  encode : list string -> Result (list Vec);
  (** [faiss.normalize_L2] on one row *)
  normalize_L2 : Vec -> Vec;
  (** [BM25Okapi(corpus).get_scores(query)] *)
  get_scores : list (list string) -> list string -> list Q;
  (** [np.argsort(scores)] sorts by score.  Its default sort kind is not
      stable: the place it gives to a position among the positions of equal
      score is NumPy's own affair, and [argsort_ties scores i] is that
      place. *)
  argsort_ties : list Q -> nat -> nat;
  (** Likewise the place [IndexFlatIP.search(x, k)] gives to a row among
      the rows of equal inner product with [x], given the rows, [x] and
      [k]. *)
  faiss_ties : list Vec -> Vec -> Z -> nat -> nat
}.

(** ** app/services/text_processor.py *)

Section TextProcessor.
Context {env : Collaborators}.

Definition arabic_or_french (text : string) : string :=
  if has_arabic text then "ar" else "fr".

Definition detect_language (text : string) : string :=
  if Py.blank text then "fr"
  else if negb LANGDETECT_AVAILABLE then arabic_or_french text
  else
    try_except
      (let! lang := detect text in
       Ok (if String.eqb lang "fr" then "fr"
           else if String.eqb lang "ar" || String.eqb lang "arb" then "ar"
           else lang))
      (fun _ => arabic_or_french text).

Definition preprocess (text : string) (language : option string) : list string :=
  if negb (Py.truthy text) then []
  else
    let language :=
      match language with
      | Some l => if Py.truthy l then l else detect_language text
      | None => detect_language text
      end in
    try_except
      (let! normalized_text := normalize_text text language in
       let! tokens := tokenize normalized_text language in
       let! filtered_tokens := remove_stopwords tokens language in
       Ok filtered_tokens)
      (fun _ => split text).

End TextProcessor.

(** ** NumPy and FAISS primitives *)

Module Np.

(** The indices that sort [scores] in ascending order, positions of equal
    score by ascending [ties]; positions that [ties] does not tell apart
    keep their index order. *)
Definition argsort_with (ties : nat -> nat) (scores : list Q) : list nat :=
  Py.stable_sort (Py.key_then_place (fun i => nth i scores 0%Q) ties)
    (seq 0 (List.length scores)).

(** [np.argsort(scores)] *)
Definition argsort {env : Collaborators} (scores : list Q) : list nat :=
  argsort_with (argsort_ties scores) scores.

End Np.

Module Faiss.

(** [faiss.IndexFlatIP]: dimension and stored rows. *)
Record IndexFlatIP : Type := mkIndex {
  d : nat;
  xb : list Vec
}.

Definition ntotal (index : IndexFlatIP) : Z := Py.len (xb index).

Definition inner_product (u v : Vec) : Q :=
  fold_left (fun acc ab => (acc + fst ab * snd ab)%Q) (combine u v) 0%Q.

(** Score reported with label [-1] when fewer than [k] rows exist. *)
Definition lowest_score : Q := (- (340282346638528859811704183484516925440 # 1))%Q.

(** The inner product of [x] with every row, next to the label of the
    row. *)
Definition scored (index : IndexFlatIP) (x : Vec) : list (Q * Z) :=
  map (fun iv => (inner_product x (snd iv), Z.of_nat (fst iv)))
      (Py.enumerate (xb index)).

(** The rows by descending inner product with [x], rows of equal inner
    product by ascending [ties]; rows that [ties] does not tell apart keep
    the order of their labels. *)
Definition ranked_with (ties : nat -> nat) (index : IndexFlatIP) (x : Vec)
  : list (Q * Z) :=
  Py.stable_sort
    (Py.key_then_place (fun c => (- fst c)%Q) (fun c => ties (Z.to_nat (snd c))))
    (scored index x).

(** [index.search(x, k)] for a single query row: [k] pairs (score, label) by
    descending inner product, padded with label [-1].  The Python wrapper
    asserts [k > 0] and the dimension of [x]. *)
Definition search {env : Collaborators} (index : IndexFlatIP) (x : Vec) (k : Z)
  : Result (list (Q * Z)) :=
  if k <=? 0 then Raise AssertionError
  else if negb (List.length x =? d index)%nat then Raise AssertionError
  else
    let ranked := ranked_with (faiss_ties (xb index) x k) index x in
    Ok (firstn (Z.to_nat k) ranked
        ++ repeat (lowest_score, -1) (Z.to_nat k - List.length ranked)).

End Faiss.

(** ** The persistent store *)

(** The dictionary pickled by [BM25Retriever._save_data]; a key may be absent
    from a pickle written by other code, hence the options. *)
Record BM25Data : Type := mkBM25Data {
  data_tokenized_corpus_fr : option (list (list string));
  data_tokenized_corpus_ar : option (list (list string));
  data_documents_fr : option (list Document);
  data_documents_ar : option (list Document)
}.

(** An entry of the store: one of the three kinds of files the retrievers
    write, a file that none of them can read, or a directory. *)
Inductive File : Type :=
| BM25Pickle (data : BM25Data)
| DocsPickle (docs : list Document)
| FaissIndexFile (index : Faiss.IndexFlatIP)
| Unreadable (bytes : string)
| Directory.

Module Os.

(** [os.path.exists] *)
Definition exists_ (fs : gmap string File) (path : string) : bool :=
  match fs !! path with
  | Some _ => true
  | None => false
  end.

(** [os.path.isdir] *)
Definition isdir (fs : gmap string File) (path : string) : bool :=
  match fs !! path with
  | Some Directory => true
  | _ => false
  end.

(** [os.makedirs(name, exist_ok=True)] for a [name] without trailing slash,
    as [os.path.dirname] returns it: an existing directory is left alone,
    an existing file raises, and otherwise the missing parents are made
    first, then [name].  The empty [head] is the current directory and a
    [head] of slashes the root; both exist.  [fuel] bounds the number of
    parents: each head is shorter than its name. *)
Fixpoint makedirs_fuel (fuel : nat) (fs : gmap string File) (name : string)
  : Result (gmap string File) :=
  match fs !! name with
  | Some Directory => Ok fs
  | Some _ => Raise FileExistsError
  | None =>
      if Py.all_slashes name then
        if Py.truthy name then Ok fs else Raise FileNotFoundError
      else
        match fuel with
        | O => Raise (OtherException "unreachable")
        | S fuel' =>
            let head := Py.dirname name in
            let! fs :=
              if Py.all_slashes head then Ok fs
              else match fs !! head with
                   | Some Directory => Ok fs
                   | Some _ => Raise NotADirectoryError
                   | None => makedirs_fuel fuel' fs head
                   end in
            Ok (<[name := Directory]> fs)
        end
  end.

Definition makedirs (fs : gmap string File) (name : string)
  : Result (gmap string File) :=
  makedirs_fuel (String.length name) fs name.

(** Why [open(path, 'wb')] fails, when it does: the path is empty or ends
    with a slash, its directory does not exist or is a file, or the path
    names a directory. *)
Definition open_error (fs : gmap string File) (path : string) : option Exception :=
  if negb (Py.truthy path) then Some FileNotFoundError
  else if negb (Py.truthy (Py.basename path)) then Some IsADirectoryError
  else
    let parent := Py.dirname path in
    let parent_error :=
      if Py.all_slashes parent then None
      else match fs !! parent with
           | Some Directory => None
           | Some _ => Some NotADirectoryError
           | None => Some FileNotFoundError
           end in
    match parent_error with
    | Some e => Some e
    | None => if isdir fs path then Some IsADirectoryError else None
    end.

(** [with open(path, 'wb') as f: ...dump(content, f)], and
    [faiss.write_index], which opens its file in the same way. *)
Definition write (fs : gmap string File) (path : string) (content : File)
  : Result (gmap string File) :=
  match open_error fs path with
  | Some e => Raise e
  | None => Ok (<[path := content]> fs)
  end.

End Os.

Definition get_default {A : Type} (o : option (list A)) : list A :=
  match o with
  | Some l => l
  | None => []
  end.

Definition is_empty {A : Type} (l : list A) : bool :=
  match l with
  | [] => true
  | _ :: _ => false
  end.

Definition language_is (doc : Document) (l : string) : bool :=
  match language doc with
  | Some l' => String.eqb l' l
  | None => false
  end.

(** ** app/services/bm25_retriever.py *)

Module BM25Retriever.

(** A [BM25Okapi] object is determined by the corpus it was built from. *)
Record BM25Okapi : Type := mkBM25Okapi { corpus : list (list string) }.

Record t : Type := mk {
  data_path : option string;
  bm25_fr : option BM25Okapi;
  bm25_ar : option BM25Okapi;
  tokenized_corpus_fr : list (list string);
  tokenized_corpus_ar : list (list string);
  documents_fr : list Document;
  documents_ar : list Document
}.

(** [BM25Retriever(data_path)] *)
Definition init (data_path : option string) : t :=
  mk data_path None None [] [] [] [].

(** [BM25Okapi(corpus) if corpus else None] *)
Definition model_of (tokenized_corpus : list (list string)) : option BM25Okapi :=
  if is_empty tokenized_corpus then None else Some (mkBM25Okapi tokenized_corpus).

(** The loop separating the documents by language.  [texts[i]] raises
    [IndexError] when [texts] is too short. *)
Fixpoint separate (texts : list string) (documents : list (nat * Document))
    (texts_fr : list string) (documents_fr : list Document)
    (texts_ar : list string) (documents_ar : list Document)
  : Result (list string * list Document * list string * list Document) :=
  match documents with
  | [] => Ok (texts_fr, documents_fr, texts_ar, documents_ar)
  | (i, doc) :: rest =>
      if language_is doc "fr" then
        match nth_error texts i with
        | Some text =>
            separate texts rest (texts_fr ++ [text]) (documents_fr ++ [doc])
              texts_ar documents_ar
        | None => Raise IndexError
        end
      else if language_is doc "ar" then
        match nth_error texts i with
        | Some text =>
            separate texts rest texts_fr documents_fr
              (texts_ar ++ [text]) (documents_ar ++ [doc])
        | None => Raise IndexError
        end
      else separate texts rest texts_fr documents_fr texts_ar documents_ar
  end.

(** The loop dropping the documents whose token list is empty; the two
    lists have the same length by construction. *)
Definition keep_tokenized (tokenized : list (list string)) (documents : list Document)
  : list (list string * Document) :=
  List.filter (fun td => negb (is_empty (fst td))) (combine tokenized documents).

(** The dictionary [data] that [_save_data] pickles. *)
Definition saved_data (self : t) : BM25Data :=
  mkBM25Data (Some (tokenized_corpus_fr self)) (Some (tokenized_corpus_ar self))
    (Some (documents_fr self)) (Some (documents_ar self)).

(** Returns the store after the call.  An exception is logged and dropped,
    and the store stays as the steps before the failing one left it. *)
Definition _save_data (self : t) (fs : gmap string File) : gmap string File :=
  match data_path self with
  | Some path =>
      if Py.truthy path then
        try_except
          (let! fs := Os.makedirs fs (Py.dirname path) in
           Ok (try_except (Os.write fs path (BM25Pickle (saved_data self)))
                          (fun _ => fs)))
          (fun _ => fs)
      else fs
  | None => fs
  end.

(** [pickle.load] followed by the four [data.get] calls. *)
Definition read_data (fs : gmap string File) (path : string) : Result BM25Data :=
  match fs !! path with
  | Some (BM25Pickle data) => Ok data
  | Some (DocsPickle _) => Raise (OtherException "'list' object has no attribute 'get'")
  | Some (FaissIndexFile _) => Raise UnpicklingError
  | Some (Unreadable _) => Raise UnpicklingError
  | Some Directory => Raise IsADirectoryError
  | None => Raise FileNotFoundError
  end.

Definition load_index (self : t) (fs : gmap string File) : bool * t :=
  match data_path self with
  | Some path =>
      if negb (Py.truthy path) || negb (Os.exists_ fs path) then (false, self)
      else
        try_except
          (let! data := read_data fs path in
           let corpus_fr := get_default (data_tokenized_corpus_fr data) in
           let corpus_ar := get_default (data_tokenized_corpus_ar data) in
           Ok (true,
               mk (data_path self) (model_of corpus_fr) (model_of corpus_ar)
                 corpus_fr corpus_ar
                 (get_default (data_documents_fr data))
                 (get_default (data_documents_ar data))))
          (fun _ => (false, self))
  | None => (false, self)
  end.

Section WithCollaborators.
Context {env : Collaborators}.

(** Returns the retriever and the store after the call.  The only step that
    raises is [texts[i]] in the first loop (the state the source leaves
    behind in that case is not modelled); tokenisation and the construction
    of the models are total, so the [except ...: raise] adds no case. *)
Definition build_index (self : t) (fs : gmap string File)
    (texts : list string) (documents : list Document)
  : Result (t * gmap string File) :=
  let! parts := separate texts (Py.enumerate documents) [] [] [] [] in
  let '(texts_fr, docs_fr, texts_ar, docs_ar) := parts in
  let tokenized_fr := map (fun text => preprocess text (Some "fr"%string)) texts_fr in
  let tokenized_ar := map (fun text => preprocess text (Some "ar"%string)) texts_ar in
  let kept_fr := keep_tokenized tokenized_fr docs_fr in
  let kept_ar := keep_tokenized tokenized_ar docs_ar in
  let self :=
    mk (data_path self)
      (model_of (map fst kept_fr)) (model_of (map fst kept_ar))
      (map fst kept_fr) (map fst kept_ar)
      (map snd kept_fr) (map snd kept_ar) in
  Ok (self, if Py.truthy_opt (data_path self) then _save_data self fs else fs).

(** The body shared by the two language branches of [search]. *)
Definition search_model (model : BM25Okapi) (documents : list Document)
    (tokenized_query : list string) (top_k : Z) : list SearchResult :=
  let scores := get_scores (corpus model) tokenized_query in
  let top_indices := rev (Py.slice_from (- top_k) (Np.argsort scores)) in
  flat_map
    (fun i_idx =>
       let '(i, idx) := i_idx in
       match nth_error documents idx with
       | Some doc =>
           if Qlt_le_dec 0 (nth idx scores 0%Q)
           then [sub_result doc (nth idx scores 0%Q) (Z.of_nat i + 1)]
           else []
       | None => []
       end)
    (Py.enumerate top_indices).

(** The [try ... except Exception: return []] around the body adds no case:
    no step of the body raises. *)
Definition search (self : t) (query : string) (top_k : Z)
    (language : option string) : list SearchResult :=
  if Py.blank query then []
  else
    let language :=
      match language with
      | Some l => if Py.truthy l then l else detect_language query
      | None => detect_language query
      end in
    let tokenized_query := preprocess query (Some language) in
    if is_empty tokenized_query then []
    else
      match String.eqb language "fr", bm25_fr self with
      | true, Some model => search_model model (documents_fr self) tokenized_query top_k
      | _, _ =>
          match String.eqb language "ar", bm25_ar self with
          | true, Some model =>
              search_model model (documents_ar self) tokenized_query top_k
          | _, _ => []
          end
      end.

End WithCollaborators.

End BM25Retriever.

(** ** app/services/faiss_retriever.py *)

Module FAISSRetriever.

Record t : Type := mk {
  index_path : option string;
  index : option Faiss.IndexFlatIP;
  documents : list Document
}.

(** [FAISSRetriever(index_path)] *)
Definition init (index_path : option string) : t := mk index_path None [].

(** [index_path.replace('.bin', '_docs.pkl')] *)
Definition documents_path (index_path : string) : string :=
  Py.replace index_path ".bin" "_docs.pkl".

(** Returns the store after the call.  An exception is logged and dropped,
    and the store stays as the steps before the failing one left it: the
    two writes happen one after the other, at their two paths, and the
    directory is made for the index path only. *)
Definition _save_index (self : t) (fs : gmap string File) : gmap string File :=
  match index_path self with
  | Some path =>
      if Py.truthy path then
        try_except
          (let! fs := Os.makedirs fs (Py.dirname path) in
           Ok (try_except
                 (let! ix := match index self with
                             | Some ix => Ok ix
                             | None => Raise RuntimeError
                             end in
                  let! fs := Os.write fs path (FaissIndexFile ix) in
                  Ok (try_except
                        (Os.write fs (documents_path path) (DocsPickle (documents self)))
                        (fun _ => fs)))
                 (fun _ => fs)))
          (fun _ => fs)
      else fs
  | None => fs
  end.

(** [faiss.read_index] *)
Definition read_index (fs : gmap string File) (path : string) : Result Faiss.IndexFlatIP :=
  match fs !! path with
  | Some (FaissIndexFile ix) => Ok ix
  | Some _ => Raise RuntimeError
  | None => Raise RuntimeError
  end.

(** [pickle.load] of the documents file.  It accepts every pickle, so also
    the dictionary written by [BM25Retriever._save_data]: [self.documents]
    is then that dictionary, in which the result loop of [search] finds no
    document ([self.documents[idx]] raises [KeyError], which [search]
    catches to answer [[]]).  The empty list, on which every search answers
    [[]] too, stands for it. *)
Definition read_documents (fs : gmap string File) (path : string) : Result (list Document) :=
  match fs !! path with
  | Some (DocsPickle docs) => Ok docs
  | Some (BM25Pickle _) => Ok []
  | Some (FaissIndexFile _) => Raise UnpicklingError
  | Some (Unreadable _) => Raise UnpicklingError
  | Some Directory => Raise IsADirectoryError
  | None => Raise FileNotFoundError
  end.

(** [self.index] is assigned before the documents are read: a failure while
    reading them leaves the new index in place and returns [False]. *)
Definition load_index (self : t) (fs : gmap string File) : bool * t :=
  match index_path self with
  | Some path =>
      if negb (Py.truthy path) || negb (Os.exists_ fs path) then (false, self)
      else
        match read_index fs path with
        | Raise _ => (false, self)
        | Ok ix =>
            let self := mk (index_path self) (Some ix) (documents self) in
            if Os.exists_ fs (documents_path path) then
              match read_documents fs (documents_path path) with
              | Ok docs => (true, mk (index_path self) (index self) docs)
              | Raise _ => (false, self)
              end
            else (true, mk (index_path self) (index self) [])
        end
  | None => (false, self)
  end.

(** [document.get('language') != language] *)
Definition language_differs (doc : Document) (l : string) : bool :=
  negb (language_is doc l).

(** The result loop of [search], with its [continue]s and its [break]. *)
Fixpoint collect (documents : list Document) (top_k : Z) (language : option string)
    (candidates : list (Q * Z)) (results : list SearchResult) : list SearchResult :=
  match candidates with
  | [] => results
  | (score, idx) :: rest =>
      if (idx <? 0) || (idx >=? Py.len documents)
      then collect documents top_k language rest results
      else
        match nth_error documents (Z.to_nat idx) with
        | None => collect documents top_k language rest results
        | Some doc =>
            if match language with
               | Some l => Py.truthy l && language_differs doc l
               | None => false
               end
            then collect documents top_k language rest results
            else
              let results := results ++ [sub_result doc score (Py.len results + 1)] in
              if Py.len results >=? top_k then results
              else collect documents top_k language rest results
        end
  end.

Section WithCollaborators.
Context {env : Collaborators}.

(** [None] stands for the [None] returned when the encoder raises. *)
Definition _create_embeddings (texts : list string) : option (list Vec) :=
  try_except (let! embeddings := encode texts in Ok (Some embeddings))
             (fun _ => None).

(** Returns the retriever and the store after the call.  Each early
    [return] leaves the index as it was; [self.documents] has already been
    replaced by then.  Past the length check no step raises, so the
    [except ...: raise] adds no case. *)
Definition build_index (self : t) (fs : gmap string File)
    (texts : list string) (docs : list Document)
  : Result (t * gmap string File) :=
  if is_empty texts || is_empty docs then Ok (self, fs)
  else if negb (List.length texts =? List.length docs)%nat then Raise ValueError
  else
    let self := mk (index_path self) (index self) docs in
    let kept :=
      List.filter (fun td => Py.truthy (fst td) && Py.truthy (Py.strip (fst td)))
             (combine texts docs) in
    let filtered_texts := map fst kept in
    let filtered_docs := map snd kept in
    if is_empty filtered_texts then Ok (self, fs)
    else
      let self := mk (index_path self) (index self) filtered_docs in
      match _create_embeddings filtered_texts with
      | None => Ok (self, fs)
      | Some embeddings =>
          if is_empty embeddings then Ok (self, fs)
          else
            let dimension := List.length (hd [] embeddings) in
            let ix := Faiss.mkIndex dimension (map normalize_L2 embeddings) in
            let self := mk (index_path self) (Some ix) (documents self) in
            Ok (self,
                if Py.truthy_opt (index_path self) then _save_index self fs else fs)
      end.

(** The candidates [index.search] hands to the result loop. *)
Definition candidates (ix : Faiss.IndexFlatIP) (query_row : Vec) (top_k : Z)
    (language : option string) : Result (list (Q * Z)) :=
  let search_k := if Py.truthy_opt language then top_k * 3 else top_k in
  Faiss.search ix (normalize_L2 query_row) (Z.min search_k (Faiss.ntotal ix)).

Definition search (self : t) (query : string) (top_k : Z)
    (language : option string) : list SearchResult :=
  match index self with
  | None => []
  | Some ix =>
      if Py.blank query then []
      else
        match _create_embeddings [query] with
        | None => []
        | Some [] => []
        | Some (query_row :: _) =>
            try_except
              (let! found := candidates ix query_row top_k language in
               Ok (collect (documents self) top_k language found []))
              (fun _ => [])
        end
  end.

End WithCollaborators.

End FAISSRetriever.

(** ** app/services/hybrid_retriever.py *)

(** What the hybrid retriever expects of a sub-retriever: a [search] method
    taking the query, the number of results and the language. *)
Record Retriever : Type := mkRetriever {
  search : string -> Z -> option string -> Result (list SearchResult)
}.

Module HybridRetriever.

Record t : Type := mk {
  faiss_retriever : option Retriever;
  bm25_retriever : option Retriever;
  faiss_weight : Q;
  bm25_weight : Q
}.

(** An entry of the [doc_scores] dictionary. *)
Record Entry : Type := mkEntry {
  e_document : Document;
  e_faiss_score : Q;
  e_bm25_score : Q;
  e_combined_score : Q
}.

(** [doc_scores]: a dictionary in insertion order. *)
Definition DocScores : Type := list (string * Entry).

Fixpoint dict_get (d : DocScores) (k : string) : option Entry :=
  match d with
  | [] => None
  | (k', e) :: rest => if String.eqb k k' then Some e else dict_get rest k
  end.

(** [d[k] = e]: an existing key keeps its position. *)
Fixpoint dict_set (d : DocScores) (k : string) (e : Entry) : DocScores :=
  match d with
  | [] => [(k, e)]
  | (k', e') :: rest =>
      if String.eqb k k' then (k, e) :: rest else (k', e') :: dict_set rest k e
  end.

Definition dict_values (d : DocScores) : list Entry := map snd d.

(** The source rewrites ['score'] in each result dictionary; here a new list
    is returned.  The [except] branch is not reachable: the only partial
    operation is the division, guarded by [max_score == min_score]. *)
Definition _normalize_scores (results : list SearchResult) : list SearchResult :=
  match results with
  | [] => []
  | r0 :: rest =>
      let scores := map score results in
      let min_score := Py.min_of (score r0) (map score rest) in
      let max_score := Py.max_of (score r0) (map score rest) in
      if Qeq_bool max_score min_score
      then map (set_score 1) results
      else map (fun result =>
                  set_score ((score result - min_score) / (max_score - min_score)) result)
               results
  end.

(** Body of the loop [for result in faiss_results]. *)
Definition add_faiss (w : Q) (doc_scores : DocScores) (result : SearchResult) : DocScores :=
  let doc_id := id (document result) in
  dict_set doc_scores doc_id (mkEntry (document result) (score result * w) 0 0).

(** Body of the loop [for result in bm25_results]. *)
Definition add_bm25 (w : Q) (doc_scores : DocScores) (result : SearchResult) : DocScores :=
  let doc_id := id (document result) in
  match dict_get doc_scores doc_id with
  | Some e =>
      dict_set doc_scores doc_id
        (mkEntry (e_document e) (e_faiss_score e) (score result * w) (e_combined_score e))
  | None =>
      dict_set doc_scores doc_id (mkEntry (document result) 0 (score result * w) 0)
  end.

(** Body of the loop [for doc_id, data in doc_scores.items()]. *)
Definition set_combined (kv : string * Entry) : string * Entry :=
  let data := snd kv in
  (fst kv,
   mkEntry (e_document data) (e_faiss_score data) (e_bm25_score data)
     (e_faiss_score data + e_bm25_score data)).

(** Body of the loop [for i, result in enumerate(sorted_results[:top_k])]. *)
Definition final_result (ir : nat * Entry) : SearchResult :=
  let (i, result) := ir in
  mkResult (e_document result) (e_combined_score result) (Z.of_nat i + 1)
    (Some (e_faiss_score result)) (Some (e_bm25_score result)).

(** The [except] fallback is not reachable in the model: every result
    carries a document with an ['id'] and a ['score']. *)
Definition _combine_results (self : t)
    (faiss_results bm25_results : list SearchResult) (top_k : Z) : list SearchResult :=
  let faiss_results := _normalize_scores faiss_results in
  let bm25_results := _normalize_scores bm25_results in
  let doc_scores : DocScores := [] in
  let doc_scores := fold_left (add_faiss (faiss_weight self)) faiss_results doc_scores in
  let doc_scores := fold_left (add_bm25 (bm25_weight self)) bm25_results doc_scores in
  let doc_scores := map set_combined doc_scores in
  let sorted_results := Py.sorted_reverse e_combined_score (dict_values doc_scores) in
  map final_result (Py.enumerate (Py.slice_to top_k sorted_results)).

(** One guarded sub-search:
    [results = []; if retriever: try: results = retriever.search(...) except Exception: log]. *)
Definition guarded_search (retriever : option Retriever)
    (query : string) (k : Z) (language : string) : list SearchResult :=
  match retriever with
  | Some r => try_except (search r query k (Some language)) (fun _ => [])
  | None => []
  end.

Section Search.
Context {env : Collaborators}.

(** The enclosing [try ... except Exception: return []] adds no case: the
    language detection, the two guarded calls and [_combine_results] do not
    raise. *)
Definition search (self : t) (query : string) (top_k : Z)
    (language : option string) : list SearchResult :=
  if Py.blank query then []
  else
    let language :=
      if negb (Py.truthy_opt language) then detect_language query
      else match language with Some l => l | None => EmptyString end in
    let internal_top_k := Z.max (top_k * 2) 10 in
    let faiss_results := guarded_search (faiss_retriever self) query internal_top_k language in
    let bm25_results := guarded_search (bm25_retriever self) query internal_top_k language in
    if is_empty faiss_results && negb (is_empty bm25_results)
    then Py.slice_to top_k bm25_results
    else if negb (is_empty faiss_results) && is_empty bm25_results
    then Py.slice_to top_k faiss_results
    else if is_empty faiss_results && is_empty bm25_results
    then []
    else _combine_results self faiss_results bm25_results top_k.

End Search.

End HybridRetriever.

(** The two concrete retrievers seen through the interface the hybrid
    retriever calls. *)
Definition faiss_as_retriever {env : Collaborators} (r : FAISSRetriever.t) : Retriever :=
  mkRetriever (fun query k language => Ok (FAISSRetriever.search r query k language)).

Definition bm25_as_retriever {env : Collaborators} (r : BM25Retriever.t) : Retriever :=
  mkRetriever (fun query k language => Ok (BM25Retriever.search r query k language)).

(** [HybridRetriever(faiss_retriever, bm25_retriever)] as built in [app/main.py]. *)
Definition hybrid_of {env : Collaborators} (f : FAISSRetriever.t) (b : BM25Retriever.t)
    (faiss_weight bm25_weight : Q) : HybridRetriever.t :=
  HybridRetriever.mk (Some (faiss_as_retriever f)) (Some (bm25_as_retriever b))
    faiss_weight bm25_weight.

(** The language the hybrid retriever hands to its sub-retrievers. *)
Definition resolved_language {env : Collaborators}
    (query : string) (language : option string) : string :=
  if negb (Py.truthy_opt language) then detect_language query
  else match language with Some l => l | None => EmptyString end.

(** What the hybrid retriever holds for one source after its guarded call. *)
Definition source_results {env : Collaborators} (retriever : option Retriever)
    (query : string) (top_k : Z) (language : option string) : list SearchResult :=
  HybridRetriever.guarded_search retriever query (Z.max (top_k * 2) 10)
    (resolved_language query language).

(** ** A concrete set of collaborators

    Small stand-ins on which the model can be run: a language detector that
    answers ["en"] for texts starting with ['h'] and ["fr"] otherwise, a
    tokenizer splitting on single spaces, an encoder sending every text to
    the unit vector [(1, 0)] (which L2 normalisation leaves unchanged), and
    a lexical scorer counting the tokens of a document that occur in the
    query (like BM25 on a corpus where the query terms are in fewer than
    half of the documents, it gives equal documents equal positive scores
    and the score 0 to documents sharing no token with the query), and
    sorts that leave equal scores in the order of their positions. *)

Module Demo.

Fixpoint words_from (s : string) (current : string) : list string :=
  match s with
  | EmptyString => if Py.truthy current then [current] else []
  | String c t =>
      if Ascii.eqb c " "
      then (if Py.truthy current then [current] else []) ++ words_from t EmptyString
      else words_from t (current ++ String c EmptyString)
  end.

Definition words (s : string) : list string := words_from s EmptyString.

Definition occurs (token : string) (query : list string) : bool :=
  existsb (String.eqb token) query.

Definition count_scores (corpus : list (list string)) (query : list string) : list Q :=
  map (fun doc =>
         inject_Z (Z.of_nat (List.length (List.filter (fun token => occurs token query) doc))))
      corpus.

Definition collaborators : Collaborators := {|
  LANGDETECT_AVAILABLE := true;
  detect := fun text => Ok (if Py.startswith text "h" then "en" else "fr")%string;
  has_arabic := fun _ => false;
  normalize_text := fun text _ => Ok text;
  tokenize := fun text _ => Ok (words text);
  remove_stopwords := fun tokens _ => Ok tokens;
  split := words;
  encode := fun texts => Ok (map (fun _ => [1%Q; 0%Q]) texts);
  normalize_L2 := fun v => v;
  get_scores := count_scores;
  argsort_ties := fun _ _ => 0%nat;
  faiss_ties := fun _ _ _ _ => 0%nat
|}.

(** The same collaborators with a sort that is not stable: it places five
    positions as in [np.argsort([1, 1, 0, 0, 0]) = [3, 2, 4, 1, 0]]. *)
Definition unstable_sort : Collaborators := {|
  LANGDETECT_AVAILABLE := true;
  detect := detect (Collaborators := collaborators);
  has_arabic := has_arabic (Collaborators := collaborators);
  normalize_text := normalize_text (Collaborators := collaborators);
  tokenize := tokenize (Collaborators := collaborators);
  remove_stopwords := remove_stopwords (Collaborators := collaborators);
  split := split (Collaborators := collaborators);
  encode := encode (Collaborators := collaborators);
  normalize_L2 := normalize_L2 (Collaborators := collaborators);
  get_scores := count_scores;
  argsort_ties := fun _ i => nth i [1; 0; 1; 0; 2]%nat 0%nat;
  faiss_ties := fun _ _ _ _ => 0%nat
|}.

Definition doc (i l : string) : Document := mkDocument i (Some l) i.

(** A retriever object answering every query with the same list, and one
    whose [search] always raises. *)
Definition constant_retriever (results : list SearchResult) : Retriever :=
  mkRetriever (fun _ _ _ => Ok results).

Definition failing_retriever : Retriever :=
  mkRetriever (fun _ _ _ => Raise RuntimeError).

Definition vector_results : list SearchResult :=
  [ sub_result (doc "a" "fr") (9 # 10) 1;
    sub_result (doc "b" "fr") (5 # 10) 2;
    sub_result (doc "c" "fr") (1 # 10) 3 ].

Definition lexical_results : list SearchResult :=
  [ sub_result (doc "b" "fr") 4 1;
    sub_result (doc "d" "fr") 2 2 ].

End Demo.

(** ** Vocabulary of the statements *)

Definition doc_id (r : SearchResult) : string := id (document r).

(** [lo] is the least and [hi] the greatest element of a list of scores. *)
Definition least (lo : Q) (l : list Q) : Prop := In lo l /\ Forall (Qle lo) l.
Definition greatest (hi : Q) (l : list Q) : Prop := In hi l /\ Forall (fun s => s <= hi)%Q l.

(** Min-max normalisation of one score, with 1 for a source whose scores
    are all equal. *)
Definition min_max (lo hi s : Q) : Q :=
  if Qeq_bool hi lo then 1%Q else ((s - lo) / (hi - lo))%Q.

(** [normalized] is the min-max normalisation of [results]: same documents
    in the same order, each score rescaled by the extrema of the source. *)
Definition min_max_normalized (results normalized : list SearchResult) : Prop :=
  exists lo hi,
    least lo (map score results) /\ greatest hi (map score results) /\
    Forall2 (fun r n => document n = document r /\ score n = min_max lo hi (score r))
            results normalized.

(** The score a source gives to a document identifier: the score of its last
    result for that identifier, if it has one. *)
Fixpoint source_score (results : list SearchResult) (k : string) : option Q :=
  match results with
  | [] => None
  | r :: rest =>
      match source_score rest k with
      | Some s => Some s
      | None => if String.eqb (doc_id r) k then Some (score r) else None
      end
  end.

(** The contribution of a source to a document: 0 when the document is
    missing from the source. *)
Definition contribution (results : list SearchResult) (k : string) : Q :=
  match source_score results k with
  | Some s => s
  | None => 0%Q
  end.

(** Descending order of fused scores. *)
Definition by_score_desc (a b : SearchResult) : Prop := (score b <= score a)%Q.


(** Views of the [doc_scores] dictionary used in the statements. *)
Definition keys (d : HybridRetriever.DocScores) : list string := map fst d.

Definition faiss_part (d : HybridRetriever.DocScores) (k : string) : Q :=
  match HybridRetriever.dict_get d k with
  | Some e => HybridRetriever.e_faiss_score e
  | None => 0%Q
  end.

Definition bm25_part (d : HybridRetriever.DocScores) (k : string) : Q :=
  match HybridRetriever.dict_get d k with
  | Some e => HybridRetriever.e_bm25_score e
  | None => 0%Q
  end.

(** Every entry is stored under the identifier of its document. *)
Definition keyed_by_id (d : HybridRetriever.DocScores) : Prop :=
  Forall (fun kv => id (HybridRetriever.e_document (snd kv)) = fst kv) d.


(** A loop body that stores each result under its document identifier. *)
Definition stores_by_id
    (step : HybridRetriever.DocScores -> SearchResult -> HybridRetriever.DocScores) : Prop :=
  forall d r, exists e,
    step d r = HybridRetriever.dict_set d (doc_id r) e /\
    (keyed_by_id d -> id (HybridRetriever.e_document e) = doc_id r).

Definition entry_id (e : HybridRetriever.Entry) : string :=
  id (HybridRetriever.e_document e).

(** The fused score the weights give to a document identifier. *)
Definition fused_score (faiss_weight bm25_weight : Q)
    (faiss_normalized bm25_normalized : list SearchResult) (k : string) : Q :=
  (faiss_weight * contribution faiss_normalized k
   + bm25_weight * contribution bm25_normalized k)%Q.

(** The document the fused results carry for an identifier.  The loop over
    the vector results writes a whole entry for each result, so the last
    vector result with that identifier gives the document; the loop over
    the lexical results makes an entry only for an identifier that has
    none yet, so otherwise the first lexical result gives it. *)
Fixpoint last_document (results : list SearchResult) (k : string) : option Document :=
  match results with
  | [] => None
  | r :: rest =>
      match last_document rest k with
      | Some doc => Some doc
      | None => if String.eqb (doc_id r) k then Some (document r) else None
      end
  end.

Fixpoint first_document (results : list SearchResult) (k : string) : option Document :=
  match results with
  | [] => None
  | r :: rest =>
      if String.eqb (doc_id r) k then Some (document r) else first_document rest k
  end.

Definition fused_document (faiss_results bm25_results : list SearchResult) (k : string)
  : option Document :=
  match last_document faiss_results k with
  | Some doc => Some doc
  | None => first_document bm25_results k
  end.

Definition doc_part (d : HybridRetriever.DocScores) (k : string) : option Document :=
  match HybridRetriever.dict_get d k with
  | Some e => Some (HybridRetriever.e_document e)
  | None => None
  end.

(** Ranks count from 1 along the list. *)
Definition ranked_from_one (ranking : list SearchResult) : Prop :=
  forall i r, nth_error ranking i = Some r -> rank r = Z.of_nat i + 1.


(** The fused results for a list of entries, before truncation. *)
Definition ranking_of (entries : list HybridRetriever.Entry) : list SearchResult :=
  map HybridRetriever.final_result (Py.enumerate entries).


Definition score_at (scores : list Q) (i : nat) : Q := nth i scores 0%Q.



(** The place of [i] in a list of positions: the ties under which a sort
    answers that list. *)
Fixpoint place_in (order : list nat) (i : nat) : nat :=
  match order with
  | [] => O
  | j :: rest => if Nat.eqb i j then O else S (place_in rest i)
  end.

(** [results] are the documents at the corpus positions [positions], with
    their scores. *)
Definition results_at (documents : list Document) (scores : list Q)
    (positions : list nat) (results : list SearchResult) : Prop :=
  Forall2 (fun idx r =>
             nth_error documents idx = Some (document r) /\
             score r = score_at scores idx)
          positions results.


(** The corpus positions the result loop of the lexical search keeps. *)
Definition kept_positions (documents : list Document) (scores : list Q)
    (top_indices : list nat) : list nat :=
  List.filter
    (fun idx =>
       match nth_error documents idx with
       | Some _ => if Qlt_le_dec 0 (nth idx scores 0%Q) then true else false
       | None => false
       end)
    top_indices.

(** The language [BM25Retriever.search] works with. *)
Definition bm25_language {env : Collaborators} (query : string) (language : option string)
  : string :=
  match language with
  | Some l => if Py.truthy l then l else detect_language query
  | None => detect_language query
  end.


(** ** A small corpus *)

Module Corpus.

Definition documents : list Document :=
  [ mkDocument "d0" (Some "fr"%string) "capital minimum";
    mkDocument "d1" (Some "fr"%string) "capital minimum";
    mkDocument "d2" (Some "fr"%string) "delai immatriculation";
    mkDocument "d3" (Some "fr"%string) "documents requis";
    mkDocument "d4" (Some "fr"%string) "registre commerce";
    mkDocument "d5" (Some "ar"%string) "wathaiq matlouba";
    mkDocument "d6" (Some "en"%string) "hello capital";
    mkDocument "d7" None "capital" ].

Definition texts : list string := map content documents.

(** The lexical retriever after [build_index(texts, documents)], without a
    data path. *)
Definition lexical : BM25Retriever.t :=
  match BM25Retriever.build_index (env := Demo.collaborators)
          (BM25Retriever.init None) ∅ texts documents with
  | Ok (self, _) => self
  | Raise _ => BM25Retriever.init None
  end.

(** The vector retriever after [build_index(texts, documents)], without an
    index path. *)
Definition vector : FAISSRetriever.t :=
  match FAISSRetriever.build_index (env := Demo.collaborators)
          (FAISSRetriever.init None) ∅ texts documents with
  | Ok (self, _) => self
  | Raise _ => FAISSRetriever.init None
  end.

(** The French and the Arabic documents, and the vector retriever built
    from them alone. *)
Definition supported_documents : list Document :=
  List.filter (fun doc => language_is doc "fr" || language_is doc "ar") documents.

Definition vector_supported : FAISSRetriever.t :=
  match FAISSRetriever.build_index (env := Demo.collaborators)
          (FAISSRetriever.init None) ∅ (map content supported_documents)
          supported_documents with
  | Ok (self, _) => self
  | Raise _ => FAISSRetriever.init None
  end.

End Corpus.



(** The candidates of the vector search that survive the result loop's
    checks: a label inside the document list and, under a language filter,
    a document of that language. *)
Definition passes_filter (language : option string) (doc : Document) : bool :=
  negb match language with
       | Some l => Py.truthy l && FAISSRetriever.language_differs doc l
       | None => false
       end.

Definition matching (documents : list Document) (language : option string)
    (candidates : list (Q * Z)) : list (Document * Q) :=
  flat_map
    (fun c : Q * Z =>
       let (s, idx) := c in
       if (idx <? 0) || (idx >=? Py.len documents) then []
       else match nth_error documents (Z.to_nat idx) with
            | Some doc => if passes_filter language doc then [(doc, s)] else []
            | None => []
            end)
    candidates.

(** Results numbered from rank [n + 1]. *)
Definition ranked_from (n : nat) (items : list (Document * Q)) : list SearchResult :=
  map (fun it : nat * (Document * Q) =>
         sub_result (fst (snd it)) (snd (snd it)) (Z.of_nat (fst it) + 1))
      (Py.enumerate_from n items).


(** A document whose language is neither ['fr'] nor ['ar'] (or is unset). *)
Definition unsupported_language (doc : Document) : Prop :=
  language doc <> Some "fr"%string /\ language doc <> Some "ar"%string.

(** [doc] is in none of the result lists of the vector retriever. *)
Definition never_returned {env : Collaborators} (self : FAISSRetriever.t)
    (doc : Document) : Prop :=
  forall query top_k language,
    ~ In doc (map document (FAISSRetriever.search self query top_k language)).


(** No readable snapshot at [path]: the file is missing, or present but not
    readable. *)
Definition missing (fs : gmap string File) (path : string) : Prop :=
  fs !! path = None.

Definition corrupt (fs : gmap string File) (path : string) : Prop :=
  exists bytes, fs !! path = Some (Unreadable bytes).

(** Persistence scenarios on the small corpus. *)
Module Snapshots.

(** A lexical retriever whose data path has no directory part. *)
Definition bare_path : string := "bm25_data.pkl".

(** A vector retriever whose index path does not contain [".bin"]. *)
Definition faiss_path : string := "data/index.faiss".

Definition build_lexical (path : string) : BM25Retriever.t * gmap string File :=
  match BM25Retriever.build_index (env := Demo.collaborators)
          (BM25Retriever.init (Some path)) ∅ Corpus.texts Corpus.documents with
  | Ok built => built
  | Raise _ => (BM25Retriever.init (Some path), ∅)
  end.

Definition build_vector (path : string) : FAISSRetriever.t * gmap string File :=
  match FAISSRetriever.build_index (env := Demo.collaborators)
          (FAISSRetriever.init (Some path)) ∅ Corpus.texts Corpus.documents with
  | Ok built => built
  | Raise _ => (FAISSRetriever.init (Some path), ∅)
  end.

(** A fresh retriever after [load_index] on the store the build left. *)
Definition reload_lexical (path : string) : bool * BM25Retriever.t :=
  BM25Retriever.load_index (BM25Retriever.init (Some path)) (snd (build_lexical path)).

Definition reload_vector (path : string) : bool * FAISSRetriever.t :=
  FAISSRetriever.load_index (FAISSRetriever.init (Some path)) (snd (build_vector path)).

End Snapshots.


(** The answer of a [load_index] tells a missing snapshot from an unreadable
    one. *)
Definition distinguishes_missing_from_corrupt {T : Type}
    (load_index : gmap string File -> bool * T) (path : string) : Prop :=
  forall fs_missing fs_corrupt,
    missing fs_missing path -> corrupt fs_corrupt path ->
    load_index fs_missing <> load_index fs_corrupt.


(** The corpus positions with a strictly positive score. *)
Definition positive_positions (scores : list Q) : list nat :=
  List.filter (fun i => if Qlt_le_dec 0 (nth i scores 0%Q) then true else false)
              (seq 0 (List.length scores)).


(** What [BM25Retriever.build_index] keeps of one language: the pairs
    (text, document) of that language whose text has tokens. *)
Definition indexed_pairs {env : Collaborators} (l : string)
    (texts : list string) (docs : list Document) : list (string * Document) :=
  List.filter (fun td => negb (is_empty (preprocess (fst td) (Some l))))
    (List.filter (fun td => language_is (snd td) l) (combine texts docs)).


(** The pairs (text, document) that [FAISSRetriever.build_index] keeps:
    those whose text is not blank. *)
Definition nonblank_pairs (texts : list string) (docs : list Document)
  : list (string * Document) :=
  List.filter (fun td => Py.truthy (fst td) && Py.truthy (Py.strip (fst td)))
              (combine texts docs).

(** An encoder that returns one row per text. *)
Definition encoder_row_per_text {env : Collaborators} : Prop :=
  forall texts embeddings,
    encode texts = Ok embeddings -> List.length embeddings = List.length texts.


(** The collaborators of [Demo], with an encoder that always raises. *)
Definition broken_encoder : Collaborators := {|
  LANGDETECT_AVAILABLE := true;
  detect := detect (Collaborators := Demo.collaborators);
  has_arabic := has_arabic (Collaborators := Demo.collaborators);
  normalize_text := normalize_text (Collaborators := Demo.collaborators);
  tokenize := tokenize (Collaborators := Demo.collaborators);
  remove_stopwords := remove_stopwords (Collaborators := Demo.collaborators);
  split := split (Collaborators := Demo.collaborators);
  encode := fun _ => Raise RuntimeError;
  normalize_L2 := fun v => v;
  get_scores := Demo.count_scores;
  argsort_ties := fun _ _ => 0%nat;
  faiss_ties := fun _ _ _ _ => 0%nat
|}.


(** More string built-ins. *)
Module PyStr.

(** [sub in s] *)
Fixpoint contains (s sub : string) : bool :=
  Py.startswith s sub ||
  match s with
  | EmptyString => false
  | String _ t => contains t sub
  end.

End PyStr.


(** The identifiers of a list in order of first occurrence: the order in
    which a dictionary receives its keys. *)
Definition add_key (acc : list string) (k : string) : list string :=
  if existsb (String.eqb k) acc then acc else acc ++ [k].

Definition first_occurrences (l : list string) : list string :=
  fold_left add_key l [].

(** The results of a ranking whose score equals [c]. *)
Definition with_score (c : Q) (ranking : list SearchResult) : list SearchResult :=
  List.filter (fun r => Qeq_bool (score r) c) ranking.


(** More of the string built-ins (code points below 256). *)
Module PyChar.

(** [c.lower()]: the letters A-Z and the upper-case letters of Latin-1
    (192-214 and 216-222) move 32 places up. *)
Definition lower_char (c : ascii) : ascii :=
  let n := nat_of_ascii c in
  if ((65 <=? n) && (n <=? 90) || (192 <=? n) && (n <=? 214)
      || (216 <=? n) && (n <=? 222))%nat
  then ascii_of_nat (n + 32)
  else c.

(** [s.lower()] *)
Fixpoint lower (s : string) : string :=
  match s with
  | EmptyString => EmptyString
  | String c t => String (lower_char c) (lower t)
  end.

(** The one-character string of code point [n]. *)
Definition chr (n : nat) : string := String (ascii_of_nat n) EmptyString.

End PyChar.

(** ** app/services/text_processor.py: keywords *)

Module TextProcessor.

(** The loop that removes duplicates while preserving order; [seen] holds
    the lower-cased keywords met so far. *)
Fixpoint unique_keywords (keywords : list string) (seen : list string) : list string :=
  match keywords with
  | [] => []
  | keyword :: rest =>
      if existsb (String.eqb (PyChar.lower keyword)) seen
      then unique_keywords rest seen
      else keyword :: unique_keywords rest (PyChar.lower keyword :: seen)
  end.

Definition extract_keywords {env : Collaborators} (text : string)
    (language : option string) (max_keywords : Z) : list string :=
  if negb (Py.truthy text) then []
  else
    let tokens := preprocess text language in
    let keywords := List.filter (fun token => (3 <=? String.length token)%nat) tokens in
    Py.slice_to max_keywords (unique_keywords keywords []).

End TextProcessor.


(** ** app/utils/language_detector.py *)

(** The parts of the detector that look for Arabic script, which strings of
    code points below 256 cannot hold: the compiled [arabic_pattern], the
    number of Arabic keywords found in a text, and the comparison with the
    Arabic name of the language in [validate_language]. *)
Record ArabicPatterns : Type := mkArabicPatterns {
  arabic_pattern_search : string -> bool;
  arabic_keyword_matches : string -> nat;
  is_arabic_name : string -> bool
}.

Module LanguageDetector.

Record t : Type := mk {
  supported_languages : list string;
  default_language : string
}.

(** [LanguageDetector(supported_languages, default_language)]:
    [supported_languages or ['fr', 'ar']]. *)
Definition init (supported : option (list string)) (default : string) : t :=
  mk (match supported with
      | Some (l :: ls) => l :: ls
      | _ => ["fr"; "ar"]%string
      end) default.

(** [l in ls] *)
Definition member (l : string) (ls : list string) : bool :=
  existsb (String.eqb l) ls.

(** [l if l in self.supported_languages else self.default_language] *)
Definition supported_or_default (self : t) (l : string) : string :=
  if member l (supported_languages self) then l else default_language self.

Definition french_keywords : list string :=
  [ "quel"; "quelle"; "quels"; "quelles"; "comment"; "pourquoi"; "quand";
    "o" ++ PyChar.chr 249; "combien"; "est"; "sont";
    PyChar.chr 234 ++ "tre"; "avoir"; "faire"; "aller"; "venir";
    "soci" ++ PyChar.chr 233 ++ "t" ++ PyChar.chr 233; "entreprise";
    "cr" ++ PyChar.chr 233 ++ "ation"; "capital";
    "d" ++ PyChar.chr 233 ++ "lai"; "document" ]%string.

(** The code points of the accented letters of the last pattern. *)
Definition accented : list nat :=
  [224; 226; 228; 233; 232; 234; 235; 239; 238; 244; 246; 249; 251; 252; 255; 231]%nat.

Fixpoint has_accent (s : string) : bool :=
  match s with
  | EmptyString => false
  | String c t => existsb (Nat.eqb (nat_of_ascii c)) accented || has_accent t
  end.

Section WithCollaborators.
Context {env : Collaborators} (arabic : ArabicPatterns).

Definition _detect_with_patterns (self : t) (text : string) : string :=
  let text_lower := PyChar.lower text in
  if arabic_pattern_search arabic text then supported_or_default self "ar"
  else
    let french_matches :=
      List.length (List.filter (fun word => PyStr.contains text_lower word)
                               french_keywords) in
    let arabic_matches := arabic_keyword_matches arabic text in
    if (french_matches <? arabic_matches)%nat && (0 <? arabic_matches)%nat
    then supported_or_default self "ar"
    else if (0 <? french_matches)%nat then supported_or_default self "fr"
    else if has_accent text_lower then supported_or_default self "fr"
    else default_language self.

Definition detect_language (self : t) (text : string) : string :=
  if negb (Py.truthy text) || (String.length (Py.strip text) <? 2)%nat
  then default_language self
  else
    let text := Py.strip text in
    if LANGDETECT_AVAILABLE then
      try_except
        (let! detected_lang := detect text in
         Ok (if member detected_lang ["ar"; "arb"]%string
             then supported_or_default self "ar"
             else if String.eqb detected_lang "fr"
             then supported_or_default self "fr"
             else if member detected_lang (supported_languages self)
             then detected_lang
             else _detect_with_patterns self text))
        (fun _ => _detect_with_patterns self text)
    else _detect_with_patterns self text.

(** [language_mappings.get(lang)] *)
Definition language_mapping (lang : string) : option string :=
  if member lang ["french"; "francais"; "fran" ++ PyChar.chr 231 ++ "ais"]%string
  then Some "fr"%string
  else if member lang ["arabic"; "arabe"]%string || is_arabic_name arabic lang
  then Some "ar"%string
  else None.

Definition validate_language (self : t) (language_code : string) : string :=
  if negb (Py.truthy language_code) then default_language self
  else
    let lang := Py.strip (PyChar.lower language_code) in
    let lang := match language_mapping lang with
                | Some mapped => mapped
                | None => lang
                end in
    if member lang (supported_languages self) then lang
    else default_language self.

End WithCollaborators.

End LanguageDetector.

(** No Arabic script is found: the patterns on texts of code points below
    256. *)
Definition no_arabic : ArabicPatterns :=
  mkArabicPatterns (fun _ => false) (fun _ => 0%nat) (fun _ => false).


(** ** app/main.py *)

Module Main.

Section WithCollaborators.
Context {env : Collaborators}.

(** The retrievers part of [initialize_components]: load both snapshots,
    build what did not load.  [texts] and [docs] stand for the result of
    [data_loader.extract_text_for_indexing()], which is only asked for when
    something has to be built.  Returns the two retrievers handed to
    [HybridRetriever] and the store after the call. *)
Definition initialize_components (FAISS_INDEX_PATH BM25_DATA_PATH : string)
    (fs : gmap string File) (texts : list string) (docs : list Document)
  : Result (FAISSRetriever.t * BM25Retriever.t * gmap string File) :=
  let faiss_retriever := FAISSRetriever.init (Some FAISS_INDEX_PATH) in
  let bm25_retriever := BM25Retriever.init (Some BM25_DATA_PATH) in
  let (faiss_loaded, faiss_retriever) := FAISSRetriever.load_index faiss_retriever fs in
  let (bm25_loaded, bm25_retriever) := BM25Retriever.load_index bm25_retriever fs in
  if negb (faiss_loaded && bm25_loaded) then
    let! built_faiss :=
      if negb faiss_loaded
      then FAISSRetriever.build_index faiss_retriever fs texts docs
      else Ok (faiss_retriever, fs) in
    let (faiss_retriever, fs) := built_faiss in
    let! built_bm25 :=
      if negb bm25_loaded
      then BM25Retriever.build_index bm25_retriever fs texts docs
      else Ok (bm25_retriever, fs) in
    let (bm25_retriever, fs) := built_bm25 in
    Ok (faiss_retriever, bm25_retriever, fs)
  else Ok (faiss_retriever, bm25_retriever, fs).

End WithCollaborators.

End Main.


(** * Properties *)

(** ** Strings and slices *)

(** A string made of white space only (the empty string included). *)
Definition only_whitespace (s : string) : Prop :=
  Forall (fun c => Py.isspace c = true) (list_ascii_of_string s).

Lemma lstrip_only_whitespace (s : string) :
  only_whitespace s -> Py.lstrip s = EmptyString.
Proof.
  unfold only_whitespace.
  induction s as [|c t IH]; simpl; intros Hs; [reflexivity|].
  inversion Hs as [|? ? Hc Ht]; subst.
  rewrite Hc. now apply IH.
Qed.

Lemma blank_only_whitespace (s : string) :
  only_whitespace s -> Py.blank s = true.
Proof.
  intros Hs. unfold Py.blank, Py.strip.
  rewrite (lstrip_only_whitespace s Hs). simpl.
  now rewrite orb_true_r.
Qed.

Lemma rstrip_nonempty_if (s : string) :
  Py.rstrip s = EmptyString -> only_whitespace s.
Proof.
  unfold only_whitespace.
  induction s as [|c t IH]; simpl; intros Hs; [constructor|].
  destruct (Py.rstrip t) eqn:Ht.
  - destruct (Py.isspace c) eqn:Hc; [|discriminate].
    constructor; [exact Hc | now apply IH].
  - discriminate.
Qed.

Lemma lstrip_suffix_whitespace (s : string) :
  only_whitespace (Py.lstrip s) -> only_whitespace s.
Proof.
  unfold only_whitespace.
  induction s as [|c t IH]; simpl; intros Hs; [constructor|].
  destruct (Py.isspace c) eqn:Hc.
  - constructor; [exact Hc | now apply IH].
  - exact Hs.
Qed.

(** The guard of the three [search] methods fires exactly on the empty string
    and on strings of white space. *)
Lemma blank_iff (s : string) : Py.blank s = true <-> only_whitespace s.
Proof.
  split; [|apply blank_only_whitespace].
  unfold Py.blank, Py.strip. intros Hb.
  apply orb_true_iff in Hb. destruct Hb as [Hb|Hb].
  - destruct s; [constructor | discriminate].
  - apply lstrip_suffix_whitespace, rstrip_nonempty_if.
    destruct (Py.rstrip (Py.lstrip s)); [reflexivity | discriminate].
Qed.

Lemma slice_to_nonneg {A : Type} (k : Z) (l : list A) :
  0 <= k -> Py.slice_to k l = firstn (Z.to_nat k) l.
Proof.
  intros Hk. unfold Py.slice_to.
  destruct (k <? 0) eqn:E; [apply Z.ltb_lt in E; lia | reflexivity].
Qed.

Lemma slice_to_nil {A : Type} (k : Z) : Py.slice_to k (@nil A) = [].
Proof.
  unfold Py.slice_to. destruct (k <? 0); now rewrite firstn_nil.
Qed.

Lemma slice_to_length {A : Type} (k : Z) (l : list A) :
  0 <= k -> Py.len (Py.slice_to k l) <= k.
Proof.
  intros Hk. rewrite slice_to_nonneg by exact Hk.
  unfold Py.len. rewrite length_firstn. lia.
Qed.

Lemma is_empty_true {A : Type} (l : list A) : is_empty l = true <-> l = [].
Proof. destruct l; simpl; split; congruence. Qed.

Lemma is_empty_false {A : Type} (l : list A) : is_empty l = false <-> l <> [].
Proof. destruct l; simpl; split; congruence. Qed.

(** ** Control flow of [HybridRetriever.search] *)

Section HybridControl.
Context {env : Collaborators}.

Lemma hybrid_search_unfold (self : HybridRetriever.t) query top_k language :
  Py.blank query = false ->
  HybridRetriever.search self query top_k language =
    let F := source_results (HybridRetriever.faiss_retriever self) query top_k language in
    let B := source_results (HybridRetriever.bm25_retriever self) query top_k language in
    match F, B with
    | [], [] => []
    | [], _ :: _ => Py.slice_to top_k B
    | _ :: _, [] => Py.slice_to top_k F
    | _ :: _, _ :: _ => HybridRetriever._combine_results self F B top_k
    end.
Proof.
  intros Hq. unfold HybridRetriever.search, source_results, resolved_language.
  rewrite Hq. cbv zeta.
  destruct (HybridRetriever.guarded_search (HybridRetriever.faiss_retriever self) _ _ _);
    destruct (HybridRetriever.guarded_search (HybridRetriever.bm25_retriever self) _ _ _);
    reflexivity.
Qed.

Lemma guarded_search_raise (r : Retriever) query k language e :
  search r query k (Some language) = Raise e ->
  HybridRetriever.guarded_search (Some r) query k language = [].
Proof. intros Hr. unfold HybridRetriever.guarded_search. now rewrite Hr. Qed.

Lemma hybrid_one_source_empty (self : HybridRetriever.t) query top_k language :
  Py.blank query = false ->
  let F := source_results (HybridRetriever.faiss_retriever self) query top_k language in
  let B := source_results (HybridRetriever.bm25_retriever self) query top_k language in
  (F = [] -> HybridRetriever.search self query top_k language = Py.slice_to top_k B) /\
  (B = [] -> HybridRetriever.search self query top_k language = Py.slice_to top_k F).
Proof.
  intros Hq F B. rewrite (hybrid_search_unfold self query top_k language Hq).
  fold F B. cbv zeta.
  split; intros E; rewrite E.
  - destruct B; [now rewrite slice_to_nil | reflexivity].
  - destruct F; [now rewrite slice_to_nil | reflexivity].
Qed.

(** C3. When exactly one source holds results after the sub-searches,
    [search] returns that source's list cut to its first [top_k] elements,
    elements unchanged; when neither does, it returns the empty list. *)
Theorem hybrid_degraded_mode (self : HybridRetriever.t) query top_k language :
  Py.blank query = false ->
  0 <= top_k ->
  let F := source_results (HybridRetriever.faiss_retriever self) query top_k language in
  let B := source_results (HybridRetriever.bm25_retriever self) query top_k language in
  (F = [] -> B <> [] ->
     HybridRetriever.search self query top_k language = firstn (Z.to_nat top_k) B) /\
  (F <> [] -> B = [] ->
     HybridRetriever.search self query top_k language = firstn (Z.to_nat top_k) F) /\
  (F = [] -> B = [] ->
     HybridRetriever.search self query top_k language = []).
Proof.
  intros Hq Hk F B.
  destruct (hybrid_one_source_empty self query top_k language Hq) as [HF HB].
  fold F B in HF, HB.
  repeat split.
  - intros E _. now rewrite HF, slice_to_nonneg.
  - intros _ E. now rewrite HB, slice_to_nonneg.
  - intros E1 E2. now rewrite HF, E2, slice_to_nil.
Qed.

(** C8. An exception raised by one sub-retriever's [search] leaves that
    source empty: [search] then returns the other source's results cut to
    [top_k] (the empty list when the other source has none or fails too). *)
Theorem hybrid_sub_search_exception (self : HybridRetriever.t) query top_k language
    (r : Retriever) (e : Exception) :
  Py.blank query = false ->
  search r query (Z.max (top_k * 2) 10) (Some (resolved_language query language)) = Raise e ->
  (HybridRetriever.faiss_retriever self = Some r ->
     HybridRetriever.search self query top_k language =
       Py.slice_to top_k
         (source_results (HybridRetriever.bm25_retriever self) query top_k language)) /\
  (HybridRetriever.bm25_retriever self = Some r ->
     HybridRetriever.search self query top_k language =
       Py.slice_to top_k
         (source_results (HybridRetriever.faiss_retriever self) query top_k language)).
Proof.
  intros Hq Hr.
  destruct (hybrid_one_source_empty self query top_k language Hq) as [HF HB].
  split; intros Hs; [apply HF | apply HB];
    unfold source_results; rewrite Hs; eapply guarded_search_raise; exact Hr.
Qed.

End HybridControl.

Lemma hybrid_degraded_mode_witness :
  HybridRetriever.search (env := Demo.collaborators)
    (HybridRetriever.mk None (Some (Demo.constant_retriever Demo.lexical_results)) (1 # 2) (1 # 2))
    "capital" 1 (Some "fr"%string)
  = [sub_result (Demo.doc "b" "fr") 4 1].
Proof.
  pose proof (hybrid_degraded_mode (env := Demo.collaborators)
    (HybridRetriever.mk None (Some (Demo.constant_retriever Demo.lexical_results)) (1 # 2) (1 # 2))
    "capital" 1 (Some "fr"%string) eq_refl ltac:(lia)) as [H1 _].
  rewrite H1; [reflexivity | reflexivity | discriminate].
Defined.

Lemma hybrid_sub_search_exception_witness :
  HybridRetriever.search (env := Demo.collaborators)
    (HybridRetriever.mk (Some Demo.failing_retriever)
       (Some (Demo.constant_retriever Demo.lexical_results)) (1 # 2) (1 # 2))
    "capital" 1 None
  = [sub_result (Demo.doc "b" "fr") 4 1].
Proof.
  pose proof (hybrid_sub_search_exception (env := Demo.collaborators)
    (HybridRetriever.mk (Some Demo.failing_retriever)
       (Some (Demo.constant_retriever Demo.lexical_results)) (1 # 2) (1 # 2))
    "capital" 1 None Demo.failing_retriever RuntimeError eq_refl eq_refl) as [H1 _].
  rewrite H1; reflexivity.
Defined.

(** ** Empty queries *)

(** C9. On a query that is empty or made of white space only, the three
    [search] methods return the empty list, whatever the state of the
    retrievers, [top_k] and the language. *)
Theorem empty_query_returns_nothing {env : Collaborators} (query : string)
    (b : BM25Retriever.t) (f : FAISSRetriever.t) (h : HybridRetriever.t)
    (top_k : Z) (language : option string) :
  only_whitespace query ->
  BM25Retriever.search b query top_k language = [] /\
  FAISSRetriever.search f query top_k language = [] /\
  HybridRetriever.search h query top_k language = [].
Proof.
  intros Hq. apply blank_only_whitespace in Hq.
  unfold BM25Retriever.search, FAISSRetriever.search, HybridRetriever.search.
  rewrite Hq. repeat split.
  now destruct (FAISSRetriever.index f).
Qed.

Lemma empty_query_returns_nothing_witness :
  only_whitespace "   " /\
  BM25Retriever.search (env := Demo.collaborators) (BM25Retriever.init None) "   " 3 None = [] /\
  FAISSRetriever.search (env := Demo.collaborators) (FAISSRetriever.init None) "   " 3 None = [] /\
  HybridRetriever.search (env := Demo.collaborators)
    (HybridRetriever.mk None (Some (Demo.constant_retriever Demo.lexical_results)) 1 1)
    "   " 3 None = [].
Proof.
  assert (Hw : only_whitespace "   ") by (repeat constructor).
  split; [exact Hw|].
  apply (empty_query_returns_nothing (env := Demo.collaborators) "   "
           (BM25Retriever.init None) (FAISSRetriever.init None)
           (HybridRetriever.mk None (Some (Demo.constant_retriever Demo.lexical_results)) 1 1)
           3 None Hw).
Defined.

(** ** Sorting *)

Section StableSort.
Context {A : Type} (leb : A -> A -> bool).
Hypothesis leb_total : forall a b, leb a b = true \/ leb b a = true.
Hypothesis leb_trans : forall a b c, leb a b = true -> leb b c = true -> leb a c = true.

Local Abbreviation R := (fun a b : A => leb a b = true).

Lemma insert_sorted_perm (x : A) (l : list A) :
  Permutation (Py.insert_sorted leb x l) (x :: l).
Proof.
  induction l as [|y t IH]; simpl; [reflexivity|].
  destruct (leb x y); [reflexivity|].
  rewrite IH. apply perm_swap.
Qed.

Lemma stable_sort_perm (l : list A) : Permutation (Py.stable_sort leb l) l.
Proof.
  induction l as [|x t IH]; simpl; [reflexivity|].
  rewrite insert_sorted_perm. now constructor.
Qed.

Lemma insert_sorted_sorted (x : A) (l : list A) :
  StronglySorted R l -> StronglySorted R (Py.insert_sorted leb x l).
Proof.
  induction l as [|y t IH]; simpl; intros Hs.
  - repeat constructor.
  - inversion Hs as [|? ? Ht Hy]; subst.
    destruct (leb x y) eqn:E.
    + constructor; [exact Hs|].
      constructor; [exact E|].
      eapply List.Forall_impl; [|exact Hy].
      intros z Hz. eapply leb_trans; eassumption.
    + constructor; [now apply IH|].
      eapply Permutation_Forall; [symmetry; apply insert_sorted_perm|].
      constructor; [|exact Hy].
      destruct (leb_total x y) as [C|C]; [congruence | exact C].
Qed.

Lemma stable_sort_sorted (l : list A) : StronglySorted R (Py.stable_sort leb l).
Proof.
  induction l as [|x t IH]; simpl; [constructor|].
  now apply insert_sorted_sorted.
Qed.



End StableSort.

(** The order by key, then by place. *)
Lemma key_then_place_iff {A : Type} (key : A -> Q) (place : A -> nat) (a b : A) :
  Py.key_then_place key place a b = true <->
  (key a < key b)%Q \/ ((key a == key b)%Q /\ (place a <= place b)%nat).
Proof.
  unfold Py.key_then_place.
  destruct (Qcompare_spec (key a) (key b)) as [E|L|G].
  - rewrite Nat.leb_le. split; [auto | intros [C|[_ C]]; [lra | exact C]].
  - split; auto.
  - split; [discriminate | intros [C|[C _]]; lra].
Qed.

Lemma key_then_place_total {A : Type} (key : A -> Q) (place : A -> nat) (a b : A) :
  Py.key_then_place key place a b = true \/ Py.key_then_place key place b a = true.
Proof.
  rewrite !key_then_place_iff.
  destruct (Q_dec (key a) (key b)) as [[L|G]|E]; [now left; left | now right; left |].
  destruct (Nat.le_ge_cases (place a) (place b)); [left | right]; right;
    (split; [lra | assumption]).
Qed.

Lemma key_then_place_trans {A : Type} (key : A -> Q) (place : A -> nat) (a b c : A) :
  Py.key_then_place key place a b = true ->
  Py.key_then_place key place b c = true ->
  Py.key_then_place key place a c = true.
Proof.
  rewrite !key_then_place_iff.
  intros [L1|[E1 P1]] [L2|[E2 P2]]; try (left; lra).
  right. split; [lra | lia].
Qed.

Lemma StronglySorted_weaken {A : Type} (R R' : A -> A -> Prop) (l : list A) :
  (forall a b, R a b -> R' a b) -> StronglySorted R l -> StronglySorted R' l.
Proof.
  intros HR. induction 1 as [|x t Ht IH Hx]; constructor; [exact IH|].
  eapply List.Forall_impl; [|exact Hx]. intros b. apply HR.
Qed.

Lemma sorted_reverse_perm {A : Type} (key : A -> Q) (l : list A) :
  Permutation (Py.sorted_reverse key l) l.
Proof. apply stable_sort_perm. Qed.

Lemma sorted_reverse_sorted {A : Type} (key : A -> Q) (l : list A) :
  StronglySorted (fun a b => (key b <= key a)%Q) (Py.sorted_reverse key l).
Proof.
  unfold Py.sorted_reverse.
  eapply StronglySorted_weaken.
  2: { apply stable_sort_sorted.
       - intros a b. rewrite !Qle_bool_iff.
         destruct (Qlt_le_dec (key a) (key b)) as [C|C]; [right | left]; auto.
         now apply Qlt_le_weak.
       - intros a b c. rewrite !Qle_bool_iff. intros H1 H2.
         eapply Qle_trans; eassumption. }
  intros a b E. now apply Qle_bool_iff.
Qed.

(** ** Score normalisation *)

Lemma Qmin_cases (x y : Q) : Qmin x y = x \/ Qmin x y = y.
Proof. unfold Qmin, GenericMinMax.gmin. destruct (x ?= y)%Q; auto. Qed.

Lemma Qmax_cases (x y : Q) : Qmax x y = x \/ Qmax x y = y.
Proof. unfold Qmax, GenericMinMax.gmax. destruct (x ?= y)%Q; auto. Qed.

Lemma min_of_least (l : list Q) (x : Q) : least (Py.min_of x l) (x :: l).
Proof.
  unfold Py.min_of. revert x.
  induction l as [|y t IH]; intros x; simpl.
  - split; [now left | constructor; [apply Qle_refl | constructor]].
  - destruct (IH (Qmin x y)) as [Hin Hle]. split.
    + destruct Hin as [E|Hin]; [|right; now right].
      rewrite <- E. destruct (Qmin_cases x y) as [C|C]; rewrite C; simpl; auto.
    + inversion Hle as [|? ? Hm Ht]; subst.
      constructor; [|constructor]; [| |exact Ht].
      * eapply Qle_trans; [exact Hm | apply Q.le_min_l].
      * eapply Qle_trans; [exact Hm | apply Q.le_min_r].
Qed.

Lemma max_of_greatest (l : list Q) (x : Q) : greatest (Py.max_of x l) (x :: l).
Proof.
  unfold Py.max_of. revert x.
  induction l as [|y t IH]; intros x; simpl.
  - split; [now left | constructor; [apply Qle_refl | constructor]].
  - destruct (IH (Qmax x y)) as [Hin Hle]. split.
    + destruct Hin as [E|Hin]; [|right; now right].
      rewrite <- E. destruct (Qmax_cases x y) as [C|C]; rewrite C; simpl; auto.
    + inversion Hle as [|? ? Hm Ht]; subst.
      constructor; [|constructor]; [| |exact Ht].
      * eapply Qle_trans; [apply Q.le_max_l | exact Hm].
      * eapply Qle_trans; [apply Q.le_max_r | exact Hm].
Qed.

Lemma normalize_scores_map (r0 : SearchResult) (rest : list SearchResult) :
  HybridRetriever._normalize_scores (r0 :: rest) =
  map (fun r => set_score
                  (min_max (Py.min_of (score r0) (map score rest))
                           (Py.max_of (score r0) (map score rest)) (score r)) r)
      (r0 :: rest).
Proof.
  unfold HybridRetriever._normalize_scores, min_max.
  destruct (Qeq_bool _ _); reflexivity.
Qed.

(** [_normalize_scores] is min-max normalisation. *)
Lemma normalize_scores_min_max (results : list SearchResult) :
  results <> [] ->
  min_max_normalized results (HybridRetriever._normalize_scores results).
Proof.
  destruct results as [|r0 rest]; [congruence|]. intros _.
  exists (Py.min_of (score r0) (map score rest)),
         (Py.max_of (score r0) (map score rest)).
  split; [apply (min_of_least (map score rest) (score r0))|].
  split; [apply (max_of_greatest (map score rest) (score r0))|].
  rewrite normalize_scores_map.
  generalize (Py.min_of (score r0) (map score rest)) as lo.
  generalize (Py.max_of (score r0) (map score rest)) as hi.
  intros hi lo. induction (r0 :: rest) as [|r t IH]; simpl; constructor; auto.
Qed.

Lemma normalize_scores_nonempty (results : list SearchResult) :
  results <> [] -> HybridRetriever._normalize_scores results <> [].
Proof.
  destruct results as [|r0 rest]; [congruence|]. intros _.
  rewrite normalize_scores_map. discriminate.
Qed.

Lemma least_le_greatest (lo hi : Q) (l : list Q) :
  least lo l -> greatest hi l -> (lo <= hi)%Q.
Proof.
  intros [Hin _] [_ Hhi].
  rewrite List.Forall_forall in Hhi. now apply Hhi.
Qed.

(** A normalised score lies in [0, 1]. *)
Lemma min_max_range (lo hi s : Q) (l : list Q) :
  least lo l -> greatest hi l -> In s l -> (0 <= min_max lo hi s <= 1)%Q.
Proof.
  intros Hlo Hhi Hs. unfold min_max.
  destruct (Qeq_bool hi lo) eqn:E; [split; discriminate|].
  apply Qeq_bool_neq in E.
  pose proof (least_le_greatest lo hi l Hlo Hhi) as Hle.
  assert (Hlt : (0 < hi - lo)%Q).
  { unfold Qminus. apply (proj1 (Qlt_minus_iff lo hi)). apply Qle_lt_or_eq in Hle.
    destruct Hle as [C|C]; [exact C | exfalso; apply E; now symmetry]. }
  destruct Hlo as [_ Hlo], Hhi as [_ Hhi].
  rewrite List.Forall_forall in Hlo, Hhi.
  specialize (Hlo s Hs). specialize (Hhi s Hs).
  split.
  - apply Qle_shift_div_l; [exact Hlt|].
    rewrite Qmult_0_l. unfold Qminus. apply (proj1 (Qle_minus_iff lo s)). exact Hlo.
  - apply Qle_shift_div_r; [exact Hlt|].
    rewrite Qmult_1_l. unfold Qminus. apply Qplus_le_compat; [exact Hhi | apply Qle_refl].
Qed.

(** The score 1 is given to every result exactly when all the scores of the
    source are equal. *)
Lemma min_max_uniform (lo hi : Q) (l : list Q) :
  least lo l -> greatest hi l ->
  (Qeq_bool hi lo = true <-> forall s s', In s l -> In s' l -> s == s')%Q.
Proof.
  intros Hlo Hhi. split.
  - intros E s s' Hs Hs'. apply Qeq_bool_eq in E.
    destruct Hlo as [_ Hlo], Hhi as [_ Hhi].
    rewrite List.Forall_forall in Hlo, Hhi.
    apply Qle_antisym.
    + eapply Qle_trans; [apply (Hhi s Hs)|]. rewrite E. now apply Hlo.
    + eapply Qle_trans; [apply (Hhi s' Hs')|]. rewrite E. now apply Hlo.
  - intros Hall. apply Qeq_eq_bool. apply Hall; [apply Hhi | apply Hlo].
Qed.

(** ** The [doc_scores] dictionary *)

Section DocScores.
Import HybridRetriever.

Lemma dict_get_set (d : DocScores) (k k' : string) (e : Entry) :
  dict_get (dict_set d k e) k' = if String.eqb k' k then Some e else dict_get d k'.
Proof.
  induction d as [|[k0 e0] rest IH]; simpl; [reflexivity|].
  destruct (String.eqb k k0) eqn:E; simpl.
  - apply String.eqb_eq in E. subst k0. now destruct (String.eqb k' k).
  - rewrite IH. destruct (String.eqb k' k0) eqn:E0; [|reflexivity].
    apply String.eqb_eq in E0. subst k0.
    rewrite String.eqb_sym in E. now rewrite E.
Qed.

Lemma dict_get_None (d : DocScores) (k : string) :
  dict_get d k = None <-> ~ In k (keys d).
Proof.
  induction d as [|[k0 e0] rest IH]; simpl; [tauto|].
  destruct (String.eqb k k0) eqn:E.
  - apply String.eqb_eq in E. split; [discriminate | intros C; exfalso; auto].
  - apply String.eqb_neq in E. rewrite IH. intuition congruence.
Qed.

Lemma dict_get_Some_In (d : DocScores) (k : string) (e : Entry) :
  dict_get d k = Some e -> In (k, e) d.
Proof.
  induction d as [|[k0 e0] rest IH]; simpl; [discriminate|].
  destruct (String.eqb k k0) eqn:E.
  - apply String.eqb_eq in E. intros [= ->]. left. now subst.
  - intros Hg. right. now apply IH.
Qed.

Lemma dict_get_In (d : DocScores) (k : string) (e : Entry) :
  List.NoDup (keys d) -> In (k, e) d -> dict_get d k = Some e.
Proof.
  induction d as [|[k0 e0] rest IH]; simpl; [tauto|].
  intros Hnd Hin. apply List.NoDup_cons_iff in Hnd. destruct Hnd as [Hk0 Hnd].
  destruct Hin as [[= -> ->]|Hin].
  - now rewrite String.eqb_refl.
  - destruct (String.eqb k k0) eqn:E.
    + apply String.eqb_eq in E. subst k0. exfalso. apply Hk0.
      unfold keys. apply (in_map fst) in Hin. exact Hin.
    + now apply IH.
Qed.

Lemma keys_dict_set (d : DocScores) (k : string) (e : Entry) :
  keys (dict_set d k e) =
  match dict_get d k with
  | Some _ => keys d
  | None => keys d ++ [k]
  end.
Proof.
  induction d as [|[k0 e0] rest IH]; simpl; [reflexivity|].
  destruct (String.eqb k k0) eqn:E; simpl.
  - apply String.eqb_eq in E. now subst.
  - rewrite IH. now destruct (dict_get rest k).
Qed.

Lemma keys_dict_set_In (d : DocScores) (k k' : string) (e : Entry) :
  In k' (keys (dict_set d k e)) <-> In k' (keys d) \/ k' = k.
Proof.
  rewrite keys_dict_set. destruct (dict_get d k) eqn:E.
  - split; [tauto|]. intros [C| ->]; [exact C|].
    apply dict_get_Some_In in E. apply (in_map fst) in E. exact E.
  - rewrite in_app_iff. simpl. intuition congruence.
Qed.

Lemma keys_dict_set_NoDup (d : DocScores) (k : string) (e : Entry) :
  List.NoDup (keys d) -> List.NoDup (keys (dict_set d k e)).
Proof.
  intros Hnd. rewrite keys_dict_set. destruct (dict_get d k) eqn:E; [exact Hnd|].
  apply dict_get_None in E.
  apply List.NoDup_app; [exact Hnd | |].
  - constructor; [simpl; tauto | constructor].
  - intros x Hx [<-|[]]. auto.
Qed.

Lemma keyed_dict_set (d : DocScores) (k : string) (e : Entry) :
  keyed_by_id d -> id (e_document e) = k -> keyed_by_id (dict_set d k e).
Proof.
  unfold keyed_by_id. intros Hd He.
  induction d as [|[k0 e0] rest IH]; simpl.
  - repeat constructor. exact He.
  - inversion_clear Hd as [|? ? H0 Hrest].
    destruct (String.eqb k k0); constructor; auto.
Qed.

End DocScores.

(** ** The two accumulation loops of [_combine_results] *)

Section Accumulation.
Import HybridRetriever.
Variable w : Q.

Lemma source_score_cons (r : SearchResult) (rest : list SearchResult) (k : string) :
  source_score (r :: rest) k =
  match source_score rest k with
  | Some s => Some s
  | None => if String.eqb (doc_id r) k then Some (score r) else None
  end.
Proof. reflexivity. Qed.

Lemma source_score_Some_In (results : list SearchResult) (k : string) (s : Q) :
  source_score results k = Some s ->
  exists r, In r results /\ doc_id r = k /\ score r = s.
Proof.
  induction results as [|r rest IH]; [discriminate|].
  rewrite source_score_cons. destruct (source_score rest k) as [s'|] eqn:E.
  - intros [= <-]. destruct (IH eq_refl) as (r' & Hin & Hk & Hs).
    exists r'. simpl. auto.
  - destruct (String.eqb (doc_id r) k) eqn:Ek; [|discriminate].
    intros [= <-]. apply String.eqb_eq in Ek. exists r. simpl. auto.
Qed.

Lemma source_score_None (results : list SearchResult) (k : string) :
  source_score results k = None <-> ~ In k (map doc_id results).
Proof.
  induction results as [|r rest IH]; [simpl; tauto|].
  rewrite source_score_cons. simpl.
  destruct (source_score rest k) as [s'|] eqn:E.
  - split; [discriminate|]. intros C. exfalso.
    assert (Hn : ~ In k (map doc_id rest)) by tauto.
    apply IH in Hn. discriminate.
  - destruct (String.eqb (doc_id r) k) eqn:Ek.
    + apply String.eqb_eq in Ek. split; [discriminate | tauto].
    + apply String.eqb_neq in Ek. split; [|reflexivity].
      intros _ [C|C]; [congruence|]. now apply IH in C.
Qed.

Lemma add_faiss_parts (d : DocScores) (r : SearchResult) (k : string) :
  faiss_part (add_faiss w d r) k =
    (if String.eqb (doc_id r) k then score r * w else faiss_part d k)%Q /\
  bm25_part (add_faiss w d r) k =
    (if String.eqb (doc_id r) k then 0 else bm25_part d k)%Q.
Proof.
  unfold faiss_part, bm25_part, add_faiss. rewrite dict_get_set.
  fold (doc_id r). rewrite (String.eqb_sym k).
  destruct (String.eqb (doc_id r) k); split; reflexivity.
Qed.

Lemma add_bm25_parts (d : DocScores) (r : SearchResult) (k : string) :
  faiss_part (add_bm25 w d r) k = faiss_part d k /\
  bm25_part (add_bm25 w d r) k =
    (if String.eqb (doc_id r) k then score r * w else bm25_part d k)%Q.
Proof.
  unfold faiss_part, bm25_part, add_bm25. fold (doc_id r).
  destruct (dict_get d (doc_id r)) as [e|] eqn:E;
    rewrite dict_get_set, (String.eqb_sym k);
    destruct (String.eqb (doc_id r) k) eqn:Ek; simpl; try (split; reflexivity);
    apply String.eqb_eq in Ek; subst k; rewrite E; split; reflexivity.
Qed.

Lemma fold_add_faiss_parts (results : list SearchResult) (d : DocScores) (k : string) :
  faiss_part (fold_left (add_faiss w) results d) k =
    match source_score results k with
    | Some s => (s * w)%Q
    | None => faiss_part d k
    end /\
  bm25_part (fold_left (add_faiss w) results d) k =
    match source_score results k with
    | Some _ => 0%Q
    | None => bm25_part d k
    end.
Proof.
  revert d. induction results as [|r rest IH]; intros d; [split; reflexivity|].
  simpl fold_left. rewrite source_score_cons.
  destruct (IH (add_faiss w d r)) as [IHf IHb]. rewrite IHf, IHb.
  destruct (add_faiss_parts d r k) as [Hf Hb]. rewrite Hf, Hb.
  destruct (source_score rest k); [split; reflexivity|].
  destruct (String.eqb (doc_id r) k); split; reflexivity.
Qed.

Lemma fold_add_bm25_parts (results : list SearchResult) (d : DocScores) (k : string) :
  faiss_part (fold_left (add_bm25 w) results d) k = faiss_part d k /\
  bm25_part (fold_left (add_bm25 w) results d) k =
    match source_score results k with
    | Some s => (s * w)%Q
    | None => bm25_part d k
    end.
Proof.
  revert d. induction results as [|r rest IH]; intros d; [split; reflexivity|].
  simpl fold_left. rewrite source_score_cons.
  destruct (IH (add_bm25 w d r)) as [IHf IHb]. rewrite IHf, IHb.
  destruct (add_bm25_parts d r k) as [Hf Hb]. rewrite Hf, Hb.
  destruct (source_score rest k); [split; reflexivity|].
  destruct (String.eqb (doc_id r) k); split; reflexivity.
Qed.

Lemma add_faiss_doc (d : DocScores) (r : SearchResult) (k : string) :
  doc_part (add_faiss w d r) k =
    if String.eqb (doc_id r) k then Some (document r) else doc_part d k.
Proof.
  unfold doc_part, add_faiss. rewrite dict_get_set.
  fold (doc_id r). rewrite (String.eqb_sym k).
  now destruct (String.eqb (doc_id r) k).
Qed.

Lemma add_bm25_doc (d : DocScores) (r : SearchResult) (k : string) :
  doc_part (add_bm25 w d r) k =
    match doc_part d k with
    | Some doc => Some doc
    | None => if String.eqb (doc_id r) k then Some (document r) else None
    end.
Proof.
  unfold doc_part, add_bm25. fold (doc_id r).
  destruct (dict_get d (doc_id r)) as [e|] eqn:E;
    rewrite dict_get_set, (String.eqb_sym k);
    destruct (String.eqb (doc_id r) k) eqn:Ek; simpl;
    try (now destruct (dict_get d k));
    apply String.eqb_eq in Ek; subst k; now rewrite E.
Qed.

Lemma fold_add_faiss_doc (results : list SearchResult) (d : DocScores) (k : string) :
  doc_part (fold_left (add_faiss w) results d) k =
    match last_document results k with
    | Some doc => Some doc
    | None => doc_part d k
    end.
Proof.
  revert d. induction results as [|r rest IH]; intros d; [reflexivity|].
  simpl fold_left. rewrite IH, add_faiss_doc. simpl.
  destruct (last_document rest k); [reflexivity|].
  now destruct (String.eqb (doc_id r) k).
Qed.

Lemma fold_add_bm25_doc (results : list SearchResult) (d : DocScores) (k : string) :
  doc_part (fold_left (add_bm25 w) results d) k =
    match doc_part d k with
    | Some doc => Some doc
    | None => first_document results k
    end.
Proof.
  revert d. induction results as [|r rest IH]; intros d; simpl.
  - now destruct (doc_part d k).
  - rewrite IH, add_bm25_doc.
    destruct (doc_part d k); [reflexivity|].
    now destruct (String.eqb (doc_id r) k).
Qed.

Lemma add_faiss_stores : stores_by_id (add_faiss w).
Proof. intros d r. eexists. split; [reflexivity | reflexivity]. Qed.

Lemma add_bm25_stores : stores_by_id (add_bm25 w).
Proof.
  intros d r. unfold add_bm25. fold (doc_id r).
  destruct (dict_get d (doc_id r)) as [e|] eqn:E; eexists; split; try reflexivity.
  simpl. intros Hd. apply dict_get_Some_In in E.
  unfold keyed_by_id in Hd. rewrite List.Forall_forall in Hd. apply (Hd _ E).
Qed.

Lemma fold_stores_keys (step : DocScores -> SearchResult -> DocScores)
    (results : list SearchResult) (d : DocScores) :
  stores_by_id step ->
  List.NoDup (keys d) -> keyed_by_id d ->
  List.NoDup (keys (fold_left step results d)) /\
  keyed_by_id (fold_left step results d) /\
  (forall k, In k (keys (fold_left step results d)) <->
             In k (keys d) \/ In k (map doc_id results)).
Proof.
  intros Hstep. revert d.
  induction results as [|r rest IH]; intros d Hnd Hkd; simpl.
  - repeat split; auto. tauto.
  - destruct (Hstep d r) as (e & He & Hid). rewrite He.
    destruct (IH (dict_set d (doc_id r) e)) as (H1 & H2 & H3).
    + now apply keys_dict_set_NoDup.
    + apply keyed_dict_set; auto.
    + repeat split; auto.
      * intros Hin. apply H3 in Hin. rewrite keys_dict_set_In in Hin.
        intuition auto.
      * intros Hin. apply H3. rewrite keys_dict_set_In. intuition auto.
Qed.

End Accumulation.

(** ** Fusion *)

Section Fusion.
Import HybridRetriever.

Lemma normalize_scores_ids (results : list SearchResult) :
  map doc_id (_normalize_scores results) = map doc_id results.
Proof.
  destruct results as [|r0 rest]; [reflexivity|].
  rewrite normalize_scores_map, map_map. reflexivity.
Qed.

Lemma Forall2_range (lo hi : Q) (l : list Q) (results normalized : list SearchResult) :
  least lo l -> greatest hi l ->
  (forall r, In r results -> In (score r) l) ->
  Forall2 (fun r n => document n = document r /\ score n = min_max lo hi (score r))
          results normalized ->
  Forall (fun n => 0 <= score n <= 1)%Q normalized.
Proof.
  intros Hlo Hhi Hin H2. induction H2 as [|r n rs ns [_ Hs] _ IH]; constructor.
  - rewrite Hs. eapply min_max_range; eauto. apply Hin. now left.
  - apply IH. intros r' Hr'. apply Hin. now right.
Qed.

Lemma min_max_normalized_range (results normalized : list SearchResult) :
  min_max_normalized results normalized ->
  Forall (fun n => 0 <= score n <= 1)%Q normalized.
Proof.
  intros (lo & hi & Hlo & Hhi & H2).
  eapply Forall2_range; eauto. intros r. apply in_map.
Qed.

Lemma keyed_keys (d : DocScores) :
  keyed_by_id d -> map entry_id (dict_values (map set_combined d)) = keys d.
Proof.
  unfold keyed_by_id, dict_values, keys. rewrite !map_map.
  induction 1 as [|[k e] rest Hk _ IH]; simpl; [reflexivity|].
  f_equal; [exact Hk | exact IH].
Qed.

(** The values of [doc_scores] after the three loops. *)
Lemma combined_entries (fw bw : Q) (NF NB : list SearchResult) :
  let d := fold_left (add_bm25 bw) NB (fold_left (add_faiss fw) NF []) in
  let values := dict_values (map set_combined d) in
  List.NoDup (map entry_id values) /\
  (forall k, In k (map entry_id values) <-> In k (map doc_id NF) \/ In k (map doc_id NB)) /\
  Forall (fun e => e_combined_score e == fused_score fw bw NF NB (entry_id e))%Q values.
Proof.
  intros d values.
  destruct (fold_stores_keys (add_faiss fw) NF [] (add_faiss_stores fw))
    as (Hnd1 & Hk1 & Hin1); [constructor | constructor |].
  destruct (fold_stores_keys (add_bm25 bw) NB _ (add_bm25_stores bw) Hnd1 Hk1)
    as (Hnd2 & Hk2 & Hin2).
  fold d in Hnd2, Hk2, Hin2.
  unfold values. rewrite (keyed_keys d Hk2).
  split; [exact Hnd2|]. split.
  - intros k. rewrite Hin2, Hin1. simpl. tauto.
  - apply List.Forall_forall. intros e' He'.
    unfold dict_values in He'. rewrite map_map in He'.
    apply in_map_iff in He'. destruct He' as ([k e] & <- & Hin).
    assert (Hk : id (e_document e) = k).
    { unfold keyed_by_id in Hk2. rewrite List.Forall_forall in Hk2. apply (Hk2 _ Hin). }
    pose proof (dict_get_In d k e Hnd2 Hin) as Hget.
    destruct (fold_add_bm25_parts bw NB (fold_left (add_faiss fw) NF []) k) as [Hf Hb].
    destruct (fold_add_faiss_parts fw NF [] k) as [Hf1 Hb1].
    fold d in Hf, Hb. unfold faiss_part, bm25_part in Hf, Hb. rewrite Hget in Hf, Hb.
    unfold faiss_part in Hf1. unfold bm25_part in Hb1.
    simpl in Hf1, Hb1. fold (faiss_part (fold_left (add_faiss fw) NF []) k) in Hf.
    fold (bm25_part (fold_left (add_faiss fw) NF []) k) in Hb.
    unfold faiss_part in Hf. unfold bm25_part in Hb.
    rewrite Hf1 in Hf. rewrite Hb1 in Hb.
    unfold entry_id, fused_score, contribution. simpl. rewrite Hk, Hf, Hb.
    destruct (source_score NF k), (source_score NB k); ring.
Qed.

(** The parts and the document of each value of [doc_scores]. *)
Lemma combined_entries_parts (fw bw : Q) (NF NB : list SearchResult) :
  let d := fold_left (add_bm25 bw) NB (fold_left (add_faiss fw) NF []) in
  let values := dict_values (map set_combined d) in
  Forall (fun e =>
            (e_faiss_score e == contribution NF (entry_id e) * fw)%Q /\
            (e_bm25_score e == contribution NB (entry_id e) * bw)%Q /\
            e_combined_score e = (e_faiss_score e + e_bm25_score e)%Q /\
            fused_document NF NB (entry_id e) = Some (e_document e))
         values.
Proof.
  intros d values.
  destruct (fold_stores_keys (add_faiss fw) NF [] (add_faiss_stores fw))
    as (Hnd1 & Hk1 & Hin1); [constructor | constructor |].
  destruct (fold_stores_keys (add_bm25 bw) NB _ (add_bm25_stores bw) Hnd1 Hk1)
    as (Hnd2 & Hk2 & Hin2).
  fold d in Hnd2, Hk2, Hin2.
  apply List.Forall_forall. intros e' He'.
  unfold values, dict_values in He'. rewrite map_map in He'.
  apply in_map_iff in He'. destruct He' as ([k e] & <- & Hin).
  assert (Hk : id (e_document e) = k).
  { unfold keyed_by_id in Hk2. rewrite List.Forall_forall in Hk2. apply (Hk2 _ Hin). }
  pose proof (dict_get_In d k e Hnd2 Hin) as Hget.
  destruct (fold_add_bm25_parts bw NB (fold_left (add_faiss fw) NF []) k) as [Hf Hb].
  destruct (fold_add_faiss_parts fw NF [] k) as [Hf1 Hb1].
  pose proof (fold_add_bm25_doc bw NB (fold_left (add_faiss fw) NF []) k) as Hd.
  pose proof (fold_add_faiss_doc fw NF [] k) as Hd1.
  fold d in Hf, Hb, Hd. rewrite Hf1 in Hf. rewrite Hb1 in Hb. rewrite Hd1 in Hd.
  unfold faiss_part, bm25_part, doc_part in Hf, Hb, Hd. rewrite Hget in Hf, Hb, Hd.
  simpl in Hf, Hb, Hd.
  unfold entry_id, fused_document, contribution. simpl. rewrite Hk, Hf, Hb.
  repeat split.
  - destruct (source_score NF k); [reflexivity | ring].
  - destruct (source_score NB k); [|destruct (source_score NF k)]; ring.
  - destruct (last_document NF k); [now injection Hd as -> | now symmetry].
Qed.

Lemma last_document_set_score (g : SearchResult -> Q) (results : list SearchResult)
    (k : string) :
  last_document (map (fun r => set_score (g r) r) results) k = last_document results k.
Proof. induction results as [|r rest IH]; simpl; [reflexivity | now rewrite IH]. Qed.

Lemma first_document_set_score (g : SearchResult -> Q) (results : list SearchResult)
    (k : string) :
  first_document (map (fun r => set_score (g r) r) results) k = first_document results k.
Proof. induction results as [|r rest IH]; simpl; [reflexivity | now rewrite IH]. Qed.

(** Normalising the scores changes no document. *)
Lemma fused_document_normalized (F B : list SearchResult) (k : string) :
  fused_document (_normalize_scores F) (_normalize_scores B) k = fused_document F B k.
Proof.
  unfold fused_document.
  assert (HF : last_document (_normalize_scores F) k = last_document F k).
  { destruct F as [|f0 F']; [reflexivity|].
    rewrite normalize_scores_map. apply last_document_set_score. }
  assert (HB : first_document (_normalize_scores B) k = first_document B k).
  { destruct B as [|b0 B']; [reflexivity|].
    rewrite normalize_scores_map. apply first_document_set_score. }
  now rewrite HF, HB.
Qed.

End Fusion.

(** ** Truncation and ranks *)

Lemma enumerate_from_firstn {A : Type} (n k : nat) (l : list A) :
  Py.enumerate_from n (firstn k l) = firstn k (Py.enumerate_from n l).
Proof.
  revert n k. induction l as [|x t IH]; intros n [|k]; simpl; try reflexivity.
  now rewrite IH.
Qed.

Lemma enumerate_from_length {A : Type} (n : nat) (l : list A) :
  List.length (Py.enumerate_from n l) = List.length l.
Proof. revert n. induction l as [|x t IH]; intros n; simpl; [reflexivity | now rewrite IH]. Qed.

Lemma enumerate_from_snd {A : Type} (n : nat) (l : list A) :
  map snd (Py.enumerate_from n l) = l.
Proof. revert n. induction l as [|x t IH]; intros n; simpl; [reflexivity | now rewrite IH]. Qed.

Lemma enumerate_from_app {A : Type} (n : nat) (l l' : list A) :
  Py.enumerate_from n (l ++ l') =
  Py.enumerate_from n l ++ Py.enumerate_from (n + List.length l) l'.
Proof.
  revert n. induction l as [|x t IH]; intros n; simpl.
  - now rewrite Nat.add_0_r.
  - rewrite IH. now rewrite Nat.add_succ_r.
Qed.

(** Cutting before or after formatting gives the same list. *)
Lemma slice_to_map_enumerate {A B : Type} (f : nat * A -> B) (k : Z) (l : list A) :
  map f (Py.enumerate (Py.slice_to k l)) = Py.slice_to k (map f (Py.enumerate l)).
Proof.
  unfold Py.slice_to, Py.enumerate, Py.len.
  rewrite length_map, enumerate_from_length.
  destruct (k <? 0); now rewrite enumerate_from_firstn, firstn_map.
Qed.

Section Ranking.
Import HybridRetriever.

Lemma final_results_rank (n : nat) (entries : list Entry) (i : nat) (r : SearchResult) :
  nth_error (map final_result (Py.enumerate_from n entries)) i = Some r ->
  rank r = Z.of_nat (n + i) + 1.
Proof.
  revert n i. induction entries as [|e t IH]; intros n [|i]; simpl; try discriminate.
  - intros [= <-]. simpl. now rewrite Nat.add_0_r.
  - intros Hr. rewrite (IH _ _ Hr). f_equal. lia.
Qed.

Lemma final_results_view (n : nat) (entries : list Entry) :
  map doc_id (map final_result (Py.enumerate_from n entries)) = map entry_id entries /\
  map score (map final_result (Py.enumerate_from n entries)) = map e_combined_score entries.
Proof.
  revert n. induction entries as [|e t IH]; intros n; simpl; [split; reflexivity|].
  destruct (IH (S n)) as [H1 H2]. rewrite H1, H2. split; reflexivity.
Qed.

Lemma final_results_Forall (P : string -> Q -> Prop) (n : nat) (entries : list Entry) :
  Forall (fun e => P (entry_id e) (e_combined_score e)) entries ->
  Forall (fun r => P (doc_id r) (score r)) (map final_result (Py.enumerate_from n entries)).
Proof.
  intros H. revert n. induction H as [|e t He _ IH]; intros n; simpl; constructor; auto.
Qed.

Lemma final_results_sorted (n : nat) (entries : list Entry) :
  StronglySorted (fun a b => e_combined_score b <= e_combined_score a)%Q entries ->
  StronglySorted by_score_desc (map final_result (Py.enumerate_from n entries)).
Proof.
  intros H. revert n. induction H as [|e t _ IH He]; intros n; simpl; constructor.
  - apply IH.
  - apply (final_results_Forall (fun _ s => s <= e_combined_score e)%Q (S n) t He).
Qed.

(** Each formatted result carries the fields of its entry. *)
Lemma final_results_entries (P : Entry -> Prop) (n : nat) (entries : list Entry) :
  Forall P entries ->
  Forall (fun r => exists e,
            P e /\ document r = e_document e /\ score r = e_combined_score e /\
            faiss_score r = Some (e_faiss_score e) /\
            bm25_score r = Some (e_bm25_score e))
         (map final_result (Py.enumerate_from n entries)).
Proof.
  intros H. revert n. induction H as [|e t He _ IH]; intros n; simpl; constructor; auto.
  exists e. repeat split. exact He.
Qed.

End Ranking.

(** ** Fused search *)

Section FusedSearch.
Context {env : Collaborators}.
Import HybridRetriever.

(** The fused ranking before truncation, formatted: every entry of
    [doc_scores], with the parts, the sum and the document the loops gave
    it. *)
Lemma combine_results_entries (self : t) (F B : list SearchResult) (top_k : Z) :
  exists ranking,
    _combine_results self F B top_k = Py.slice_to top_k ranking /\
    Forall (fun r => exists a b,
              faiss_score r = Some a /\ bm25_score r = Some b /\
              (a == contribution (_normalize_scores F) (doc_id r) * faiss_weight self)%Q /\
              (b == contribution (_normalize_scores B) (doc_id r) * bm25_weight self)%Q /\
              score r = (a + b)%Q /\
              fused_document F B (doc_id r) = Some (document r))
           ranking.
Proof.
  set (NF := _normalize_scores F). set (NB := _normalize_scores B).
  set (d := fold_left (add_bm25 (bm25_weight self)) NB
              (fold_left (add_faiss (faiss_weight self)) NF [])).
  set (values := dict_values (map set_combined d)).
  set (full := Py.sorted_reverse e_combined_score values).
  pose proof (combined_entries_parts (faiss_weight self) (bm25_weight self) NF NB) as Hparts.
  fold d values in Hparts.
  pose proof (sorted_reverse_perm e_combined_score values) as Hperm. fold full in Hperm.
  exists (ranking_of full). split.
  - unfold _combine_results, ranking_of. fold NF NB. fold d. fold values. fold full.
    apply slice_to_map_enumerate.
  - unfold ranking_of, Py.enumerate.
    eapply List.Forall_impl.
    2: { apply final_results_entries.
         eapply Permutation_Forall; [symmetry; exact Hperm | exact Hparts]. }
    intros r (e & (Hf & Hb & Hsum & Hdoc) & Hd & Hs & Hfs & Hbs).
    assert (Hid : doc_id r = entry_id e) by (unfold doc_id, entry_id; now rewrite Hd).
    exists (e_faiss_score e), (e_bm25_score e). rewrite Hid, Hd, Hs.
    repeat split; try assumption.
    unfold NF, NB in Hdoc. now rewrite fused_document_normalized in Hdoc.
Qed.

Lemma combine_results_ranking (self : t) (F B : list SearchResult) (top_k : Z) :
  exists ranking,
    Forall (fun r => score r ==
              fused_score (faiss_weight self) (bm25_weight self)
                (_normalize_scores F) (_normalize_scores B) (doc_id r))%Q ranking /\
    Forall (fun r => fused_document F B (doc_id r) = Some (document r)) ranking /\
    (forall k, In k (map doc_id ranking) <-> In k (map doc_id F) \/ In k (map doc_id B)) /\
    List.NoDup (map doc_id ranking) /\
    StronglySorted by_score_desc ranking /\
    ranked_from_one ranking /\
    _combine_results self F B top_k = Py.slice_to top_k ranking.
Proof.
  set (NF := _normalize_scores F). set (NB := _normalize_scores B).
  set (d := fold_left (add_bm25 (bm25_weight self)) NB
              (fold_left (add_faiss (faiss_weight self)) NF [])).
  set (values := dict_values (map set_combined d)).
  set (full := Py.sorted_reverse e_combined_score values).
  destruct (combined_entries (faiss_weight self) (bm25_weight self) NF NB)
    as (Hnd & Hin & Hsc).
  pose proof (combined_entries_parts (faiss_weight self) (bm25_weight self) NF NB) as Hparts.
  fold d values in Hnd, Hin, Hsc, Hparts.
  pose proof (sorted_reverse_perm e_combined_score values) as Hperm. fold full in Hperm.
  destruct (final_results_view 0 full) as [Hids Hscores].
  exists (ranking_of full). unfold ranking_of, Py.enumerate.
  split; [|split; [|split; [|split; [|split; [|split]]]]].
  - apply (final_results_Forall
             (fun k s => s == fused_score (faiss_weight self) (bm25_weight self) NF NB k)%Q).
    eapply Permutation_Forall; [symmetry; exact Hperm | exact Hsc].
  - eapply List.Forall_impl.
    2: { apply final_results_entries.
         eapply Permutation_Forall; [symmetry; exact Hperm | exact Hparts]. }
    intros r (e & (_ & _ & _ & Hdoc) & Hd & _).
    unfold NF, NB in Hdoc. rewrite fused_document_normalized in Hdoc.
    unfold doc_id. rewrite Hd. exact Hdoc.
  - intros k. rewrite Hids.
    unfold NF, NB in Hin. rewrite !normalize_scores_ids in Hin. rewrite <- Hin.
    split; apply Permutation_in; [|symmetry]; now apply Permutation_map.
  - rewrite Hids. eapply Permutation_NoDup; [|exact Hnd].
    symmetry. now apply Permutation_map.
  - apply final_results_sorted. apply sorted_reverse_sorted.
  - intros i r Hr. now rewrite (final_results_rank 0 full i r Hr).
  - unfold _combine_results. fold NF NB. fold d. fold values. fold full.
    apply slice_to_map_enumerate.
Qed.

(** C1. When both sources hold results after the sub-searches, [search]
    returns the first [top_k] elements of a ranking in which every document
    of either source appears once, scored
    [faiss_weight * v + bm25_weight * l] where [v] and [l] are the
    document's min-max normalised scores in the two sources (0 for a source
    it is missing from, 1 throughout a source whose scores are all equal,
    always within [0, 1]), ordered by descending score, with ranks 1, 2, ...
    Each result carries the document its source returned: the one of the
    vector result with its identifier (the last, should there be several),
    else the one of the first lexical result with it. *)
Theorem hybrid_fusion (self : t) (query : string) (top_k : Z) (language : option string) :
  Py.blank query = false ->
  let F := source_results (faiss_retriever self) query top_k language in
  let B := source_results (bm25_retriever self) query top_k language in
  F <> [] -> B <> [] ->
  exists NF NB ranking,
    min_max_normalized F NF /\ min_max_normalized B NB /\
    Forall (fun n => 0 <= score n <= 1)%Q NF /\
    Forall (fun n => 0 <= score n <= 1)%Q NB /\
    Forall (fun r => score r ==
              fused_score (faiss_weight self) (bm25_weight self) NF NB (doc_id r))%Q
           ranking /\
    Forall (fun r => fused_document F B (doc_id r) = Some (document r)) ranking /\
    (forall k, In k (map doc_id ranking) <-> In k (map doc_id F) \/ In k (map doc_id B)) /\
    List.NoDup (map doc_id ranking) /\
    StronglySorted by_score_desc ranking /\
    ranked_from_one ranking /\
    search self query top_k language = Py.slice_to top_k ranking /\
    (0 <= top_k ->
     search self query top_k language = firstn (Z.to_nat top_k) ranking).
Proof.
  intros Hq F B HF HB.
  destruct (combine_results_ranking self F B top_k)
    as (ranking & Hsc & Hdoc & Hin & Hnd & Hsorted & Hrank & Hres).
  exists (_normalize_scores F), (_normalize_scores B), ranking.
  pose proof (normalize_scores_min_max F HF) as HNF.
  pose proof (normalize_scores_min_max B HB) as HNB.
  repeat (split; [assumption || (now apply min_max_normalized_range with (results := F))
                  || (now apply min_max_normalized_range with (results := B))|]).
  assert (Hs : search self query top_k language = Py.slice_to top_k ranking).
  { rewrite (hybrid_search_unfold self query top_k language Hq).
    fold F B. cbv zeta.
    destruct F as [|f0 F']; [congruence|]. destruct B as [|b0 B']; [congruence|].
    exact Hres. }
  split; [exact Hs|]. intros Hk. rewrite Hs. now apply slice_to_nonneg.
Qed.

End FusedSearch.

Lemma hybrid_fusion_witness :
  exists NF NB ranking,
    min_max_normalized Demo.vector_results NF /\
    min_max_normalized Demo.lexical_results NB /\
    Forall (fun n => 0 <= score n <= 1)%Q NF /\
    Forall (fun n => 0 <= score n <= 1)%Q NB /\
    Forall (fun r => score r == fused_score (1 # 2) (1 # 2) NF NB (doc_id r))%Q ranking /\
    Forall (fun r => fused_document Demo.vector_results Demo.lexical_results (doc_id r)
                     = Some (document r)) ranking /\
    (forall k, In k (map doc_id ranking) <->
               In k (map doc_id Demo.vector_results) \/ In k (map doc_id Demo.lexical_results)) /\
    List.NoDup (map doc_id ranking) /\
    StronglySorted by_score_desc ranking /\
    ranked_from_one ranking /\
    HybridRetriever.search (env := Demo.collaborators)
      (HybridRetriever.mk (Some (Demo.constant_retriever Demo.vector_results))
         (Some (Demo.constant_retriever Demo.lexical_results)) (1 # 2) (1 # 2))
      "capital" 2 (Some "fr"%string)
    = Py.slice_to 2 ranking /\
    (0 <= 2 ->
     HybridRetriever.search (env := Demo.collaborators)
       (HybridRetriever.mk (Some (Demo.constant_retriever Demo.vector_results))
          (Some (Demo.constant_retriever Demo.lexical_results)) (1 # 2) (1 # 2))
       "capital" 2 (Some "fr"%string)
     = firstn (Z.to_nat 2) ranking).
Proof.
  apply (hybrid_fusion (env := Demo.collaborators)
           (HybridRetriever.mk (Some (Demo.constant_retriever Demo.vector_results))
              (Some (Demo.constant_retriever Demo.lexical_results)) (1 # 2) (1 # 2))
           "capital" 2 (Some "fr"%string) eq_refl); discriminate.
Defined.

(** ** Order of the lexical results *)


Section SortedLists.
Context {A : Type} (R : A -> A -> Prop).




End SortedLists.


Section Argsort.
Variables (ties : nat -> nat) (scores : list Q).



Lemma argsort_with_perm :
  Permutation (Np.argsort_with ties scores) (seq 0 (List.length scores)).
Proof. apply stable_sort_perm. Qed.

End Argsort.

(** *** Every order of the equal scores is the sort's for some ties *)

Lemma StronglySorted_weaken_In {A : Type} (R R' : A -> A -> Prop) (l : list A) :
  (forall a b, In a l -> In b l -> R a b -> R' a b) ->
  StronglySorted R l -> StronglySorted R' l.
Proof.
  intros HR Hs. induction Hs as [|x t Ht IH Hx]; constructor.
  - apply IH. intros a b Ha Hb. apply HR; now right.
  - rewrite List.Forall_forall in Hx. apply List.Forall_forall.
    intros b Hb. apply HR; [now left | now right | now apply Hx].
Qed.

(** Two lists with the same elements, both sorted for an order that no two
    elements satisfy both ways, are equal. *)
Lemma sorted_permutation_unique {A : Type} (R : A -> A -> Prop) (l l' : list A) :
  (forall a b, R a b -> R b a -> False) ->
  StronglySorted R l -> StronglySorted R l' -> Permutation l l' -> l = l'.
Proof.
  intros Hasym Hs. revert l'. induction Hs as [|x t Ht IH Hx]; intros l' Hs' Hp.
  - now apply Permutation_nil in Hp.
  - destruct Hs' as [|y t' Ht' Hy].
    + symmetry in Hp. now apply Permutation_nil in Hp.
    + assert (E : x = y).
      { assert (Hxin : In x (y :: t')) by (eapply Permutation_in; [exact Hp | now left]).
        assert (Hyin : In y (x :: t))
          by (eapply Permutation_in; [symmetry; exact Hp | now left]).
        destruct Hxin as [E|Hxin]; [now symmetry|].
        destruct Hyin as [E|Hyin]; [exact E|].
        rewrite List.Forall_forall in Hx, Hy.
        exfalso. exact (Hasym x y (Hx y Hyin) (Hy x Hxin)). }
      subst y. f_equal. apply IH; [exact Ht'|].
      eapply Permutation_cons_inv. exact Hp.
Qed.

Section AnyOrder.
Context {A : Type} (key : A -> Q) (idx : A -> nat).

(** By key, and by the place of the index in [order] among equal keys. *)
Local Abbreviation placed order :=
  (fun a b : A =>
     (key a < key b)%Q \/
     ((key a == key b)%Q /\
      (place_in (map idx order) (idx a) < place_in (map idx order) (idx b))%nat)).

Lemma place_in_injective (order : list nat) (i j : nat) :
  In i order -> In j order -> place_in order i = place_in order j -> i = j.
Proof.
  induction order as [|k rest IH]; simpl; [tauto|].
  intros Hi Hj.
  destruct (Nat.eqb i k) eqn:Ei, (Nat.eqb j k) eqn:Ej; try discriminate.
  - apply Nat.eqb_eq in Ei, Ej. congruence.
  - apply Nat.eqb_neq in Ei, Ej. intros [= E].
    apply IH; [destruct Hi; congruence | destruct Hj; congruence | exact E].
Qed.

Lemma order_placed (order : list A) :
  List.NoDup (map idx order) ->
  StronglySorted (fun a b => key a <= key b)%Q order ->
  StronglySorted (placed order) order.
Proof.
  intros Hnd Hs. induction Hs as [|a t Ht IH Ha]; [constructor|].
  simpl in Hnd. apply List.NoDup_cons_iff in Hnd. destruct Hnd as [Hna Hnd].
  assert (Hne : forall b, In b t -> Nat.eqb (idx b) (idx a) = false).
  { intros b Hb. apply Nat.eqb_neq. intros E. apply Hna. rewrite <- E.
    now apply in_map. }
  constructor.
  - apply (StronglySorted_weaken_In (placed t)); [|now apply IH].
    intros b c Hb Hc [L|[E Hp]]; [now left|]. right. split; [exact E|].
    simpl. rewrite (Hne b Hb), (Hne c Hc). lia.
  - rewrite List.Forall_forall in Ha. apply List.Forall_forall. intros b Hb.
    destruct (Qlt_le_dec (key a) (key b)) as [L|G]; [now left|].
    right. split; [specialize (Ha b Hb); lra|].
    simpl. rewrite Nat.eqb_refl, (Hne b Hb). lia.
Qed.

Lemma sorted_placed (order sorted : list A) :
  List.NoDup (map idx sorted) ->
  (forall a, In a sorted -> In (idx a) (map idx order)) ->
  StronglySorted
    (fun a b =>
       Py.key_then_place key (fun a => place_in (map idx order) (idx a)) a b = true)
    sorted ->
  StronglySorted (placed order) sorted.
Proof.
  intros Hnd Hin Hsorted. induction Hsorted as [|a t Ht IH Ha]; [constructor|].
  simpl in Hnd. apply List.NoDup_cons_iff in Hnd. destruct Hnd as [Hna Hnd].
  constructor; [apply IH; [exact Hnd | intros c Hc; apply Hin; now right]|].
  rewrite List.Forall_forall in Ha. apply List.Forall_forall. intros b Hb.
  specialize (Ha b Hb). apply key_then_place_iff in Ha.
  destruct Ha as [L|[E Hle]]; [now left|]. right. split; [exact E|].
  assert (place_in (map idx order) (idx a) <> place_in (map idx order) (idx b)).
  { intros C. apply place_in_injective in C;
      [|apply Hin; now left | apply Hin; now right].
    apply Hna. rewrite C. now apply in_map. }
  lia.
Qed.

(** Sorting [l] by key with the places of [order] gives [order], whenever
    [order] lists the elements of [l] by ascending key. *)
Lemma stable_sort_any_order (l order : list A) :
  List.NoDup (map idx l) ->
  Permutation order l ->
  StronglySorted (fun a b => key a <= key b)%Q order ->
  Py.stable_sort
    (Py.key_then_place key (fun a => place_in (map idx order) (idx a))) l
  = order.
Proof.
  intros Hnd Hp Hs.
  set (leb := Py.key_then_place key (fun a => place_in (map idx order) (idx a))).
  pose proof (stable_sort_perm leb l) as Hperm.
  assert (Hnd' : List.NoDup (map idx (Py.stable_sort leb l))).
  { eapply Permutation_NoDup; [|exact Hnd].
    apply Permutation_map. now symmetry. }
  assert (Hin : forall a, In a (Py.stable_sort leb l) -> In (idx a) (map idx order)).
  { intros a Ha. apply in_map. eapply Permutation_in; [symmetry; exact Hp|].
    eapply Permutation_in; [exact Hperm | exact Ha]. }
  apply (sorted_permutation_unique (placed order)).
  - intros a b [L1|[E1 P1]] [L2|[E2 P2]]; try lra. lia.
  - apply sorted_placed; [exact Hnd' | exact Hin|].
    apply (stable_sort_sorted leb
             (key_then_place_total _ _) (key_then_place_trans _ _) l).
  - apply order_placed; [|exact Hs].
    eapply Permutation_NoDup; [|exact Hnd]. apply Permutation_map. now symmetry.
  - now rewrite Hperm.
Qed.

End AnyOrder.

(** Whatever order [np.argsort] gives to the positions of equal score, it
    is the order of the model for some ties: every list of the positions by
    ascending score is an answer of [Np.argsort_with]. *)
Lemma argsort_with_any_order (scores : list Q) (order : list nat) :
  Permutation order (seq 0 (List.length scores)) ->
  StronglySorted (fun i j => score_at scores i <= score_at scores j)%Q order ->
  Np.argsort_with (place_in order) scores = order.
Proof.
  intros Hp Hs. unfold Np.argsort_with.
  pose proof (stable_sort_any_order (fun i => nth i scores 0%Q) (fun i => i)
                (seq 0 (List.length scores)) order) as H.
  rewrite !map_id in H. apply H; [apply List.seq_NoDup | exact Hp | exact Hs].
Qed.


Lemma argsort_perm {env : Collaborators} (scores : list Q) :
  Permutation (Np.argsort scores) (seq 0 (List.length scores)).
Proof. apply argsort_with_perm. Qed.

Section LexicalSearch.
Context {env : Collaborators}.
Import BM25Retriever.

Lemma result_loop_at (documents : list Document) (scores : list Q)
    (n : nat) (top_indices : list nat) :
  let results :=
    flat_map
      (fun i_idx : nat * nat =>
         let '(i, idx) := i_idx in
         match nth_error documents idx with
         | Some doc =>
             if Qlt_le_dec 0 (nth idx scores 0%Q)
             then [sub_result doc (nth idx scores 0%Q) (Z.of_nat i + 1)]
             else []
         | None => []
         end)
      (Py.enumerate_from n top_indices) in
  results_at documents scores (kept_positions documents scores top_indices) results /\
  Forall (fun r => 0 < score r)%Q results.
Proof.
  revert n. induction top_indices as [|idx t IH]; intros n; simpl.
  - split; constructor.
  - destruct (IH (S n)) as [H1 H2].
    destruct (nth_error documents idx) as [doc|] eqn:Ed; simpl; [|now split].
    destruct (Qlt_le_dec 0 (nth idx scores 0%Q)) as [Hpos|Hneg]; simpl; [|now split].
    split; constructor; auto.
Qed.




End LexicalSearch.

Section LexicalSearchOrder.
Context {env : Collaborators}.
Import BM25Retriever.

(** [search] either answers with the empty list or runs the result loop on
    one of the two language partitions. *)
Lemma bm25_search_cases (self : t) (query : string) (top_k : Z) (language : option string) :
  search self query top_k language = [] \/
  exists model documents,
    ((bm25_fr self = Some model /\ documents = documents_fr self) \/
     (bm25_ar self = Some model /\ documents = documents_ar self)) /\
    search self query top_k language =
      search_model model documents
        (preprocess query (Some (bm25_language query language))) top_k.
Proof.
  unfold search. fold (bm25_language query language).
  destruct (Py.blank query); [now left|].
  destruct (is_empty (preprocess query (Some (bm25_language query language))));
    [now left|].
  destruct (String.eqb (bm25_language query language) "fr"), (bm25_fr self) as [m|];
    try (right; exists m, (documents_fr self); split; [left; split|]; reflexivity);
    destruct (String.eqb (bm25_language query language) "ar"), (bm25_ar self) as [m'|];
    try (now left);
    right; exists m', (documents_ar self); (split; [right; split|]; reflexivity).
Qed.


End LexicalSearchOrder.


(** On the small corpus the two equal documents ["d0"] and ["d1"] both score
    1 for the query ["capital"]; a sort that keeps equal scores in the
    order of their positions brings them back as ["d1"], ["d0"]. *)
Example bm25_equal_scores_run :
  map (fun r => (doc_id r, score r, rank r))
      (BM25Retriever.search (env := Demo.collaborators) Corpus.lexical "capital" 2
         (Some "fr"%string))
  = [("d1"%string, 1%Q, 1); ("d0"%string, 1%Q, 2)].
Proof. reflexivity. Qed.

(** A query for which ["d0"] and ["d1"] score 2 and the three other French
    documents score 1: the order of the equal documents is the sort's, with
    a stable sort and with one that is not. *)
Example bm25_tied_scores_runs :
  map (fun r => (doc_id r, score r))
      (BM25Retriever.search (env := Demo.collaborators) Corpus.lexical
         "capital minimum delai documents registre" 5 (Some "fr"%string))
  = [("d1", 2%Q); ("d0", 2%Q); ("d4", 1%Q); ("d3", 1%Q); ("d2", 1%Q)]%string /\
  map (fun r => (doc_id r, score r))
      (BM25Retriever.search (env := Demo.unstable_sort) Corpus.lexical
         "capital minimum delai documents registre" 5 (Some "fr"%string))
  = [("d0", 2%Q); ("d1", 2%Q); ("d4", 1%Q); ("d2", 1%Q); ("d3", 1%Q)]%string.
Proof. split; reflexivity. Qed.


(** With [top_k = 0] the slice [[-top_k:]] keeps every index and the two
    scoring documents are returned. *)
Example bm25_top_k_zero_run :
  List.length
    (BM25Retriever.search (env := Demo.collaborators) Corpus.lexical "capital" 0
       (Some "fr"%string)) = 2%nat.
Proof. reflexivity. Qed.

(** ** The vector search *)

Lemma In_firstn {A : Type} (x : A) (n : nat) (l : list A) :
  In x (firstn n l) -> In x l.
Proof.
  revert n. induction l as [|y t IH]; intros [|n]; simpl; try tauto.
  intros [E|H]; [now left | right; eauto].
Qed.

Section VectorSearch.
Context {env : Collaborators}.
Import FAISSRetriever.

Lemma ranked_from_length (n : nat) (items : list (Document * Q)) :
  List.length (ranked_from n items) = List.length items.
Proof. unfold ranked_from. now rewrite length_map, enumerate_from_length. Qed.

(** The loop with its [break] returns the first [top_k] surviving
    candidates, ranked in order. *)
Lemma collect_matching (docs : list Document) (top_k : Z) (language : option string)
    (found : list (Q * Z)) (acc : list SearchResult) :
  Py.len acc < top_k ->
  collect docs top_k language found acc =
  acc ++ ranked_from (List.length acc)
           (firstn (Z.to_nat top_k - List.length acc) (matching docs language found)).
Proof.
  revert acc. induction found as [|[s idx] rest IH]; intros acc Hacc; simpl.
  - rewrite firstn_nil. unfold ranked_from. simpl. now rewrite app_nil_r.
  - destruct ((idx <? 0) || (idx >=? Py.len docs)) eqn:Er; [now apply IH|].
    destruct (nth_error docs (Z.to_nat idx)) as [doc|] eqn:Ed; [|now apply IH].
    unfold passes_filter.
    destruct (match language with
              | Some l => Py.truthy l && language_differs doc l
              | None => false
              end) eqn:Ef; simpl; [now apply IH|].
    unfold Py.len in Hacc.
    destruct (Z.to_nat top_k - List.length acc)%nat as [|m] eqn:Em; [lia|].
    simpl. unfold ranked_from at 1. simpl.
    fold (ranked_from (S (List.length acc)) (firstn m (matching docs language rest))).
    unfold Py.len at 1. rewrite length_app. simpl.
    destruct (Z.of_nat (List.length acc + 1) >=? top_k) eqn:Eb.
    + apply Z.geb_le in Eb. assert (m = 0%nat) by lia. subst m.
      rewrite firstn_O. unfold ranked_from. simpl. reflexivity.
    + rewrite Z.geb_leb in Eb. apply Z.leb_gt in Eb.
      rewrite IH by (unfold Py.len; rewrite length_app; simpl; lia).
      rewrite length_app. simpl. rewrite <- app_assoc. simpl.
      replace (Z.to_nat top_k - (List.length acc + 1))%nat with m by lia.
      now rewrite Nat.add_1_r.
Qed.

Lemma matching_language (docs : list Document) (l : string) (found : list (Q * Z)) :
  Py.truthy l = true ->
  Forall (fun it => language (fst it) = Some l) (matching docs (Some l) found).
Proof.
  intros Hl. unfold matching. apply List.Forall_forall. intros [doc s] Hin.
  apply in_flat_map in Hin. destruct Hin as ([s' idx] & _ & Hin).
  destruct ((idx <? 0) || (idx >=? Py.len docs)); [contradiction|].
  destruct (nth_error docs (Z.to_nat idx)) as [doc'|]; [|contradiction].
  unfold passes_filter in Hin. rewrite Hl in Hin. simpl in Hin.
  unfold language_differs, language_is in Hin. rewrite negb_involutive in Hin.
  destruct (language doc') as [l'|] eqn:El; [|contradiction].
  destruct (String.eqb l' l) eqn:E; [|contradiction].
  apply String.eqb_eq in E. destruct Hin as [[= <- <-]|[]]. simpl. congruence.
Qed.

Lemma faiss_search_length (ix : Faiss.IndexFlatIP) (x : Vec) (k : Z) :
  1 <= k -> List.length x = Faiss.d ix ->
  exists found, Faiss.search ix x k = Ok found /\ Py.len found = k.
Proof.
  intros Hk Hd. unfold Faiss.search.
  destruct (k <=? 0) eqn:E; [apply Z.leb_le in E; lia|].
  rewrite Hd, Nat.eqb_refl. simpl.
  eexists. split; [reflexivity|].
  unfold Py.len. rewrite length_app, length_firstn, repeat_length. lia.
Qed.

End VectorSearch.

Section VectorSearchFilter.
Context {env : Collaborators}.
Import FAISSRetriever.

Lemma search_with_row (self : t) (ix : Faiss.IndexFlatIP) (query : string) (top_k : Z)
    (language : option string) (row : Vec) (rest : list Vec) (found : list (Q * Z)) :
  index self = Some ix ->
  Py.blank query = false ->
  encode [query] = Ok (row :: rest) ->
  candidates ix row top_k language = Ok found ->
  search self query top_k language = collect (documents self) top_k language found [].
Proof.
  intros Hix Hq Henc Hfound. unfold search, _create_embeddings.
  rewrite Hix, Hq, Henc. simpl. now rewrite Hfound.
Qed.

(** Under a language filter the search either returns nothing or the
    first [top_k] candidates that pass the filter. *)
Lemma search_filtered_cases (self : t) (query : string) (top_k : Z) (l : string) :
  Py.truthy l = true ->
  search self query top_k (Some l) = [] \/
  (1 <= top_k /\
   exists found,
     search self query top_k (Some l) =
       ranked_from 0 (firstn (Z.to_nat top_k) (matching (documents self) (Some l) found))).
Proof.
  intros Hl. unfold search.
  destruct (index self) as [ix|]; [|now left].
  destruct (Py.blank query); [now left|].
  destruct (_create_embeddings [query]) as [[|row rest]|]; try (now left).
  destruct (candidates ix row top_k (Some l)) as [found|e] eqn:Ef; simpl; [|now left].
  assert (Hpos : 1 <= top_k).
  { unfold candidates, Faiss.search in Ef. simpl in Ef. rewrite Hl in Ef.
    destruct (Z.min (top_k * 3) (Faiss.ntotal ix) <=? 0) eqn:E; [discriminate|].
    apply Z.leb_gt in E. lia. }
  right. split; [exact Hpos|]. exists found.
  rewrite collect_matching by (unfold Py.len; simpl; lia).
  simpl. now rewrite Nat.sub_0_r.
Qed.

Lemma search_results_language (self : t) (query : string) (top_k : Z) (l : string) :
  Py.truthy l = true ->
  Forall (fun r => language (document r) = Some l) (search self query top_k (Some l)).
Proof.
  intros Hl.
  destruct (search_filtered_cases self query top_k l Hl) as [E|(_ & found & E)];
    rewrite E; [constructor|].
  pose proof (matching_language (documents self) l found Hl) as Hm.
  rewrite List.Forall_forall in Hm. apply List.Forall_forall.
  intros r Hr. unfold ranked_from in Hr. apply in_map_iff in Hr.
  destruct Hr as ([i [doc s]] & <- & Hin). simpl.
  apply (in_map snd) in Hin. rewrite enumerate_from_snd in Hin. simpl in Hin.
  apply (Hm (doc, s)). eapply In_firstn. exact Hin.
Qed.

Lemma search_results_bounded (self : t) (query : string) (top_k : Z) (l : string) :
  Py.truthy l = true ->
  0 <= top_k ->
  Py.len (search self query top_k (Some l)) <= top_k /\
  Forall (fun r => language (document r) = Some l) (search self query top_k (Some l)).
Proof.
  intros Hl Hk. split; [|now apply search_results_language].
  destruct (search_filtered_cases self query top_k l Hl) as [E|(_ & found & E)];
    rewrite E; unfold Py.len; [simpl; lia|].
  rewrite ranked_from_length, length_firstn. lia.
Qed.

(** C4. Under a language filter [l] and for [top_k >= 0], the vector search
    returns at most [top_k] results, all of language [l].  When the index
    is searched (a non-blank query encoded to a row of the index's
    dimension, a non-empty index, [top_k >= 1]), [min(top_k * 3, ntotal)]
    candidates are fetched, the results are the first [top_k] candidates
    that pass the filter, ranked 1, 2, ..., and when fewer than [top_k]
    candidates pass, exactly those are returned. *)
Theorem faiss_language_filter_overfetch (self : t) (query : string) (top_k : Z)
    (l : string) :
  Py.truthy l = true ->
  0 <= top_k ->
  let results := search self query top_k (Some l) in
  Py.len results <= top_k /\
  Forall (fun r => language (document r) = Some l) results /\
  forall ix row rest,
    index self = Some ix ->
    Py.blank query = false ->
    encode [query] = Ok (row :: rest) ->
    List.length (normalize_L2 row) = Faiss.d ix ->
    1 <= top_k -> 1 <= Faiss.ntotal ix ->
    exists found,
      Faiss.search ix (normalize_L2 row) (Z.min (top_k * 3) (Faiss.ntotal ix)) = Ok found /\
      Py.len found = Z.min (top_k * 3) (Faiss.ntotal ix) /\
      results =
        ranked_from 0 (firstn (Z.to_nat top_k) (matching (documents self) (Some l) found)) /\
      (Py.len (matching (documents self) (Some l) found) < top_k ->
       results = ranked_from 0 (matching (documents self) (Some l) found)).
Proof.
  intros Hl Hk results.
  destruct (search_results_bounded self query top_k l Hl Hk) as [Hlen Hlang].
  split; [exact Hlen|]. split; [exact Hlang|].
  intros ix row rest Hix Hq Henc Hdim Hpos Hn.
  destruct (faiss_search_length ix (normalize_L2 row)
              (Z.min (top_k * 3) (Faiss.ntotal ix)) ltac:(lia) Hdim)
    as (found & Hfound & Hflen).
  exists found. split; [exact Hfound|]. split; [exact Hflen|].
  assert (Hres : results =
            ranked_from 0 (firstn (Z.to_nat top_k) (matching (documents self) (Some l) found))).
  { unfold results.
    rewrite (search_with_row self ix query top_k (Some l) row rest found Hix Hq Henc).
    - rewrite collect_matching by (unfold Py.len; simpl; lia).
      simpl. now rewrite Nat.sub_0_r.
    - unfold candidates. simpl. rewrite Hl. exact Hfound. }
  split; [exact Hres|].
  intros Hfew. rewrite Hres. f_equal. apply firstn_all2. unfold Py.len in Hfew. lia.
Qed.

End VectorSearchFilter.

Example faiss_overfetch_run :
  map (fun r => (doc_id r, rank r))
      (FAISSRetriever.search (env := Demo.collaborators) Corpus.vector "capital" 2
         (Some "ar"%string))
  = [("d5"%string, 1)].
Proof. reflexivity. Qed.

Lemma faiss_language_filter_overfetch_witness :
  let results :=
    FAISSRetriever.search (env := Demo.collaborators) Corpus.vector "capital" 2
      (Some "ar"%string) in
  Py.len results <= 2 /\
  Forall (fun r => language (document r) = Some "ar"%string) results /\
  exists found,
    Faiss.search (env := Demo.collaborators)
      (Faiss.mkIndex 2 (repeat [1%Q; 0%Q] 8)) [1%Q; 0%Q] (Z.min (2 * 3) 8) = Ok found /\
    Py.len found = Z.min (2 * 3) 8 /\
    results =
      ranked_from 0
        (firstn 2 (matching (FAISSRetriever.documents Corpus.vector)
                     (Some "ar"%string) found)) /\
    (Py.len (matching (FAISSRetriever.documents Corpus.vector)
               (Some "ar"%string) found) < 2 ->
     results =
       ranked_from 0 (matching (FAISSRetriever.documents Corpus.vector)
                        (Some "ar"%string) found)).
Proof.
  pose proof (faiss_language_filter_overfetch (env := Demo.collaborators)
                Corpus.vector "capital" 2 "ar" eq_refl ltac:(lia)) as (H1 & H2 & H3).
  split; [exact H1|]. split; [exact H2|].
  exact (H3 (Faiss.mkIndex 2 (repeat [1%Q; 0%Q] 8)) [1%Q; 0%Q] []
            eq_refl eq_refl eq_refl eq_refl ltac:(lia) ltac:(vm_compute; discriminate)).
Defined.

(** ** Language partitions *)

Lemma language_is_eq (doc : Document) (l : string) :
  language_is doc l = true <-> language doc = Some l.
Proof.
  unfold language_is. destruct (language doc) as [l'|]; [|split; discriminate].
  rewrite String.eqb_eq. split; congruence.
Qed.

Section Partitions.
Context {env : Collaborators}.

Lemma separate_languages (texts : list string) (edocs : list (nat * Document))
    (tf : list string) (df : list Document) (ta : list string) (da : list Document)
    (tf' : list string) (df' : list Document) (ta' : list string) (da' : list Document) :
  BM25Retriever.separate texts edocs tf df ta da = Ok (tf', df', ta', da') ->
  Forall (fun doc => language doc = Some "fr"%string) df ->
  Forall (fun doc => language doc = Some "ar"%string) da ->
  Forall (fun doc => language doc = Some "fr"%string) df' /\
  Forall (fun doc => language doc = Some "ar"%string) da'.
Proof.
  revert tf df ta da.
  induction edocs as [|[i doc] rest IH]; intros tf df ta da; simpl.
  - intros [= <- <- <- <-]. auto.
  - destruct (language_is doc "fr") eqn:Efr.
    + destruct (nth_error texts i); [|discriminate].
      intros Hs Hf Ha. apply (IH _ _ _ _ Hs); [|exact Ha].
      apply Forall_app. split; [exact Hf|].
      repeat constructor. now apply language_is_eq.
    + destruct (language_is doc "ar") eqn:Ear.
      * destruct (nth_error texts i); [|discriminate].
        intros Hs Hf Ha. apply (IH _ _ _ _ Hs); [exact Hf|].
        apply Forall_app. split; [exact Ha|].
        repeat constructor. now apply language_is_eq.
      * apply IH.
Qed.

Lemma keep_tokenized_docs (tokenized : list (list string)) (docs : list Document)
    (doc : Document) :
  In doc (map snd (BM25Retriever.keep_tokenized tokenized docs)) -> In doc docs.
Proof.
  unfold BM25Retriever.keep_tokenized. intros Hin.
  apply in_map_iff in Hin. destruct Hin as ([tokens doc'] & <- & Hin).
  apply List.filter_In in Hin. destruct Hin as [Hin _].
  now apply in_combine_r in Hin.
Qed.

(** After [build_index] the French partition holds French documents only
    and the Arabic partition Arabic documents only. *)
Lemma bm25_build_partitions (self self' : BM25Retriever.t) (fs fs' : gmap string File)
    (texts : list string) (docs : list Document) :
  BM25Retriever.build_index self fs texts docs = Ok (self', fs') ->
  Forall (fun doc => language doc = Some "fr"%string) (BM25Retriever.documents_fr self') /\
  Forall (fun doc => language doc = Some "ar"%string) (BM25Retriever.documents_ar self').
Proof.
  unfold BM25Retriever.build_index.
  destruct (BM25Retriever.separate texts (Py.enumerate docs) [] [] [] [])
    as [[[[tf df] ta] da]|e] eqn:Es; simpl; [|discriminate].
  intros [= <- _]. simpl.
  destruct (separate_languages _ _ _ _ _ _ _ _ _ _ Es) as [Hf Ha]; [constructor..|].
  rewrite List.Forall_forall in Hf, Ha.
  split; apply List.Forall_forall; intros doc Hin; apply keep_tokenized_docs in Hin; auto.
Qed.

(** C6 (amended). After [BM25Retriever.build_index], a document whose
    language is neither ['fr'] nor ['ar'] is in neither language partition
    of the lexical index; the vector index has no partitions, and such a
    document is absent from the results of every vector search made with
    the language filter ['fr'] or ['ar']. *)
Theorem unsupported_language_excluded (doc : Document)
    (b b' : BM25Retriever.t) (fs fs' : gmap string File)
    (texts : list string) (docs : list Document) (f : FAISSRetriever.t) :
  unsupported_language doc ->
  BM25Retriever.build_index b fs texts docs = Ok (b', fs') ->
  ~ In doc (BM25Retriever.documents_fr b') /\
  ~ In doc (BM25Retriever.documents_ar b') /\
  forall query top_k l,
    l = "fr"%string \/ l = "ar"%string ->
    ~ In doc (map document (FAISSRetriever.search f query top_k (Some l))).
Proof.
  intros [Hfr Har] Hb.
  destruct (bm25_build_partitions b b' fs fs' texts docs Hb) as [Hf Ha].
  rewrite List.Forall_forall in Hf, Ha.
  split; [intros Hin; apply Hfr; auto|].
  split; [intros Hin; apply Har; auto|].
  intros query top_k l Hl Hin.
  apply in_map_iff in Hin. destruct Hin as (r & <- & Hin).
  assert (Ht : Py.truthy l = true) by (destruct Hl; subst; reflexivity).
  pose proof (search_results_language f query top_k l Ht) as Hlang.
  rewrite List.Forall_forall in Hlang. specialize (Hlang r Hin).
  destruct Hl; subst; auto.
Qed.

End Partitions.

Lemma unsupported_language_excluded_witness :
  let doc := mkDocument "d6" (Some "en"%string) "hello capital" in
  ~ In doc (BM25Retriever.documents_fr Corpus.lexical) /\
  ~ In doc (BM25Retriever.documents_ar Corpus.lexical) /\
  forall query top_k l,
    l = "fr"%string \/ l = "ar"%string ->
    ~ In doc (map document
                (FAISSRetriever.search (env := Demo.collaborators) Corpus.vector
                   query top_k (Some l))).
Proof.
  apply (unsupported_language_excluded (env := Demo.collaborators)
           (mkDocument "d6" (Some "en"%string) "hello capital")
           (BM25Retriever.init None) Corpus.lexical ∅ ∅ Corpus.texts Corpus.documents
           Corpus.vector).
  - split; discriminate.
  - reflexivity.
Defined.

(** The vector index built from the small corpus returns the English
    document ["d6"] and the untagged document ["d7"] to a search without
    language filter. *)
Example faiss_unfiltered_run :
  map doc_id
      (FAISSRetriever.search (env := Demo.collaborators) Corpus.vector "capital" 8 None)
  = ["d0"; "d1"; "d2"; "d3"; "d4"; "d5"; "d6"; "d7"]%string.
Proof. reflexivity. Qed.

(** C6 as stated fails for the vector index: a document of the built corpus
    with an unsupported language is returned by a search. *)
Lemma faiss_returns_unsupported_language :
  ~ (forall doc, In doc Corpus.documents -> unsupported_language doc ->
                 never_returned (env := Demo.collaborators) Corpus.vector doc).
Proof.
  intros H.
  apply (H (mkDocument "d6" (Some "en"%string) "hello capital")
           ltac:(simpl; tauto) ltac:(split; discriminate)
           "capital"%string 8 None).
  vm_compute. tauto.
Qed.

(** ** Queries in another language *)

Section OtherLanguage.
Context {env : Collaborators}.

Lemma resolved_language_bm25 (query : string) (language : option string) :
  resolved_language query language = bm25_language query language.
Proof.
  unfold resolved_language, bm25_language.
  destruct language as [l|]; simpl; [|reflexivity].
  now destruct (Py.truthy l).
Qed.

Lemma bm25_language_truthy (query : string) (l : string) :
  Py.truthy l = true -> bm25_language query (Some l) = l.
Proof. intros Hl. unfold bm25_language. now rewrite Hl. Qed.

Lemma bm25_search_other_language (b : BM25Retriever.t) (query : string) (top_k : Z)
    (language : option string) :
  bm25_language query language <> "fr"%string ->
  bm25_language query language <> "ar"%string ->
  BM25Retriever.search b query top_k language = [].
Proof.
  intros Hfr Har. unfold BM25Retriever.search.
  fold (bm25_language query language).
  destruct (Py.blank query); [reflexivity|].
  destruct (is_empty _); [reflexivity|].
  apply String.eqb_neq in Hfr, Har. now rewrite Hfr, Har.
Qed.

Lemma matching_stored (docs : list Document) (language : option string)
    (found : list (Q * Z)) (doc : Document) (s : Q) :
  In (doc, s) (matching docs language found) -> In doc docs.
Proof.
  unfold matching. intros Hin. apply in_flat_map in Hin.
  destruct Hin as ([s' idx] & _ & Hin).
  destruct ((idx <? 0) || (idx >=? Py.len docs)); [contradiction|].
  destruct (nth_error docs (Z.to_nat idx)) as [doc'|] eqn:E; [|contradiction].
  destruct (passes_filter language doc'); [|contradiction].
  destruct Hin as [[= <- <-]|[]]. eapply nth_error_In. exact E.
Qed.

Lemma faiss_search_no_document (f : FAISSRetriever.t) (query : string) (top_k : Z)
    (l : string) :
  Py.truthy l = true ->
  (forall doc, In doc (FAISSRetriever.documents f) -> language doc <> Some l) ->
  FAISSRetriever.search f query top_k (Some l) = [].
Proof.
  intros Hl Hnone.
  pose proof (search_results_language f query top_k l Hl) as Hlang.
  destruct (search_filtered_cases f query top_k l Hl) as [E|(_ & found & E)];
    [exact E|].
  destruct (FAISSRetriever.search f query top_k (Some l)) as [|r rest]; [reflexivity|].
  exfalso. inversion Hlang as [|? ? Hr _]; subst.
  assert (Hin : In r (ranked_from 0
                       (firstn (Z.to_nat top_k)
                          (matching (FAISSRetriever.documents f) (Some l) found))))
    by (rewrite <- E; now left).
  unfold ranked_from in Hin. apply in_map_iff in Hin.
  destruct Hin as ([i [doc s]] & <- & Hin). simpl in Hr.
  apply (in_map snd) in Hin. rewrite enumerate_from_snd in Hin. simpl in Hin.
  apply In_firstn, matching_stored in Hin. exact (Hnone doc Hin Hr).
Qed.

(** C10 (amended). When the language of the query, supplied or detected,
    is a code other than ['fr'] and ['ar'], [BM25Retriever.search] returns
    the empty list, and the hybrid search over the two retrievers returns
    the empty list provided no document stored in the vector retriever is
    tagged with that same code. *)
Theorem other_language_returns_nothing (f : FAISSRetriever.t) (b : BM25Retriever.t)
    (fw bw : Q) (query : string) (top_k : Z) (requested : option string) :
  let lang := resolved_language query requested in
  Py.truthy lang = true ->
  lang <> "fr"%string -> lang <> "ar"%string ->
  BM25Retriever.search b query top_k requested = [] /\
  ((forall doc, In doc (FAISSRetriever.documents f) -> language doc <> Some lang) ->
   HybridRetriever.search (hybrid_of f b fw bw) query top_k requested = []).
Proof.
  intros lang Ht Hfr Har. split.
  - apply bm25_search_other_language; rewrite <- resolved_language_bm25; assumption.
  - intros Hnone.
    destruct (Py.blank query) eqn:Hq.
    + unfold HybridRetriever.search. now rewrite Hq.
    + rewrite (hybrid_search_unfold _ query top_k requested Hq).
      unfold source_results, hybrid_of, HybridRetriever.guarded_search. simpl.
      fold lang.
      rewrite (faiss_search_no_document f query _ lang Ht Hnone).
      rewrite bm25_search_other_language; [reflexivity | |];
        now rewrite (bm25_language_truthy query lang Ht).
Qed.

End OtherLanguage.

(** The vector index built from the six French and Arabic documents
    answers the query under the filter ['fr']. *)
Example vector_supported_run :
  map id (FAISSRetriever.documents Corpus.vector_supported)
  = ["d0"; "d1"; "d2"; "d3"; "d4"; "d5"]%string /\
  map doc_id
      (FAISSRetriever.search (env := Demo.collaborators) Corpus.vector_supported
         "hello capital" 2 (Some "fr"%string))
  = ["d0"; "d1"]%string.
Proof. split; reflexivity. Qed.

Lemma other_language_returns_nothing_witness :
  BM25Retriever.search (env := Demo.collaborators) Corpus.lexical "hello capital" 2 None = [] /\
  HybridRetriever.search (env := Demo.collaborators)
    (hybrid_of (env := Demo.collaborators) Corpus.vector_supported Corpus.lexical
       (1 # 2) (1 # 2))
    "hello capital" 2 None = [].
Proof.
  destruct (other_language_returns_nothing (env := Demo.collaborators)
              Corpus.vector_supported Corpus.lexical (1 # 2) (1 # 2)
              "hello capital" 2 None eq_refl ltac:(discriminate) ltac:(discriminate))
    as [H1 H2].
  split; [exact H1|]. apply H2.
  intros doc Hin. vm_compute in Hin.
  repeat (destruct Hin as [<-|Hin]; [discriminate|]). destruct Hin.
Defined.

(** The query ["hello capital"] is detected as ["en"]; the lexical search
    returns nothing, and the hybrid search returns the English document
    stored in the vector index. *)
Example hybrid_english_run :
  resolved_language (env := Demo.collaborators) "hello capital" None = "en"%string /\
  BM25Retriever.search (env := Demo.collaborators) Corpus.lexical "hello capital" 2 None = [] /\
  map doc_id
      (HybridRetriever.search (env := Demo.collaborators)
         (hybrid_of (env := Demo.collaborators) Corpus.vector Corpus.lexical (1 # 2) (1 # 2))
         "hello capital" 2 None)
  = ["d6"%string].
Proof. repeat split. Qed.

(** C10 as stated fails: with an English document in the vector index, the
    hybrid search of a query with the language ['en'] is not empty. *)
Lemma hybrid_other_language_not_empty :
  ~ (forall (f : FAISSRetriever.t) (b : BM25Retriever.t) (query : string) (top_k : Z)
            (language : option string),
       resolved_language (env := Demo.collaborators) query language <> "fr"%string ->
       resolved_language (env := Demo.collaborators) query language <> "ar"%string ->
       BM25Retriever.search (env := Demo.collaborators) b query top_k language = [] /\
       HybridRetriever.search (env := Demo.collaborators)
         (hybrid_of (env := Demo.collaborators) f b (1 # 2) (1 # 2))
         query top_k language = []).
Proof.
  intros H.
  destruct (H Corpus.vector Corpus.lexical "hello capital"%string 2 (Some "en"%string)
              ltac:(discriminate) ltac:(discriminate)) as [_ C].
  vm_compute in C. discriminate C.
Qed.

(** ** Persistence *)

Section Persistence.
Context {env : Collaborators}.

(** *** Writing to the store *)

Lemma write_ok (fs : gmap string File) (path : string) (content : File) :
  Os.open_error fs path = None ->
  Os.write fs path content = Ok (<[path := content]> fs).
Proof. intros H. unfold Os.write. now rewrite H. Qed.

Lemma open_error_truthy (fs : gmap string File) (path : string) :
  Os.open_error fs path = None -> Py.truthy path = true.
Proof. unfold Os.open_error. now destruct (Py.truthy path). Qed.

Lemma open_error_isdir (fs : gmap string File) (path : string) :
  Os.open_error fs path = None -> Os.isdir fs path = false.
Proof.
  unfold Os.open_error.
  destruct (negb (Py.truthy path)); [discriminate|].
  destruct (negb (Py.truthy (Py.basename path))); [discriminate|].
  destruct (if Py.all_slashes (Py.dirname path) then None else _); [discriminate|].
  now destruct (Os.isdir fs path).
Qed.

(** A file that can be opened for writing still can after another file has
    been written. *)
Lemma open_error_insert (fs : gmap string File) (p p' : string) (content : File) :
  content <> Directory ->
  Os.open_error fs p = None -> Os.open_error fs p' = None ->
  Os.open_error (<[p := content]> fs) p' = None.
Proof.
  intros Hc Hp Hp'. pose proof (open_error_isdir fs p Hp) as Hd.
  unfold Os.open_error in *.
  destruct (negb (Py.truthy p')); [discriminate|].
  destruct (negb (Py.truthy (Py.basename p'))); [discriminate|].
  assert (Hi : Os.isdir (<[p := content]> fs) p' = Os.isdir fs p').
  { unfold Os.isdir. destruct (String.eqb p p') eqn:E.
    - apply String.eqb_eq in E. subst p'. rewrite lookup_insert_eq.
      unfold Os.isdir in Hd. rewrite Hd. now destruct content.
    - apply String.eqb_neq in E. now rewrite lookup_insert_ne. }
  rewrite Hi.
  destruct (Py.all_slashes (Py.dirname p')); [exact Hp'|].
  destruct (String.eqb p (Py.dirname p')) eqn:E.
  - apply String.eqb_eq in E. rewrite <- E in *. unfold Os.isdir in Hd.
    destruct (fs !! p) as [[]|]; discriminate.
  - apply String.eqb_neq in E. now rewrite lookup_insert_ne.
Qed.

(** *** Making directories *)

Lemma after_last_slash_le (p : string) : (Py.after_last_slash p <= String.length p)%nat.
Proof.
  induction p as [|c t IH]; simpl; [lia|].
  destruct (Py.after_last_slash t); [destruct (Ascii.eqb c "/")|]; lia.
Qed.

Lemma take_length (n : nat) (s : string) :
  String.length (Py.take n s) = Nat.min n (String.length s).
Proof.
  revert s. induction n as [|n IH]; intros [|c t]; simpl; try reflexivity.
  now rewrite IH.
Qed.

Lemma take_all (s : string) : Py.take (String.length s) s = s.
Proof. induction s as [|c t IH]; simpl; [reflexivity | now rewrite IH]. Qed.

Lemma rstrip_slash_length (s : string) :
  (String.length (Py.rstrip_slash s) <= String.length s)%nat.
Proof.
  induction s as [|c t IH]; simpl; [lia|].
  destruct (Py.rstrip_slash t); [destruct (Ascii.eqb c "/")|]; simpl in *; lia.
Qed.

Lemma rstrip_slash_all_slashes (s : string) :
  Py.all_slashes s = true -> Py.rstrip_slash s = EmptyString.
Proof.
  induction s as [|c t IH]; simpl; [reflexivity|].
  intros H. apply andb_true_iff in H. destruct H as [Hc Ht].
  now rewrite (IH Ht), Hc.
Qed.

(** A path that ends with a slash and is not made of slashes only loses
    characters when its trailing slashes are stripped. *)
Lemma rstrip_slash_shorter (p : string) :
  Py.after_last_slash p = String.length p ->
  Py.all_slashes p = false ->
  (String.length (Py.rstrip_slash p) < String.length p)%nat.
Proof.
  induction p as [|c t IH]; simpl; [discriminate|].
  intros Ha Hs.
  destruct (Py.after_last_slash t) as [|n] eqn:Et.
  - destruct (Ascii.eqb c "/"); [|discriminate].
    destruct t; [discriminate Hs | simpl in Ha; lia].
  - assert (Hat : S n = String.length t) by lia.
    destruct (Py.all_slashes t) eqn:Est.
    + rewrite (rstrip_slash_all_slashes t Est).
      destruct (Ascii.eqb c "/"); simpl; lia.
    + specialize (IH Hat eq_refl).
      destruct (Py.rstrip_slash t); [destruct (Ascii.eqb c "/")|]; simpl in *; lia.
Qed.

(** The directory of a path is shorter than the path, unless the path is
    made of slashes only. *)
Lemma dirname_shorter (p : string) :
  Py.all_slashes p = false ->
  (String.length (Py.dirname p) < String.length p)%nat.
Proof.
  intros Hs. unfold Py.dirname.
  pose proof (after_last_slash_le p) as Hle.
  pose proof (take_length (Py.after_last_slash p) p) as Hl.
  pose proof (rstrip_slash_length (Py.take (Py.after_last_slash p) p)) as Hr.
  destruct (Nat.eq_dec (Py.after_last_slash p) (String.length p)) as [E|E].
  - rewrite E, take_all, Hs.
    assert (Ht : Py.truthy p = true) by (destruct p; [discriminate Hs | reflexivity]).
    rewrite Ht. simpl. now apply rstrip_slash_shorter.
  - destruct (Py.truthy _ && negb _); lia.
Qed.

(** The parents of a name are shorter than the name: the bound of
    [makedirs_fuel] is never reached, and any larger bound gives the same
    answer. *)
Lemma makedirs_fuel_enough (fuel fuel' : nat) (fs : gmap string File) (name : string) :
  (String.length name <= fuel)%nat -> (String.length name <= fuel')%nat ->
  Os.makedirs_fuel fuel fs name = Os.makedirs_fuel fuel' fs name.
Proof.
  revert fuel' fs name. induction fuel as [|fuel IH]; intros fuel' fs name H H'.
  - destruct name; [|simpl in H; lia]. now destruct fuel'.
  - destruct fuel' as [|fuel'].
    + destruct name; [|simpl in H'; lia]. reflexivity.
    + simpl. destruct (fs !! name) as [[]|]; try reflexivity.
      destruct (Py.all_slashes name) eqn:Es; [reflexivity|].
      pose proof (dirname_shorter name Es) as Hd.
      destruct (Py.all_slashes (Py.dirname name)); [reflexivity|].
      destruct (fs !! Py.dirname name) as [[]|]; try reflexivity.
      now rewrite (IH fuel' fs (Py.dirname name)) by lia.
Qed.

(** After [os.makedirs] the directory is there. *)
Lemma makedirs_isdir (fs fs1 : gmap string File) (name : string) :
  Os.makedirs fs name = Ok fs1 ->
  Py.all_slashes name = false ->
  Os.isdir fs1 name = true.
Proof.
  unfold Os.makedirs, Os.isdir. intros Hm Hs.
  destruct (String.length name) as [|fuel]; simpl in Hm.
  - destruct (fs !! name) as [[]|] eqn:E; try discriminate.
    + injection Hm as <-. now rewrite E.
    + now rewrite Hs in Hm.
  - destruct (fs !! name) as [[]|] eqn:E; try discriminate.
    + injection Hm as <-. now rewrite E.
    + rewrite Hs in Hm.
      destruct (if Py.all_slashes (Py.dirname name) then _ else _); [|discriminate].
      injection Hm as <-. now rewrite lookup_insert_eq.
Qed.

(** Once the directory of a path is made, the path can be opened for
    writing unless it ends with a slash or names a directory. *)
Lemma open_after_makedirs (fs fs1 : gmap string File) (path : string) :
  Os.makedirs fs (Py.dirname path) = Ok fs1 ->
  Py.truthy (Py.basename path) = true ->
  Os.isdir fs1 path = false ->
  Os.open_error fs1 path = None.
Proof.
  intros Hm Hb Hd. unfold Os.open_error.
  assert (Ht : Py.truthy path = true).
  { destruct path; [discriminate Hb | reflexivity]. }
  rewrite Ht, Hb, Hd. simpl.
  destruct (Py.all_slashes (Py.dirname path)) eqn:Es; [reflexivity|].
  pose proof (makedirs_isdir fs fs1 _ Hm Es) as Hi. unfold Os.isdir in Hi.
  now destruct (fs1 !! Py.dirname path) as [[]|].
Qed.

(** *** The lexical snapshot *)

(** What [_save_data] leaves on the store when the directory of the data
    path can be made and the data file can then be opened. *)
Lemma bm25_save_data_writes (self : BM25Retriever.t) (fs fs1 : gmap string File)
    (path : string) :
  BM25Retriever.data_path self = Some path ->
  Os.makedirs fs (Py.dirname path) = Ok fs1 ->
  Os.open_error fs1 path = None ->
  BM25Retriever._save_data self fs
  = <[path := BM25Pickle (BM25Retriever.saved_data self)]> fs1.
Proof.
  intros Hp Hm Ho. unfold BM25Retriever._save_data.
  rewrite Hp, (open_error_truthy _ _ Ho), Hm. simpl.
  now rewrite (write_ok _ _ _ Ho).
Qed.

(** What [build_index] leaves behind: models built from the stored token
    lists, the data path unchanged, the store as [_save_data] leaves it. *)
Lemma bm25_build_state (self self' : BM25Retriever.t) (fs fs' : gmap string File)
    (texts : list string) (docs : list Document) :
  BM25Retriever.build_index self fs texts docs = Ok (self', fs') ->
  BM25Retriever.data_path self' = BM25Retriever.data_path self /\
  BM25Retriever.bm25_fr self'
    = BM25Retriever.model_of (BM25Retriever.tokenized_corpus_fr self') /\
  BM25Retriever.bm25_ar self'
    = BM25Retriever.model_of (BM25Retriever.tokenized_corpus_ar self') /\
  fs' = if Py.truthy_opt (BM25Retriever.data_path self)
        then BM25Retriever._save_data self' fs else fs.
Proof.
  unfold BM25Retriever.build_index.
  destruct (BM25Retriever.separate texts (Py.enumerate docs) [] [] [] [])
    as [[[[tf df] ta] da]|e]; simpl; [|discriminate].
  intros [= <- <-]. repeat split.
Qed.

(** Loading the pickle of a retriever whose models are built from its token
    lists gives that retriever. *)
Lemma bm25_load_saved (self : BM25Retriever.t) (fs : gmap string File) (path : string) :
  BM25Retriever.data_path self = Some path ->
  Py.truthy path = true ->
  BM25Retriever.bm25_fr self
    = BM25Retriever.model_of (BM25Retriever.tokenized_corpus_fr self) ->
  BM25Retriever.bm25_ar self
    = BM25Retriever.model_of (BM25Retriever.tokenized_corpus_ar self) ->
  fs !! path = Some (BM25Pickle (BM25Retriever.saved_data self)) ->
  BM25Retriever.load_index (BM25Retriever.init (Some path)) fs = (true, self).
Proof.
  intros Hp Ht Hfr Har Hfile.
  unfold BM25Retriever.load_index, Os.exists_, BM25Retriever.read_data.
  simpl. rewrite Ht, Hfile. simpl.
  destruct self as [dp mf ma cf ca df da]. simpl in *. now subst.
Qed.

(** When the directory of the data path can be made and the data file can
    then be opened for writing, [build_index] leaves the pickle of the
    retriever at the data path, and a fresh lexical retriever that loads it
    is in the state of the retriever that built it. *)
Lemma bm25_round_trip (self self' : BM25Retriever.t) (fs fs1 fs' : gmap string File)
    (path : string) (texts : list string) (docs : list Document) :
  BM25Retriever.data_path self = Some path ->
  Os.makedirs fs (Py.dirname path) = Ok fs1 ->
  Os.open_error fs1 path = None ->
  BM25Retriever.build_index self fs texts docs = Ok (self', fs') ->
  fs' !! path = Some (BM25Pickle (BM25Retriever.saved_data self')) /\
  BM25Retriever.load_index (BM25Retriever.init (Some path)) fs' = (true, self').
Proof.
  intros Hp Hm Ho Hb.
  destruct (bm25_build_state self self' fs fs' texts docs Hb) as (Hp' & Hfr & Har & Hfs).
  rewrite Hp in Hp', Hfs. simpl in Hfs.
  rewrite (open_error_truthy _ _ Ho) in Hfs.
  rewrite (bm25_save_data_writes self' fs fs1 path Hp' Hm Ho) in Hfs.
  assert (Hfile : fs' !! path = Some (BM25Pickle (BM25Retriever.saved_data self')))
    by (rewrite Hfs; apply lookup_insert_eq).
  split; [exact Hfile|].
  apply bm25_load_saved; auto. eapply open_error_truthy; eassumption.
Qed.

(** *** The vector snapshot *)

Lemma faiss_save_index_writes (self : FAISSRetriever.t) (fs fs1 : gmap string File)
    (path : string) (ix : Faiss.IndexFlatIP) :
  FAISSRetriever.index_path self = Some path ->
  FAISSRetriever.index self = Some ix ->
  Os.makedirs fs (Py.dirname path) = Ok fs1 ->
  Os.open_error fs1 path = None ->
  Os.open_error fs1 (FAISSRetriever.documents_path path) = None ->
  FAISSRetriever._save_index self fs
  = <[FAISSRetriever.documents_path path := DocsPickle (FAISSRetriever.documents self)]>
      (<[path := FaissIndexFile ix]> fs1).
Proof.
  intros Hp Hix Hm Ho Hod. unfold FAISSRetriever._save_index.
  rewrite Hp, (open_error_truthy _ _ Ho), Hm, Hix. simpl.
  rewrite (write_ok _ _ _ Ho). simpl.
  rewrite write_ok; [reflexivity|].
  apply open_error_insert; [discriminate | exact Ho | exact Hod].
Qed.

(** A [build_index] that sets the index of a retriever without one has run
    to its end: the index path is unchanged and the store is as
    [_save_index] leaves it. *)
Lemma faiss_build_state (self self' : FAISSRetriever.t) (fs fs' : gmap string File)
    (texts : list string) (docs : list Document) (ix : Faiss.IndexFlatIP) :
  FAISSRetriever.build_index self fs texts docs = Ok (self', fs') ->
  FAISSRetriever.index self = None ->
  FAISSRetriever.index self' = Some ix ->
  FAISSRetriever.index_path self' = FAISSRetriever.index_path self /\
  fs' = if Py.truthy_opt (FAISSRetriever.index_path self)
        then FAISSRetriever._save_index self' fs else fs.
Proof.
  unfold FAISSRetriever.build_index. intros Hb Hnone.
  destruct (is_empty texts || is_empty docs);
    [injection Hb as <- <-; congruence|].
  destruct (negb (List.length texts =? List.length docs)%nat); [discriminate|].
  simpl in Hb.
  destruct (is_empty (map fst _)); [injection Hb as <- <-; simpl; congruence|].
  destruct (FAISSRetriever._create_embeddings _) as [embeddings|];
    [|injection Hb as <- <-; simpl; congruence].
  destruct (is_empty embeddings); [injection Hb as <- <-; simpl; congruence|].
  injection Hb as <- <-. simpl. intros _. split; reflexivity.
Qed.

(** Loading the two files written for a retriever gives that retriever. *)
Lemma faiss_load_saved (self : FAISSRetriever.t) (fs : gmap string File) (path : string)
    (ix : Faiss.IndexFlatIP) :
  FAISSRetriever.index_path self = Some path ->
  Py.truthy path = true ->
  FAISSRetriever.index self = Some ix ->
  fs !! path = Some (FaissIndexFile ix) ->
  fs !! FAISSRetriever.documents_path path
    = Some (DocsPickle (FAISSRetriever.documents self)) ->
  FAISSRetriever.load_index (FAISSRetriever.init (Some path)) fs = (true, self).
Proof.
  intros Hp Ht Hix Hfile Hdocs.
  unfold FAISSRetriever.load_index, Os.exists_, FAISSRetriever.read_index,
    FAISSRetriever.read_documents.
  simpl. rewrite Ht, Hfile, Hdocs. simpl.
  destruct self as [ip i d]. simpl in *. now subst.
Qed.

(** When the directory of the index path can be made, the index file and
    the documents file can then both be opened for writing, and they are
    two files, a completed [build_index] leaves both on the store, and a
    fresh vector retriever that loads them is in the state of the
    retriever that built them. *)
Lemma faiss_round_trip (self' : FAISSRetriever.t) (fs fs1 fs' : gmap string File)
    (path : string) (texts : list string) (docs : list Document)
    (ix : Faiss.IndexFlatIP) :
  Os.makedirs fs (Py.dirname path) = Ok fs1 ->
  Os.open_error fs1 path = None ->
  Os.open_error fs1 (FAISSRetriever.documents_path path) = None ->
  FAISSRetriever.documents_path path <> path ->
  FAISSRetriever.build_index (FAISSRetriever.init (Some path)) fs texts docs
    = Ok (self', fs') ->
  FAISSRetriever.index self' = Some ix ->
  fs' !! path = Some (FaissIndexFile ix) /\
  fs' !! FAISSRetriever.documents_path path
    = Some (DocsPickle (FAISSRetriever.documents self')) /\
  FAISSRetriever.load_index (FAISSRetriever.init (Some path)) fs' = (true, self').
Proof.
  intros Hm Ho Hod Hne Hb Hix.
  destruct (faiss_build_state _ self' fs fs' texts docs ix Hb eq_refl Hix) as [Hp Hfs].
  simpl in Hp, Hfs. rewrite (open_error_truthy _ _ Ho) in Hfs.
  rewrite (faiss_save_index_writes self' fs fs1 path ix Hp Hix Hm Ho Hod) in Hfs.
  assert (Hfile : fs' !! path = Some (FaissIndexFile ix)).
  { rewrite Hfs, lookup_insert_ne by exact Hne. apply lookup_insert_eq. }
  assert (Hdocs : fs' !! FAISSRetriever.documents_path path
                  = Some (DocsPickle (FAISSRetriever.documents self')))
    by (rewrite Hfs; apply lookup_insert_eq).
  split; [exact Hfile|]. split; [exact Hdocs|].
  apply (faiss_load_saved self' fs' path ix); auto.
  eapply open_error_truthy; eassumption.
Qed.

(** C7 (amended). [load_index] answers [False] and leaves the retriever as
    it was both when the snapshot file is missing and when it is present
    but unreadable. *)
Theorem load_index_false_when_missing_or_corrupt
    (b : BM25Retriever.t) (f : FAISSRetriever.t) (fs : gmap string File)
    (data_path index_path : string) :
  BM25Retriever.data_path b = Some data_path ->
  FAISSRetriever.index_path f = Some index_path ->
  (missing fs data_path \/ corrupt fs data_path ->
   BM25Retriever.load_index b fs = (false, b)) /\
  (missing fs index_path \/ corrupt fs index_path ->
   FAISSRetriever.load_index f fs = (false, f)).
Proof.
  intros Hb Hf. split.
  - unfold BM25Retriever.load_index, Os.exists_, BM25Retriever.read_data.
    rewrite Hb. intros [Hm|[bytes Hc]].
    + unfold missing in Hm. rewrite Hm. simpl. now rewrite orb_true_r.
    + rewrite Hc. simpl. now destruct (negb (Py.truthy data_path)).
  - unfold FAISSRetriever.load_index, Os.exists_, FAISSRetriever.read_index.
    rewrite Hf. intros [Hm|[bytes Hc]].
    + unfold missing in Hm. rewrite Hm. simpl. now rewrite orb_true_r.
    + rewrite Hc. simpl. now destruct (negb (Py.truthy index_path)).
Qed.

End Persistence.

Lemma load_index_false_when_missing_or_corrupt_witness :
  (missing ∅ "data/bm25_data.pkl" \/ corrupt ∅ "data/bm25_data.pkl" ->
   BM25Retriever.load_index (BM25Retriever.init (Some "data/bm25_data.pkl"%string)) ∅
   = (false, BM25Retriever.init (Some "data/bm25_data.pkl"%string))) /\
  (missing ∅ "data/faiss_index.bin" \/ corrupt ∅ "data/faiss_index.bin" ->
   FAISSRetriever.load_index (FAISSRetriever.init (Some "data/faiss_index.bin"%string)) ∅
   = (false, FAISSRetriever.init (Some "data/faiss_index.bin"%string))).
Proof.
  apply (load_index_false_when_missing_or_corrupt
           (BM25Retriever.init (Some "data/bm25_data.pkl"%string))
           (FAISSRetriever.init (Some "data/faiss_index.bin"%string)) ∅
           "data/bm25_data.pkl" "data/faiss_index.bin" eq_refl eq_refl).
Defined.

(** C7 as stated fails: a missing snapshot and an unreadable one give the
    same answer, for both retrievers. *)
Lemma load_index_does_not_distinguish :
  ~ distinguishes_missing_from_corrupt
      (BM25Retriever.load_index (BM25Retriever.init (Some "data/bm25_data.pkl"%string)))
      "data/bm25_data.pkl" /\
  ~ distinguishes_missing_from_corrupt
      (FAISSRetriever.load_index (FAISSRetriever.init (Some "data/faiss_index.bin"%string)))
      "data/faiss_index.bin".
Proof.
  split; intros H.
  - apply (H ∅ {[ "data/bm25_data.pkl"%string := Unreadable "garbage" ]});
      [reflexivity | exists "garbage"%string; reflexivity | reflexivity].
  - apply (H ∅ {[ "data/faiss_index.bin"%string := Unreadable "garbage" ]});
      [reflexivity | exists "garbage"%string; reflexivity | reflexivity].
Qed.

(** ** Snapshots that do not load back *)

(** C5. With the index path ["data/index.faiss"], which does not contain
    [".bin"], the documents path is the index path itself: the pickled
    documents overwrite the index file, [load_index] on a fresh retriever
    answers [False], and the fresh retriever finds nothing where the
    retriever that built the index finds documents. *)
Theorem faiss_snapshot_overwritten :
  let path := Snapshots.faiss_path in
  let built := fst (Snapshots.build_vector path) in
  let store := snd (Snapshots.build_vector path) in
  let reloaded := Snapshots.reload_vector path in
  FAISSRetriever.documents_path path = path /\
  store !! path = Some (DocsPickle (FAISSRetriever.documents built)) /\
  fst reloaded = false /\
  map doc_id (FAISSRetriever.search (env := Demo.collaborators) built "capital" 2 None)
    = ["d0"; "d1"]%string /\
  FAISSRetriever.search (env := Demo.collaborators) (snd reloaded) "capital" 2 None = [].
Proof. cbv zeta. repeat split. Qed.

(** With the data path ["bm25_data.pkl"], which has no directory part,
    [os.makedirs('')] raises inside [_save_data], nothing is written, and a
    fresh retriever has nothing to load. *)
Example bm25_snapshot_not_written :
  let path := Snapshots.bare_path in
  let built := fst (Snapshots.build_lexical path) in
  let store := snd (Snapshots.build_lexical path) in
  let reloaded := Snapshots.reload_lexical path in
  Py.dirname path = EmptyString /\
  store !! path = None /\
  fst reloaded = false /\
  map doc_id (BM25Retriever.search (env := Demo.collaborators) built "capital" 2
                (Some "fr"%string))
    = ["d1"; "d0"]%string /\
  BM25Retriever.search (env := Demo.collaborators) (snd reloaded) "capital" 2
    (Some "fr"%string) = [].
Proof. cbv zeta. repeat split. Qed.

(** With the configured default paths the snapshots load back. *)
Example default_paths_round_trip :
  Snapshots.reload_lexical "data/bm25_data.pkl"
    = (true, fst (Snapshots.build_lexical "data/bm25_data.pkl")) /\
  Snapshots.reload_vector "data/faiss_index.bin"
    = (true, fst (Snapshots.build_vector "data/faiss_index.bin")).
Proof. split; reflexivity. Qed.

(** * Further properties of the retrievers *)

(** ** Shape of the vector search results *)

Section VectorSearchShape.
Context {env : Collaborators}.
Import FAISSRetriever.

(** [search] either returns nothing, or [top_k >= 1], the index answered
    with a list of candidates, and the result is the first [top_k]
    candidates that pass the checks of the loop. *)
Lemma faiss_search_cases (self : t) (query : string) (top_k : Z)
    (language : option string) :
  search self query top_k language = [] \/
  (1 <= top_k /\
   exists ix row found,
     index self = Some ix /\
     candidates ix row top_k language = Ok found /\
     search self query top_k language =
       ranked_from 0
         (firstn (Z.to_nat top_k) (matching (documents self) language found))).
Proof.
  unfold search.
  destruct (index self) as [ix|]; [|now left].
  destruct (Py.blank query); [now left|].
  destruct (_create_embeddings [query]) as [[|row rest]|]; try (now left).
  destruct (candidates ix row top_k language) as [found|e] eqn:Ef; simpl; [|now left].
  assert (Hpos : 1 <= top_k).
  { unfold candidates, Faiss.search in Ef.
    destruct (Z.min _ (Faiss.ntotal ix) <=? 0) eqn:E; [discriminate|].
    apply Z.leb_gt in E. destruct (Py.truthy_opt language); lia. }
  right. split; [exact Hpos|]. exists ix, row, found.
  split; [reflexivity|]. split; [exact Ef|].
  rewrite collect_matching by (unfold Py.len; simpl; lia).
  simpl. now rewrite Nat.sub_0_r.
Qed.

Lemma ranked_from_ranks (n : nat) (items : list (Document * Q)) (i : nat)
    (r : SearchResult) :
  nth_error (ranked_from n items) i = Some r -> rank r = Z.of_nat (n + i) + 1.
Proof.
  unfold ranked_from. revert n i.
  induction items as [|it t IH]; intros n [|i]; simpl; try discriminate.
  - intros [= <-]. simpl. now rewrite Nat.add_0_r.
  - intros Hr. rewrite (IH _ _ Hr). f_equal. lia.
Qed.

Lemma ranked_from_documents (n : nat) (items : list (Document * Q)) :
  map document (ranked_from n items) = map fst items /\
  map score (ranked_from n items) = map snd items.
Proof.
  unfold ranked_from. revert n.
  induction items as [|it t IH]; intros n; simpl; [split; reflexivity|].
  destruct (IH (S n)) as [H1 H2]. rewrite H1, H2. split; reflexivity.
Qed.

(** Whatever the language filter, for [top_k >= 0] the vector search returns
    at most [top_k] results, ranked 1, 2, ... without gaps, and every
    returned document is one of the stored documents. *)
Theorem faiss_search_shape (self : t) (query : string) (top_k : Z)
    (language : option string) :
  0 <= top_k ->
  let results := search self query top_k language in
  Py.len results <= top_k /\
  ranked_from_one results /\
  Forall (fun r => In (document r) (documents self)) results.
Proof.
  intros Hk results. unfold results.
  destruct (faiss_search_cases self query top_k language)
    as [E|(Hpos & ix & row & found & _ & _ & E)]; rewrite E.
  - split; [unfold Py.len; simpl; lia|].
    split; [intros [|i] r; discriminate | constructor].
  - split; [unfold Py.len; rewrite ranked_from_length, length_firstn; lia|].
    split; [intros i r Hr; now rewrite (ranked_from_ranks 0 _ i r Hr)|].
    apply List.Forall_forall. intros r Hr.
    apply (in_map document) in Hr.
    destruct (ranked_from_documents 0
                (firstn (Z.to_nat top_k) (matching (documents self) language found)))
      as [Hd _].
    rewrite Hd in Hr. apply in_map_iff in Hr. destruct Hr as ([doc s] & <- & Hin).
    apply In_firstn in Hin. simpl. eapply matching_stored. exact Hin.
Qed.

(** The vector search returns nothing when no index is built or loaded,
    when [top_k <= 0] ([index.search] rejects [k <= 0]) and when the index
    holds no vector. *)
Theorem faiss_search_degenerate (self : t) (query : string) (top_k : Z)
    (language : option string) :
  index self = None \/ top_k <= 0 \/
  (exists ix, index self = Some ix /\ Faiss.ntotal ix = 0) ->
  search self query top_k language = [].
Proof.
  intros H.
  destruct (faiss_search_cases self query top_k language)
    as [E|(Hpos & ix & row & found & Hix & Hc & _)]; [exact E|].
  exfalso. destruct H as [H|[H|(ix' & H & Hn)]]; [congruence | lia |].
  rewrite Hix in H. injection H as <-.
  unfold candidates, Faiss.search in Hc. rewrite Hn in Hc.
  destruct (Z.min _ 0 <=? 0) eqn:E; [discriminate|].
  apply Z.leb_gt in E. lia.
Qed.

End VectorSearchShape.

Lemma faiss_search_shape_witness :
  let results :=
    FAISSRetriever.search (env := Demo.collaborators) Corpus.vector "capital" 3 None in
  Py.len results <= 3 /\
  ranked_from_one results /\
  Forall (fun r => In (document r) (FAISSRetriever.documents Corpus.vector)) results.
Proof.
  apply (faiss_search_shape (env := Demo.collaborators) Corpus.vector "capital" 3 None).
  lia.
Defined.

Lemma faiss_search_degenerate_witness :
  FAISSRetriever.search (env := Demo.collaborators) Corpus.vector "capital" 0 None = [].
Proof.
  apply (faiss_search_degenerate (env := Demo.collaborators) Corpus.vector "capital" 0 None).
  right. left. lia.
Defined.

(** ** Order of the vector search results *)

Lemma StronglySorted_firstn {A : Type} (R : A -> A -> Prop) (n : nat) (l : list A) :
  StronglySorted R l -> StronglySorted R (firstn n l).
Proof.
  intros Hs. revert n. induction Hs as [|x t Ht IH Hx]; intros [|n]; simpl;
    try constructor; [apply IH|].
  apply List.Forall_forall. intros y Hy. apply In_firstn in Hy.
  rewrite List.Forall_forall in Hx. now apply Hx.
Qed.

Lemma ranked_with_sorted (ties : nat -> nat) (ix : Faiss.IndexFlatIP) (x : Vec) :
  StronglySorted (fun a b : Q * Z => (fst b <= fst a)%Q) (Faiss.ranked_with ties ix x).
Proof.
  unfold Faiss.ranked_with. eapply StronglySorted_weaken.
  2: { apply stable_sort_sorted;
         [apply key_then_place_total | apply key_then_place_trans]. }
  intros a b H. apply key_then_place_iff in H. simpl in H.
  destruct H as [L|[E _]]; lra.
Qed.

Lemma enumerate_from_fst {A : Type} (n : nat) (l : list A) :
  map fst (Py.enumerate_from n l) = seq n (List.length l).
Proof. revert n. induction l as [|x t IH]; intros n; simpl; [reflexivity | now rewrite IH]. Qed.

(** Whatever order FAISS gives to the rows of equal inner product, it is
    the order of the model for some ties: every list of the rows by
    descending inner product is an answer of [Faiss.ranked_with]. *)
Lemma ranked_with_any_order (ix : Faiss.IndexFlatIP) (x : Vec) (order : list (Q * Z)) :
  Permutation order (Faiss.scored ix x) ->
  StronglySorted (fun a b : Q * Z => (fst b <= fst a)%Q) order ->
  Faiss.ranked_with (place_in (map (fun c => Z.to_nat (snd c)) order)) ix x = order.
Proof.
  intros Hp Hs. unfold Faiss.ranked_with.
  apply (stable_sort_any_order (fun c : Q * Z => (- fst c)%Q)
           (fun c : Q * Z => Z.to_nat (snd c))); [|exact Hp|].
  - unfold Faiss.scored, Py.enumerate. rewrite map_map. simpl.
    erewrite map_ext; [|intros iv; apply Nat2Z.id].
    rewrite enumerate_from_fst. apply List.seq_NoDup.
  - eapply StronglySorted_weaken; [|exact Hs]. intros a b H.
    now apply Qopp_le_compat.
Qed.

Section VectorSearchOrder.
Context {env : Collaborators}.
Import FAISSRetriever.

Lemma matching_app (docs : list Document) (language : option string)
    (l l' : list (Q * Z)) :
  matching docs language (l ++ l') = matching docs language l ++ matching docs language l'.
Proof. unfold matching. apply flat_map_app. Qed.

Lemma matching_padding (docs : list Document) (language : option string) (n : nat) :
  matching docs language (repeat (Faiss.lowest_score, -1) n) = [].
Proof. induction n as [|n IH]; simpl; [reflexivity | exact IH]. Qed.

Lemma matching_score_In (docs : list Document) (language : option string)
    (l : list (Q * Z)) (doc : Document) (s : Q) :
  In (doc, s) (matching docs language l) -> exists idx, In (s, idx) l.
Proof.
  unfold matching. intros Hin. apply in_flat_map in Hin.
  destruct Hin as ([s' idx] & Hc & Hin).
  destruct ((idx <? 0) || (idx >=? Py.len docs)); [contradiction|].
  destruct (nth_error docs (Z.to_nat idx)); [|contradiction].
  destruct (passes_filter language d); [|contradiction].
  destruct Hin as [[= <- <-]|[]]. now exists idx.
Qed.

Lemma matching_sorted (docs : list Document) (language : option string)
    (l : list (Q * Z)) :
  StronglySorted (fun a b => fst b <= fst a)%Q l ->
  StronglySorted (fun a b => snd b <= snd a)%Q (matching docs language l).
Proof.
  induction 1 as [|[s idx] t Ht IH Hc]; [constructor|].
  assert (Hall : Forall (fun it : Document * Q => snd it <= s)%Q
                   (matching docs language t)).
  { apply List.Forall_forall. intros [doc s'] Hin.
    apply matching_score_In in Hin. destruct Hin as [idx' Hin].
    rewrite List.Forall_forall in Hc. apply (Hc _ Hin). }
  unfold matching. simpl. fold (matching docs language t).
  destruct ((idx <? 0) || (idx >=? Py.len docs)); [exact IH|].
  destruct (nth_error docs (Z.to_nat idx)); [|exact IH].
  destruct (passes_filter language d); [|exact IH].
  simpl. constructor; [exact IH | exact Hall].
Qed.

Lemma ranked_from_sorted (n : nat) (items : list (Document * Q)) :
  StronglySorted (fun a b => snd b <= snd a)%Q items ->
  StronglySorted by_score_desc (ranked_from n items).
Proof.
  intros Hs. revert n. induction Hs as [|it t Ht IH Hit]; intros n;
    [constructor|].
  unfold ranked_from. simpl. fold (ranked_from (S n) t).
  constructor; [apply IH|].
  apply List.Forall_forall. intros r Hr.
  apply (in_map score) in Hr.
  destruct (ranked_from_documents (S n) t) as [_ Hsc]. rewrite Hsc in Hr.
  apply in_map_iff in Hr. destruct Hr as (it' & Hs' & Hin).
  rewrite List.Forall_forall in Hit. unfold by_score_desc. simpl.
  rewrite <- Hs'. now apply Hit.
Qed.

Lemma index_search_sorted (ix : Faiss.IndexFlatIP) (x : Vec) (k : Z)
    (found : list (Q * Z)) (docs : list Document) (language : option string) :
  Faiss.search ix x k = Ok found ->
  StronglySorted (fun a b => snd b <= snd a)%Q (matching docs language found).
Proof.
  unfold Faiss.search.
  destruct (k <=? 0); [discriminate|].
  destruct (negb _); [discriminate|].
  intros [= <-]. rewrite matching_app, matching_padding, app_nil_r.
  apply matching_sorted, StronglySorted_firstn.
  apply ranked_with_sorted.
Qed.

(** The results of the vector search are in descending order of score. *)
Theorem faiss_search_descending (self : t) (query : string) (top_k : Z)
    (language : option string) :
  StronglySorted by_score_desc (search self query top_k language).
Proof.
  destruct (faiss_search_cases self query top_k language)
    as [E|(_ & ix & row & found & _ & Hc & E)]; rewrite E; [constructor|].
  apply ranked_from_sorted, StronglySorted_firstn.
  eapply index_search_sorted. exact Hc.
Qed.

End VectorSearchOrder.

(** ** Coverage of the lexical search *)

Lemma Permutation_filter_compat {A : Type} (f : A -> bool) (l l' : list A) :
  Permutation l l' -> Permutation (List.filter f l) (List.filter f l').
Proof.
  induction 1 as [|x l l' _ IH|x y l|l l' l'' _ IH1 _ IH2]; simpl.
  - constructor.
  - destruct (f x); [now constructor | exact IH].
  - destruct (f x), (f y); try reflexivity. apply perm_swap.
  - now transitivity (List.filter f l').
Qed.

Section LexicalCoverage.
Context {env : Collaborators}.
Import BM25Retriever.

Lemma search_model_no_positive (model : BM25Okapi) (documents : list Document)
    (tokenized_query : list string) (top_k : Z) :
  Forall (fun s => s <= 0)%Q (get_scores (corpus model) tokenized_query) ->
  search_model model documents tokenized_query top_k = [].
Proof.
  intros Hall. unfold search_model.
  set (scores := get_scores (corpus model) tokenized_query) in *.
  assert (Hnth : forall idx, (nth idx scores 0 <= 0)%Q).
  { intros idx. destruct (Nat.lt_ge_cases idx (List.length scores)) as [Hlt|Hge].
    - rewrite List.Forall_forall in Hall. apply Hall. now apply nth_In.
    - rewrite nth_overflow by exact Hge. apply Qle_refl. }
  generalize (Py.enumerate (rev (Py.slice_from (- top_k) (Np.argsort scores)))).
  intros l. induction l as [|[i idx] t IH]; simpl; [reflexivity|].
  rewrite IH. destruct (nth_error documents idx); [|reflexivity].
  destruct (Qlt_le_dec 0 (nth idx scores 0%Q)) as [Hpos|_]; [|reflexivity].
  exfalso. apply (Qlt_not_le _ _ Hpos). apply Hnth.
Qed.

(** The lexical search returns nothing when the retriever holds no model
    (nothing built or loaded) and when no document of its models has a
    positive score for the query. *)
Theorem bm25_search_no_match (self : t) (query : string) (top_k : Z)
    (language : option string) :
  (forall model,
     bm25_fr self = Some model \/ bm25_ar self = Some model ->
     Forall (fun s => s <= 0)%Q
       (get_scores (corpus model)
          (preprocess query (Some (bm25_language query language))))) ->
  search self query top_k language = [].
Proof.
  intros Hall.
  destruct (bm25_search_cases self query top_k language)
    as [E|(model & documents & Hsel & E)]; [exact E|].
  rewrite E. apply search_model_no_positive. apply Hall.
  destruct Hsel as [[H _]|[H _]]; auto.
Qed.

Lemma kept_positions_all (documents : list Document) (scores : list Q) :
  List.length scores = List.length documents ->
  Permutation (kept_positions documents scores (rev (Np.argsort scores)))
              (positive_positions scores).
Proof.
  intros Hlen. unfold kept_positions, positive_positions.
  etransitivity.
  - apply Permutation_filter_compat.
    etransitivity; [symmetry; apply Permutation_rev | apply argsort_perm].
  - erewrite List.filter_ext_in; [reflexivity|].
    intros idx Hin. apply in_seq in Hin.
    destruct (nth_error documents idx) eqn:E; [reflexivity|].
    apply nth_error_None in E. lia.
Qed.

(** With [top_k] at least the size of the French partition (and one score
    per document), a French search returns exactly the documents with a
    strictly positive score: its results are the documents at a permutation
    of the positive positions. *)
Theorem bm25_search_returns_all_positive (self : t) (model : BM25Okapi)
    (query : string) (top_k : Z) (language : option string) :
  Py.blank query = false ->
  bm25_language query language = "fr"%string ->
  bm25_fr self = Some model ->
  let tokenized_query := preprocess query (Some "fr"%string) in
  let scores := get_scores (corpus model) tokenized_query in
  tokenized_query <> [] ->
  List.length scores = List.length (documents_fr self) ->
  1 <= top_k -> Py.len scores <= top_k ->
  exists positions,
    results_at (documents_fr self) scores positions
      (search self query top_k language) /\
    Permutation positions (positive_positions scores).
Proof.
  intros Hq Hl Hm tq scores Htq Hlen Hk Hall.
  assert (Hs : search self query top_k language =
               search_model model (documents_fr self) tq top_k).
  { unfold search. fold (bm25_language query language).
    rewrite Hq, Hl. fold tq. destruct tq; [congruence|]. simpl. now rewrite Hm. }
  rewrite Hs.
  exists (kept_positions (documents_fr self) scores (rev (Np.argsort scores))).
  split; [|now apply kept_positions_all].
  assert (Htop : rev (Py.slice_from (- top_k) (Np.argsort scores))
                 = rev (Np.argsort scores)).
  { f_equal. unfold Py.slice_from, Py.len.
    destruct (- top_k <? 0) eqn:E; [|apply Z.ltb_ge in E; lia].
    replace (Z.to_nat (Z.of_nat (List.length (Np.argsort scores)) + - top_k))
      with 0%nat; [reflexivity|].
    pose proof (Permutation_length (argsort_perm scores)) as Hp.
    rewrite length_seq in Hp. unfold Py.len in Hall. lia. }
  unfold search_model. fold scores. rewrite Htop.
  apply (result_loop_at (documents_fr self) scores 0 (rev (Np.argsort scores))).
Qed.

End LexicalCoverage.

Lemma bm25_search_no_match_witness :
  BM25Retriever.search (env := Demo.collaborators) Corpus.lexical "societe" 3
    (Some "fr"%string) = [].
Proof.
  apply (bm25_search_no_match (env := Demo.collaborators) Corpus.lexical "societe" 3
           (Some "fr"%string)).
  intros model [H|H]; injection H as <-; vm_compute; repeat constructor; discriminate.
Defined.

Lemma bm25_search_returns_all_positive_witness :
  exists positions,
    results_at (BM25Retriever.documents_fr Corpus.lexical)
      (get_scores (Collaborators := Demo.collaborators)
         (BM25Retriever.tokenized_corpus_fr Corpus.lexical) ["capital"%string])
      positions
      (BM25Retriever.search (env := Demo.collaborators) Corpus.lexical "capital" 5
         (Some "fr"%string)) /\
    Permutation positions
      (positive_positions
         (get_scores (Collaborators := Demo.collaborators)
            (BM25Retriever.tokenized_corpus_fr Corpus.lexical) ["capital"%string])).
Proof.
  apply (bm25_search_returns_all_positive (env := Demo.collaborators) Corpus.lexical
           (BM25Retriever.mkBM25Okapi (BM25Retriever.tokenized_corpus_fr Corpus.lexical))
           "capital" 5 (Some "fr"%string) eq_refl eq_refl eq_refl);
    [discriminate | reflexivity | lia | vm_compute; discriminate].
Defined.

(** ** What the lexical build indexes *)

Lemma skipn_nth_error {A : Type} (l : list A) (i : nat) (x : A) :
  nth_error l i = Some x -> skipn i l = x :: skipn (S i) l.
Proof.
  revert i. induction l as [|y t IH]; intros [|i]; simpl; try discriminate.
  - now intros [= ->].
  - intros H. now apply IH.
Qed.

Lemma filter_map_commute {A B : Type} (g : A -> B) (p : B -> bool) (l : list A) :
  List.filter p (map g l) = map g (List.filter (fun a => p (g a)) l).
Proof.
  induction l as [|a t IH]; simpl; [reflexivity|].
  destruct (p (g a)); simpl; now rewrite IH.
Qed.

Lemma combine_map_fst_snd {A B C : Type} (f : A -> C) (l : list (A * B)) :
  combine (map f (map fst l)) (map snd l) = map (fun ab => (f (fst ab), snd ab)) l.
Proof. induction l as [|[a b] t IH]; simpl; [reflexivity | now rewrite IH]. Qed.

Section LexicalBuild.
Context {env : Collaborators}.
Import BM25Retriever.

Lemma language_fr_not_ar (doc : Document) :
  language_is doc "fr" = true -> language_is doc "ar" = false.
Proof.
  unfold language_is. destruct (language doc) as [l|]; [|discriminate].
  intros H. apply String.eqb_eq in H. now subst.
Qed.

(** The first loop of [build_index] on aligned inputs. *)
Lemma separate_aligned (texts : list string) (docs : list Document) (i : nat)
    (tf : list string) (df : list Document) (ta : list string) (da : list Document) :
  (i + List.length docs <= List.length texts)%nat ->
  let pairs := combine (skipn i texts) docs in
  let fr := List.filter (fun td => language_is (snd td) "fr") pairs in
  let ar := List.filter (fun td => language_is (snd td) "ar") pairs in
  separate texts (Py.enumerate_from i docs) tf df ta da =
  Ok (tf ++ map fst fr, df ++ map snd fr, ta ++ map fst ar, da ++ map snd ar).
Proof.
  revert i tf df ta da. induction docs as [|doc rest IH]; intros i tf df ta da Hlen.
  - simpl. rewrite combine_nil. simpl. now rewrite !app_nil_r.
  - simpl in Hlen. cbv zeta.
    destruct (nth_error texts i) as [text|] eqn:Et;
      [|apply nth_error_None in Et; lia].
    rewrite (skipn_nth_error texts i text Et). simpl.
    destruct (language_is doc "fr") eqn:Efr.
    + rewrite (language_fr_not_ar doc Efr), Et.
      rewrite IH by lia. simpl. now rewrite <- !app_assoc.
    + destruct (language_is doc "ar") eqn:Ear.
      * rewrite Et. rewrite IH by lia. simpl. now rewrite <- !app_assoc.
      * rewrite IH by lia. reflexivity.
Qed.

Lemma keep_tokenized_pairs (l : string) (pairs : list (string * Document)) :
  keep_tokenized (map (fun text => preprocess text (Some l)) (map fst pairs))
                 (map snd pairs)
  = map (fun td => (preprocess (fst td) (Some l), snd td))
        (List.filter (fun td => negb (is_empty (preprocess (fst td) (Some l)))) pairs).
Proof.
  unfold keep_tokenized.
  rewrite (combine_map_fst_snd (fun text => preprocess text (Some l))).
  rewrite filter_map_commute. reflexivity.
Qed.

(** Given one text per document, [build_index] succeeds and each language
    partition holds, in corpus order, the documents of that language whose
    text has at least one token, next to the token lists of their texts. *)
Theorem bm25_build_indexes (self : t) (fs : gmap string File)
    (texts : list string) (docs : list Document) :
  List.length texts = List.length docs ->
  exists self' fs',
    build_index self fs texts docs = Ok (self', fs') /\
    documents_fr self' = map snd (indexed_pairs "fr" texts docs) /\
    tokenized_corpus_fr self' =
      map (fun td => preprocess (fst td) (Some "fr"%string)) (indexed_pairs "fr" texts docs) /\
    documents_ar self' = map snd (indexed_pairs "ar" texts docs) /\
    tokenized_corpus_ar self' =
      map (fun td => preprocess (fst td) (Some "ar"%string)) (indexed_pairs "ar" texts docs).
Proof.
  intros Hlen. unfold build_index, Py.enumerate.
  rewrite (separate_aligned texts docs 0 [] [] [] []) by (simpl; lia).
  simpl. eexists. eexists. split; [reflexivity|]. simpl.
  rewrite !keep_tokenized_pairs, !map_map. simpl.
  unfold indexed_pairs. repeat split; reflexivity.
Qed.

(** The second loop of [build_index] keeps the token lists and the
    documents aligned and drops the empty token lists. *)
Lemma keep_tokenized_aligned (tokenized : list (list string)) (documents : list Document) :
  List.length (map fst (keep_tokenized tokenized documents))
    = List.length (map snd (keep_tokenized tokenized documents)) /\
  Forall (fun tokens => tokens <> []) (map fst (keep_tokenized tokenized documents)).
Proof.
  split; [now rewrite !length_map|].
  apply List.Forall_forall. intros tokens Hin.
  apply in_map_iff in Hin. destruct Hin as ([tokens' doc] & <- & Hin).
  unfold keep_tokenized in Hin. apply List.filter_In in Hin.
  destruct Hin as [_ Hne]. simpl in *. now destruct tokens'.
Qed.

Lemma model_of_spec (tokenized : list (list string)) :
  match model_of tokenized with
  | Some model => corpus model = tokenized /\ tokenized <> []
  | None => tokenized = []
  end.
Proof. destruct tokenized; simpl; [reflexivity | split; [reflexivity | discriminate]]. Qed.

(** After every successful [build_index], in each language the token lists
    and the documents have the same length, no token list is empty, and the
    model is built from exactly these token lists (and is absent when there
    are none). *)
Theorem bm25_build_aligned (self self' : t) (fs fs' : gmap string File)
    (texts : list string) (docs : list Document) :
  build_index self fs texts docs = Ok (self', fs') ->
  (List.length (tokenized_corpus_fr self') = List.length (documents_fr self') /\
   Forall (fun tokens => tokens <> []) (tokenized_corpus_fr self') /\
   bm25_fr self' = model_of (tokenized_corpus_fr self')) /\
  (List.length (tokenized_corpus_ar self') = List.length (documents_ar self') /\
   Forall (fun tokens => tokens <> []) (tokenized_corpus_ar self') /\
   bm25_ar self' = model_of (tokenized_corpus_ar self')).
Proof.
  unfold build_index.
  destruct (separate texts (Py.enumerate docs) [] [] [] [])
    as [[[[tf df] ta] da]|e]; simpl; [|discriminate].
  intros [= <- _]. simpl.
  split; (split; [apply keep_tokenized_aligned|]);
    (split; [apply keep_tokenized_aligned | reflexivity]).
Qed.

Lemma separate_outcome (texts : list string) (docs : list Document) (i : nat)
    (tf : list string) (df : list Document) (ta : list string) (da : list Document) :
  (exists parts, separate texts (Py.enumerate_from i docs) tf df ta da = Ok parts) \/
  (separate texts (Py.enumerate_from i docs) tf df ta da = Raise IndexError /\
   (List.length texts < i + List.length docs)%nat).
Proof.
  revert i tf df ta da. induction docs as [|doc rest IH]; intros i tf df ta da; simpl.
  - left. eexists. reflexivity.
  - destruct (language_is doc "fr").
    + destruct (nth_error texts i) eqn:Et.
      * destruct (IH (S i) (tf ++ [s]) (df ++ [doc]) ta da) as [H|[H Hl]];
          [now left | right; split; [exact H | lia]].
      * right. split; [reflexivity|]. apply nth_error_None in Et. lia.
    + destruct (language_is doc "ar").
      * destruct (nth_error texts i) eqn:Et.
        -- destruct (IH (S i) tf df (ta ++ [s]) (da ++ [doc])) as [H|[H Hl]];
             [now left | right; split; [exact H | lia]].
        -- right. split; [reflexivity|]. apply nth_error_None in Et. lia.
      * destruct (IH (S i) tf df ta da) as [H|[H Hl]];
          [now left | right; split; [exact H | lia]].
Qed.

(** [build_index] either succeeds or raises [IndexError]; it raises only
    when there are fewer texts than documents. *)
Theorem bm25_build_outcome (self : t) (fs : gmap string File)
    (texts : list string) (docs : list Document) :
  (exists self' fs', build_index self fs texts docs = Ok (self', fs')) \/
  (build_index self fs texts docs = Raise IndexError /\
   (List.length texts < List.length docs)%nat).
Proof.
  unfold build_index, Py.enumerate.
  destruct (separate_outcome texts docs 0 [] [] [] []) as [[parts H]|[H Hl]];
    rewrite H; simpl.
  - left. destruct parts as [[[tf df] ta] da]. eexists. eexists. reflexivity.
  - right. split; [reflexivity | exact Hl].
Qed.

End LexicalBuild.

Lemma bm25_build_indexes_witness :
  exists self' fs',
    BM25Retriever.build_index (env := Demo.collaborators) (BM25Retriever.init None) ∅
      Corpus.texts Corpus.documents = Ok (self', fs') /\
    BM25Retriever.documents_fr self' =
      map snd (indexed_pairs (env := Demo.collaborators) "fr" Corpus.texts Corpus.documents) /\
    BM25Retriever.tokenized_corpus_fr self' =
      map (fun td => preprocess (env := Demo.collaborators) (fst td) (Some "fr"%string))
          (indexed_pairs (env := Demo.collaborators) "fr" Corpus.texts Corpus.documents) /\
    BM25Retriever.documents_ar self' =
      map snd (indexed_pairs (env := Demo.collaborators) "ar" Corpus.texts Corpus.documents) /\
    BM25Retriever.tokenized_corpus_ar self' =
      map (fun td => preprocess (env := Demo.collaborators) (fst td) (Some "ar"%string))
          (indexed_pairs (env := Demo.collaborators) "ar" Corpus.texts Corpus.documents).
Proof.
  apply (bm25_build_indexes (env := Demo.collaborators) (BM25Retriever.init None) ∅
           Corpus.texts Corpus.documents).
  reflexivity.
Defined.

Lemma bm25_build_aligned_witness :
  (List.length (BM25Retriever.tokenized_corpus_fr Corpus.lexical)
     = List.length (BM25Retriever.documents_fr Corpus.lexical) /\
   Forall (fun tokens => tokens <> []) (BM25Retriever.tokenized_corpus_fr Corpus.lexical) /\
   BM25Retriever.bm25_fr Corpus.lexical
     = BM25Retriever.model_of (BM25Retriever.tokenized_corpus_fr Corpus.lexical)) /\
  (List.length (BM25Retriever.tokenized_corpus_ar Corpus.lexical)
     = List.length (BM25Retriever.documents_ar Corpus.lexical) /\
   Forall (fun tokens => tokens <> []) (BM25Retriever.tokenized_corpus_ar Corpus.lexical) /\
   BM25Retriever.bm25_ar Corpus.lexical
     = BM25Retriever.model_of (BM25Retriever.tokenized_corpus_ar Corpus.lexical)).
Proof.
  apply (bm25_build_aligned (env := Demo.collaborators) (BM25Retriever.init None)
           Corpus.lexical ∅ ∅ Corpus.texts Corpus.documents).
  reflexivity.
Defined.

(** ** What the vector build indexes *)

Section VectorBuild.
Context {env : Collaborators}.
Import FAISSRetriever.

Lemma create_embeddings_Some (texts : list string) (embeddings : list Vec) :
  _create_embeddings texts = Some embeddings -> encode texts = Ok embeddings.
Proof.
  unfold _create_embeddings. destruct (encode texts); simpl; [|discriminate].
  now intros [= ->].
Qed.

Lemma nonblank_pairs_not_blank (texts : list string) (docs : list Document)
    (text : string) (doc : Document) :
  In (text, doc) (nonblank_pairs texts docs) ->
  In (text, doc) (combine texts docs) /\ Py.blank text = false.
Proof.
  unfold nonblank_pairs. intros Hin. apply List.filter_In in Hin.
  destruct Hin as [Hin Hp]. split; [exact Hin|].
  simpl in Hp. apply andb_true_iff in Hp. destruct Hp as [H1 H2].
  unfold Py.blank. now rewrite H1, H2.
Qed.

(** With an encoder returning one row per text, an index built by a fresh
    retriever is aligned with the stored documents.  The stored documents
    are the documents of the input whose text is not blank, in input
    order; the rows of the index are the normalised rows the encoder
    returned for these texts, in the same order; so row [i] of the index is
    the normalised embedding of the text of the stored document [i], and
    there are as many rows as stored documents. *)
Theorem faiss_build_aligned (path : option string) (self' : t)
    (fs fs' : gmap string File) (texts : list string) (docs : list Document)
    (ix : Faiss.IndexFlatIP) :
  encoder_row_per_text ->
  build_index (init path) fs texts docs = Ok (self', fs') ->
  index self' = Some ix ->
  documents self' = map snd (nonblank_pairs texts docs) /\
  Faiss.ntotal ix = Py.len (documents self') /\
  Forall (fun doc => exists text,
            In (text, doc) (combine texts docs) /\ Py.blank text = false)
         (documents self') /\
  exists embeddings,
    encode (map fst (nonblank_pairs texts docs)) = Ok embeddings /\
    Faiss.xb ix = map normalize_L2 embeddings /\
    forall i text doc,
      nth_error (nonblank_pairs texts docs) i = Some (text, doc) ->
      nth_error (documents self') i = Some doc /\
      exists row,
        nth_error embeddings i = Some row /\
        nth_error (Faiss.xb ix) i = Some (normalize_L2 row).
Proof.
  intros Henc. unfold build_index. fold (nonblank_pairs texts docs).
  destruct (is_empty texts || is_empty docs); [intros [= <- _]; discriminate|].
  destruct (negb _); [discriminate|]. simpl.
  destruct (is_empty (map fst (nonblank_pairs texts docs)));
    [intros [= <- _]; discriminate|].
  destruct (_create_embeddings _) as [embeddings|] eqn:Ec;
    [|intros [= <- _]; discriminate].
  destruct (is_empty embeddings); [intros [= <- _]; discriminate|].
  intros [= <- _]. simpl. intros [= <-].
  apply create_embeddings_Some in Ec. pose proof (Henc _ _ Ec) as Hrows.
  split; [reflexivity|]. split; [|split].
  - unfold Faiss.ntotal, Py.len. simpl.
    rewrite !length_map in *. now rewrite Hrows.
  - apply List.Forall_forall. intros doc Hin.
    apply in_map_iff in Hin. destruct Hin as ([text doc'] & <- & Hin).
    exists text. now apply nonblank_pairs_not_blank.
  - exists embeddings. split; [exact Ec|]. split; [reflexivity|].
    intros i text doc Hi. simpl.
    split; [now rewrite nth_error_map, Hi|].
    assert (Hlt : (i < List.length embeddings)%nat).
    { rewrite Hrows, length_map. apply nth_error_Some. congruence. }
    destruct (nth_error embeddings i) as [row|] eqn:Er;
      [|apply nth_error_None in Er; lia].
    exists row. split; [reflexivity|]. now rewrite nth_error_map, Er.
Qed.

(** When the encoder raises on the texts to index, [build_index] returns
    normally: the index is the one the retriever had before, the stored
    documents are replaced by the documents with a non-blank text, and
    nothing is saved. *)
Theorem faiss_build_encoder_failure (self : t) (fs : gmap string File)
    (texts : list string) (docs : list Document) (e : Exception) :
  List.length texts = List.length docs ->
  nonblank_pairs texts docs <> [] ->
  encode (map fst (nonblank_pairs texts docs)) = Raise e ->
  build_index self fs texts docs
  = Ok (mk (index_path self) (index self) (map snd (nonblank_pairs texts docs)), fs).
Proof.
  intros Hlen Hne Henc. unfold build_index. fold (nonblank_pairs texts docs).
  assert (Ht : is_empty texts || is_empty docs = false).
  { destruct texts as [|t ts], docs as [|d ds]; try discriminate Hlen;
      [now contradiction Hne | reflexivity]. }
  rewrite Ht, Hlen, Nat.eqb_refl. simpl.
  destruct (nonblank_pairs texts docs) as [|p ps] eqn:Ep; [congruence|].
  simpl. unfold _create_embeddings. simpl in Henc. now rewrite Henc.
Qed.

End VectorBuild.

Lemma faiss_build_aligned_witness :
  FAISSRetriever.documents Corpus.vector
    = map snd (nonblank_pairs Corpus.texts Corpus.documents) /\
  Faiss.ntotal (Faiss.mkIndex 2 (repeat [1%Q; 0%Q] 8))
    = Py.len (FAISSRetriever.documents Corpus.vector) /\
  Forall (fun doc => exists text,
            In (text, doc) (combine Corpus.texts Corpus.documents) /\
            Py.blank text = false)
         (FAISSRetriever.documents Corpus.vector) /\
  exists embeddings,
    encode (Collaborators := Demo.collaborators)
      (map fst (nonblank_pairs Corpus.texts Corpus.documents)) = Ok embeddings /\
    Faiss.xb (Faiss.mkIndex 2 (repeat [1%Q; 0%Q] 8))
      = map (normalize_L2 (Collaborators := Demo.collaborators)) embeddings /\
    forall i text doc,
      nth_error (nonblank_pairs Corpus.texts Corpus.documents) i = Some (text, doc) ->
      nth_error (FAISSRetriever.documents Corpus.vector) i = Some doc /\
      exists row,
        nth_error embeddings i = Some row /\
        nth_error (Faiss.xb (Faiss.mkIndex 2 (repeat [1%Q; 0%Q] 8))) i
          = Some (normalize_L2 (Collaborators := Demo.collaborators) row).
Proof.
  apply (faiss_build_aligned (env := Demo.collaborators) None Corpus.vector ∅ ∅
           Corpus.texts Corpus.documents (Faiss.mkIndex 2 (repeat [1%Q; 0%Q] 8))).
  - intros texts embeddings [= <-]. apply length_map.
  - reflexivity.
  - reflexivity.
Defined.

Lemma faiss_build_encoder_failure_witness :
  FAISSRetriever.build_index (env := broken_encoder) Corpus.vector ∅
    ["statuts"%string] [Demo.doc "n0" "fr"]
  = Ok (FAISSRetriever.mk None (FAISSRetriever.index Corpus.vector) [Demo.doc "n0" "fr"], ∅).
Proof.
  apply (faiss_build_encoder_failure (env := broken_encoder) Corpus.vector ∅
           ["statuts"%string] [Demo.doc "n0" "fr"] RuntimeError eq_refl);
    [discriminate | reflexivity].
Defined.

(** ** Paths of the vector snapshot *)

Lemma string_length_append (s1 s2 : string) :
  String.length (s1 ++ s2) = (String.length s1 + String.length s2)%nat.
Proof. induction s1 as [|c t IH]; simpl; [reflexivity | now rewrite IH]. Qed.

Lemma drop_length (n : nat) (s : string) :
  String.length (Py.drop n s) = (String.length s - n)%nat.
Proof.
  revert s. induction n as [|n IH]; intros s; simpl; [lia|].
  destruct s; simpl; [reflexivity | apply IH].
Qed.

Lemma startswith_length (s p : string) :
  Py.startswith s p = true -> (String.length p <= String.length s)%nat.
Proof.
  revert s. induction p as [|c p IH]; intros s; simpl; [lia|].
  destruct s as [|c' s]; [discriminate|].
  intros H. apply andb_true_iff in H. destruct H as [_ H].
  apply IH in H. simpl. lia.
Qed.

(** Replacing a non-empty string by a longer one never shortens the text and
    lengthens it as soon as the replaced string occurs. *)
Lemma replace_fuel_length (old new : string) (fuel : nat) (s : string) :
  (1 <= String.length old < String.length new)%nat ->
  (String.length s <= fuel)%nat ->
  (String.length s <= String.length (Py.replace_fuel fuel s old new))%nat /\
  (PyStr.contains s old = true ->
   (String.length s < String.length (Py.replace_fuel fuel s old new))%nat).
Proof.
  intros Hold. revert s.
  induction fuel as [fuel IH] using lt_wf_ind. intros s Hs.
  destruct fuel as [|fuel].
  - destruct s; [|simpl in Hs; lia]. simpl. split; [lia|].
    destruct old; [simpl in Hold; lia | discriminate].
  - destruct s as [|c t].
    + simpl. split; [lia|]. destruct old; [simpl in Hold; lia | discriminate].
    + cbn [Py.replace_fuel PyStr.contains].
      destruct (Py.startswith (String c t) old) eqn:Es.
      * pose proof (startswith_length _ _ Es) as Hl.
        destruct (IH fuel ltac:(lia) (Py.drop (String.length old) (String c t)))
          as [Hge _].
        { rewrite drop_length. simpl in *. lia. }
        rewrite drop_length in Hge. rewrite string_length_append.
        split; [|intros _]; simpl in *; lia.
      * destruct (IH fuel ltac:(lia) t ltac:(simpl in Hs; lia)) as [Hge Hgt].
        simpl. split; [lia|]. intros Hc. apply Hgt in Hc. lia.
Qed.

(** The documents file of a vector snapshot is another file than the index
    file whenever the index path contains [".bin"]. *)
Theorem documents_path_distinct (path : string) :
  PyStr.contains path ".bin" = true ->
  FAISSRetriever.documents_path path <> path.
Proof.
  intros Hc E.
  destruct (replace_fuel_length ".bin" "_docs.pkl" (String.length path) path
              ltac:(simpl; lia) ltac:(lia)) as [_ Hgt].
  specialize (Hgt Hc). unfold FAISSRetriever.documents_path, Py.replace in E.
  rewrite E in Hgt. lia.
Qed.

Lemma documents_path_distinct_witness :
  FAISSRetriever.documents_path "data/faiss_index.bin" <> "data/faiss_index.bin"%string.
Proof. apply (documents_path_distinct "data/faiss_index.bin"). reflexivity. Defined.

(** ** Snapshots that load back *)

Section SnapshotReload.
Context {env : Collaborators}.

(** When the directory of the data path exists or can be made and the data
    file can then be opened for writing, [build_index] leaves at the data
    path the pickle of what the retriever holds; a fresh lexical retriever
    loads it with answer [True], and from then on every search gives the
    result the building retriever gives. *)
Theorem bm25_snapshot_reloads (self self' : BM25Retriever.t)
    (fs fs1 fs' : gmap string File)
    (path : string) (texts : list string) (docs : list Document) :
  BM25Retriever.data_path self = Some path ->
  Os.makedirs fs (Py.dirname path) = Ok fs1 ->
  Os.open_error fs1 path = None ->
  BM25Retriever.build_index self fs texts docs = Ok (self', fs') ->
  fs' !! path = Some (BM25Pickle (BM25Retriever.saved_data self')) /\
  exists loaded,
    BM25Retriever.load_index (BM25Retriever.init (Some path)) fs' = (true, loaded) /\
    forall query top_k language,
      BM25Retriever.search loaded query top_k language
      = BM25Retriever.search self' query top_k language.
Proof.
  intros Hp Hm Ho Hb.
  destruct (bm25_round_trip self self' fs fs1 fs' path texts docs Hp Hm Ho Hb)
    as [Hfile Hload].
  split; [exact Hfile|]. exists self'. split; [exact Hload | reflexivity].
Qed.

(** When the directory of the index path exists or can be made, the index
    file and the documents file can then both be opened for writing, and
    the documents path is another path than the index path, a completed
    [build_index] of a fresh retriever leaves its index and its documents
    in the two files; another fresh retriever loads them with answer
    [True], and from then on every search gives the result the building
    retriever gives. *)
Theorem faiss_snapshot_reloads (self' : FAISSRetriever.t)
    (fs fs1 fs' : gmap string File)
    (path : string) (texts : list string) (docs : list Document)
    (ix : Faiss.IndexFlatIP) :
  Os.makedirs fs (Py.dirname path) = Ok fs1 ->
  Os.open_error fs1 path = None ->
  Os.open_error fs1 (FAISSRetriever.documents_path path) = None ->
  FAISSRetriever.documents_path path <> path ->
  FAISSRetriever.build_index (FAISSRetriever.init (Some path)) fs texts docs
    = Ok (self', fs') ->
  FAISSRetriever.index self' = Some ix ->
  fs' !! path = Some (FaissIndexFile ix) /\
  fs' !! FAISSRetriever.documents_path path
    = Some (DocsPickle (FAISSRetriever.documents self')) /\
  exists loaded,
    FAISSRetriever.load_index (FAISSRetriever.init (Some path)) fs' = (true, loaded) /\
    forall query top_k language,
      FAISSRetriever.search loaded query top_k language
      = FAISSRetriever.search self' query top_k language.
Proof.
  intros Hm Ho Hod Hne Hb Hix.
  destruct (faiss_round_trip self' fs fs1 fs' path texts docs ix Hm Ho Hod Hne Hb Hix)
    as (Hfile & Hdocs & Hload).
  split; [exact Hfile|]. split; [exact Hdocs|].
  exists self'. split; [exact Hload | reflexivity].
Qed.

End SnapshotReload.

Lemma bm25_snapshot_reloads_witness :
  snd (Snapshots.build_lexical "data/bm25_data.pkl") !! "data/bm25_data.pkl"%string
  = Some (BM25Pickle
            (BM25Retriever.saved_data (fst (Snapshots.build_lexical "data/bm25_data.pkl")))) /\
  exists loaded,
    BM25Retriever.load_index (BM25Retriever.init (Some "data/bm25_data.pkl"%string))
      (snd (Snapshots.build_lexical "data/bm25_data.pkl")) = (true, loaded) /\
    forall query top_k language,
      BM25Retriever.search (env := Demo.collaborators) loaded query top_k language
      = BM25Retriever.search (env := Demo.collaborators)
          (fst (Snapshots.build_lexical "data/bm25_data.pkl")) query top_k language.
Proof.
  apply (bm25_snapshot_reloads (env := Demo.collaborators)
           (BM25Retriever.init (Some "data/bm25_data.pkl"%string))
           (fst (Snapshots.build_lexical "data/bm25_data.pkl")) ∅
           (<["data"%string := Directory]> ∅)
           (snd (Snapshots.build_lexical "data/bm25_data.pkl"))
           "data/bm25_data.pkl" Corpus.texts Corpus.documents);
    reflexivity.
Defined.

Lemma faiss_snapshot_reloads_witness :
  snd (Snapshots.build_vector "data/faiss_index.bin") !! "data/faiss_index.bin"%string
  = Some (FaissIndexFile (Faiss.mkIndex 2 (repeat [1%Q; 0%Q] 8))) /\
  snd (Snapshots.build_vector "data/faiss_index.bin") !! "data/faiss_index_docs.pkl"%string
  = Some (DocsPickle
            (FAISSRetriever.documents (fst (Snapshots.build_vector "data/faiss_index.bin")))) /\
  exists loaded,
    FAISSRetriever.load_index (FAISSRetriever.init (Some "data/faiss_index.bin"%string))
      (snd (Snapshots.build_vector "data/faiss_index.bin")) = (true, loaded) /\
    forall query top_k language,
      FAISSRetriever.search (env := Demo.collaborators) loaded query top_k language
      = FAISSRetriever.search (env := Demo.collaborators)
          (fst (Snapshots.build_vector "data/faiss_index.bin")) query top_k language.
Proof.
  apply (faiss_snapshot_reloads (env := Demo.collaborators)
           (fst (Snapshots.build_vector "data/faiss_index.bin")) ∅
           (<["data"%string := Directory]> ∅)
           (snd (Snapshots.build_vector "data/faiss_index.bin"))
           "data/faiss_index.bin" Corpus.texts Corpus.documents
           (Faiss.mkIndex 2 (repeat [1%Q; 0%Q] 8)));
    try reflexivity.
  discriminate.
Defined.

(** ** Loading incomplete snapshots *)

Section IncompleteSnapshots.
Context {env : Collaborators}.
Import FAISSRetriever.

Lemma matching_no_documents (language : option string) (found : list (Q * Z)) :
  matching [] language found = [].
Proof.
  induction found as [|[s idx] t IH]; [reflexivity|].
  unfold matching in *. cbn [flat_map]. rewrite IH, app_nil_r.
  destruct ((idx <? 0) || (idx >=? Py.len [])); [reflexivity|].
  destruct (Z.to_nat idx); reflexivity.
Qed.

Lemma faiss_search_no_documents (self : t) (query : string) (top_k : Z)
    (language : option string) :
  documents self = [] -> search self query top_k language = [].
Proof.
  intros Hd.
  destruct (faiss_search_cases self query top_k language)
    as [E|(_ & ix & row & found & _ & _ & E)]; [exact E|].
  rewrite E, Hd, matching_no_documents. now rewrite firstn_nil.
Qed.

(** When the index file is readable and the documents file is missing,
    [load_index] answers [True] with an empty document list, and every
    search of the loaded retriever returns nothing. *)
Theorem faiss_load_without_documents (self : t) (fs : gmap string File)
    (path : string) (ix : Faiss.IndexFlatIP) :
  index_path self = Some path ->
  Py.truthy path = true ->
  fs !! path = Some (FaissIndexFile ix) ->
  fs !! documents_path path = None ->
  load_index self fs = (true, mk (Some path) (Some ix) []) /\
  forall query top_k language,
    search (snd (load_index self fs)) query top_k language = [].
Proof.
  intros Hp Ht Hix Hdocs.
  assert (E : load_index self fs = (true, mk (Some path) (Some ix) [])).
  { unfold load_index, Os.exists_, read_index. rewrite Hp, Ht, Hix, Hdocs. reflexivity. }
  split; [exact E|]. intros query top_k language. rewrite E.
  now apply faiss_search_no_documents.
Qed.

(** When the index file is readable and the documents file is not,
    [load_index] answers [False], but the retriever now holds the index of
    the file next to the documents it had before. *)
Theorem faiss_load_unreadable_documents (self : t) (fs : gmap string File)
    (path : string) (ix : Faiss.IndexFlatIP) (bytes : string) :
  index_path self = Some path ->
  Py.truthy path = true ->
  fs !! path = Some (FaissIndexFile ix) ->
  fs !! documents_path path = Some (Unreadable bytes) ->
  load_index self fs = (false, mk (Some path) (Some ix) (documents self)).
Proof.
  intros Hp Ht Hix Hdocs.
  unfold load_index, Os.exists_, read_index, read_documents.
  rewrite Hp, Ht, Hix, Hdocs. reflexivity.
Qed.

(** A successful [BM25Retriever.load_index] depends on the snapshot only:
    every retriever with the same data path ends in the same state, and
    loading again changes nothing. *)
Theorem bm25_load_overwrites (self other loaded : BM25Retriever.t)
    (fs : gmap string File) :
  BM25Retriever.load_index self fs = (true, loaded) ->
  BM25Retriever.data_path other = BM25Retriever.data_path self ->
  BM25Retriever.load_index other fs = (true, loaded) /\
  BM25Retriever.load_index loaded fs = (true, loaded).
Proof.
  unfold BM25Retriever.load_index. intros Hl Ho. rewrite Ho.
  destruct (BM25Retriever.data_path self) as [path|] eqn:Hp; [|discriminate].
  destruct (negb (Py.truthy path) || negb (Os.exists_ fs path)) eqn:Eg; [discriminate|].
  destruct (BM25Retriever.read_data fs path) as [data|e] eqn:Er; simpl in *;
    [|discriminate].
  injection Hl as <-. simpl. rewrite Eg, Er. simpl. split; reflexivity.
Qed.

End IncompleteSnapshots.

Lemma faiss_load_without_documents_witness :
  let fs : gmap string File :=
    {[ "data/faiss_index.bin"%string := FaissIndexFile (Faiss.mkIndex 2 [[1%Q; 0%Q]]) ]} in
  FAISSRetriever.load_index (FAISSRetriever.init (Some "data/faiss_index.bin"%string)) fs
  = (true, FAISSRetriever.mk (Some "data/faiss_index.bin"%string)
             (Some (Faiss.mkIndex 2 [[1%Q; 0%Q]])) []) /\
  forall query top_k language,
    FAISSRetriever.search (env := Demo.collaborators)
      (snd (FAISSRetriever.load_index
              (FAISSRetriever.init (Some "data/faiss_index.bin"%string)) fs))
      query top_k language = [].
Proof.
  apply (faiss_load_without_documents (env := Demo.collaborators)
           (FAISSRetriever.init (Some "data/faiss_index.bin"%string))
           {[ "data/faiss_index.bin"%string := FaissIndexFile (Faiss.mkIndex 2 [[1%Q; 0%Q]]) ]}
           "data/faiss_index.bin" (Faiss.mkIndex 2 [[1%Q; 0%Q]]));
    reflexivity.
Defined.

Lemma faiss_load_unreadable_documents_witness :
  FAISSRetriever.load_index (FAISSRetriever.init (Some "data/faiss_index.bin"%string))
    {[ "data/faiss_index.bin"%string := FaissIndexFile (Faiss.mkIndex 2 [[1%Q; 0%Q]]);
       "data/faiss_index_docs.pkl"%string := Unreadable "garbage" ]}
  = (false, FAISSRetriever.mk (Some "data/faiss_index.bin"%string)
              (Some (Faiss.mkIndex 2 [[1%Q; 0%Q]])) []).
Proof.
  apply (faiss_load_unreadable_documents
           (FAISSRetriever.init (Some "data/faiss_index.bin"%string))
           {[ "data/faiss_index.bin"%string := FaissIndexFile (Faiss.mkIndex 2 [[1%Q; 0%Q]]);
              "data/faiss_index_docs.pkl"%string := Unreadable "garbage" ]}
           "data/faiss_index.bin" (Faiss.mkIndex 2 [[1%Q; 0%Q]]) "garbage");
    reflexivity.
Defined.

Lemma bm25_load_overwrites_witness :
  BM25Retriever.load_index
    (fst (Snapshots.build_lexical "data/bm25_data.pkl"))
    (snd (Snapshots.build_lexical "data/bm25_data.pkl"))
  = (true, fst (Snapshots.build_lexical "data/bm25_data.pkl")) /\
  BM25Retriever.load_index
    (fst (Snapshots.build_lexical "data/bm25_data.pkl"))
    (snd (Snapshots.build_lexical "data/bm25_data.pkl"))
  = (true, fst (Snapshots.build_lexical "data/bm25_data.pkl")).
Proof.
  apply (bm25_load_overwrites
           (BM25Retriever.init (Some "data/bm25_data.pkl"%string))
           (fst (Snapshots.build_lexical "data/bm25_data.pkl"))
           (fst (Snapshots.build_lexical "data/bm25_data.pkl"))
           (snd (Snapshots.build_lexical "data/bm25_data.pkl")));
    reflexivity.
Defined.

(** ** Size and scores of the hybrid results *)

Lemma In_slice_to {A : Type} (x : A) (k : Z) (l : list A) :
  In x (Py.slice_to k l) -> In x l.
Proof. unfold Py.slice_to. destruct (k <? 0); apply In_firstn. Qed.

Section HybridResults.
Context {env : Collaborators}.
Import HybridRetriever.

Lemma combine_results_length (self : t) (F B : list SearchResult) (top_k : Z) :
  0 <= top_k -> Py.len (_combine_results self F B top_k) <= top_k.
Proof.
  intros Hk. unfold _combine_results, Py.len, Py.enumerate.
  rewrite length_map, enumerate_from_length.
  apply (slice_to_length top_k _ Hk).
Qed.

(** For [top_k >= 0] the hybrid search never returns more than [top_k]
    results, whichever of its branches is taken. *)
Theorem hybrid_search_bounded (self : t) (query : string) (top_k : Z)
    (language : option string) :
  0 <= top_k -> Py.len (search self query top_k language) <= top_k.
Proof.
  intros Hk. destruct (Py.blank query) eqn:Hq.
  - unfold search. rewrite Hq. unfold Py.len. simpl. lia.
  - rewrite (hybrid_search_unfold self query top_k language Hq). cbv zeta.
    destruct (source_results (faiss_retriever self) query top_k language);
      destruct (source_results (bm25_retriever self) query top_k language);
      try (apply slice_to_length; exact Hk);
      [unfold Py.len; simpl; lia | now apply combine_results_length].
Qed.

(** When both sources hold results, every fused result carries its two
    per-source scores: ['faiss_score'] is the weight of the vector source
    times the document's normalised score in it, ['bm25_score'] likewise
    for the lexical source (0 for a source that did not return the
    document), and ['score'] is their sum. *)
Theorem hybrid_fused_fields (self : t) (query : string) (top_k : Z)
    (language : option string) :
  Py.blank query = false ->
  let F := source_results (faiss_retriever self) query top_k language in
  let B := source_results (bm25_retriever self) query top_k language in
  F <> [] -> B <> [] ->
  Forall (fun r => exists a b,
            faiss_score r = Some a /\ bm25_score r = Some b /\
            (a == contribution (_normalize_scores F) (doc_id r) * faiss_weight self)%Q /\
            (b == contribution (_normalize_scores B) (doc_id r) * bm25_weight self)%Q /\
            score r = (a + b)%Q)
         (search self query top_k language).
Proof.
  intros Hq F B HF HB. rewrite (hybrid_search_unfold self query top_k language Hq).
  fold F B. cbv zeta.
  destruct (combine_results_entries self F B top_k) as (ranking & Hres & Hall).
  destruct F as [|f F']; [congruence|]. destruct B as [|b B']; [congruence|].
  rewrite Hres. apply List.Forall_forall. intros r Hr. apply In_slice_to in Hr.
  rewrite List.Forall_forall in Hall.
  destruct (Hall r Hr) as (a & b' & H1 & H2 & H3 & H4 & H5 & _).
  exists a, b'. auto.
Qed.

Lemma contribution_range (results normalized : list SearchResult) (k : string) :
  min_max_normalized results normalized ->
  (0 <= contribution normalized k <= 1)%Q.
Proof.
  intros Hn. apply min_max_normalized_range in Hn.
  unfold contribution. destruct (source_score normalized k) as [s|] eqn:E;
    [|split; discriminate].
  apply source_score_Some_In in E. destruct E as (r & Hin & _ & <-).
  rewrite List.Forall_forall in Hn. now apply Hn.
Qed.

(** With non-negative weights, every fused score lies between 0 and the sum
    of the two weights. *)
Theorem hybrid_fused_score_range (self : t) (query : string) (top_k : Z)
    (language : option string) :
  Py.blank query = false ->
  source_results (faiss_retriever self) query top_k language <> [] ->
  source_results (bm25_retriever self) query top_k language <> [] ->
  (0 <= faiss_weight self)%Q -> (0 <= bm25_weight self)%Q ->
  Forall (fun r => 0 <= score r <= faiss_weight self + bm25_weight self)%Q
         (search self query top_k language).
Proof.
  intros Hq HF HB Hfw Hbw.
  rewrite (hybrid_search_unfold self query top_k language Hq). cbv zeta.
  set (F := source_results (faiss_retriever self) query top_k language) in *.
  set (B := source_results (bm25_retriever self) query top_k language) in *.
  destruct (combine_results_ranking self F B top_k)
    as (ranking & Hsc & _ & _ & _ & _ & _ & Hres).
  pose proof (normalize_scores_min_max F HF) as HNF.
  pose proof (normalize_scores_min_max B HB) as HNB.
  destruct F as [|f F']; [congruence|]. destruct B as [|b B']; [congruence|].
  rewrite Hres. apply List.Forall_forall. intros r Hr. apply In_slice_to in Hr.
  rewrite List.Forall_forall in Hsc. rewrite (Hsc r Hr). unfold fused_score.
  destruct (contribution_range _ _ (doc_id r) HNF) as [Hf0 Hf1].
  destruct (contribution_range _ _ (doc_id r) HNB) as [Hb0 Hb1].
  split.
  - apply Qle_trans with (0 + 0)%Q; [discriminate|].
    apply Qplus_le_compat; apply Qmult_le_0_compat; assumption.
  - apply Qplus_le_compat.
    + rewrite <- (Qmult_1_r (faiss_weight self)) at 2.
      rewrite !(Qmult_comm (faiss_weight self)).
      now apply Qmult_le_compat_r.
    + rewrite <- (Qmult_1_r (bm25_weight self)) at 2.
      rewrite !(Qmult_comm (bm25_weight self)).
      now apply Qmult_le_compat_r.
Qed.

End HybridResults.

Lemma hybrid_search_bounded_witness :
  Py.len
    (HybridRetriever.search (env := Demo.collaborators)
       (HybridRetriever.mk (Some (Demo.constant_retriever Demo.vector_results))
          (Some (Demo.constant_retriever Demo.lexical_results)) (1 # 2) (1 # 2))
       "capital" 2 (Some "fr"%string)) <= 2.
Proof.
  apply (hybrid_search_bounded (env := Demo.collaborators)
           (HybridRetriever.mk (Some (Demo.constant_retriever Demo.vector_results))
              (Some (Demo.constant_retriever Demo.lexical_results)) (1 # 2) (1 # 2))
           "capital" 2 (Some "fr"%string)).
  lia.
Defined.

Lemma hybrid_fused_fields_witness :
  Forall (fun r => exists a b,
            faiss_score r = Some a /\ bm25_score r = Some b /\
            (a == contribution (HybridRetriever._normalize_scores Demo.vector_results)
                    (doc_id r) * (1 # 2))%Q /\
            (b == contribution (HybridRetriever._normalize_scores Demo.lexical_results)
                    (doc_id r) * (1 # 2))%Q /\
            score r = (a + b)%Q)
    (HybridRetriever.search (env := Demo.collaborators)
       (HybridRetriever.mk (Some (Demo.constant_retriever Demo.vector_results))
          (Some (Demo.constant_retriever Demo.lexical_results)) (1 # 2) (1 # 2))
       "capital" 2 (Some "fr"%string)).
Proof.
  apply (hybrid_fused_fields (env := Demo.collaborators)
           (HybridRetriever.mk (Some (Demo.constant_retriever Demo.vector_results))
              (Some (Demo.constant_retriever Demo.lexical_results)) (1 # 2) (1 # 2))
           "capital" 2 (Some "fr"%string) eq_refl); discriminate.
Defined.

Lemma hybrid_fused_score_range_witness :
  Forall (fun r => 0 <= score r <= (1 # 2) + (1 # 2))%Q
    (HybridRetriever.search (env := Demo.collaborators)
       (HybridRetriever.mk (Some (Demo.constant_retriever Demo.vector_results))
          (Some (Demo.constant_retriever Demo.lexical_results)) (1 # 2) (1 # 2))
       "capital" 2 (Some "fr"%string)).
Proof.
  apply (hybrid_fused_score_range (env := Demo.collaborators)
           (HybridRetriever.mk (Some (Demo.constant_retriever Demo.vector_results))
              (Some (Demo.constant_retriever Demo.lexical_results)) (1 # 2) (1 # 2))
           "capital" 2 (Some "fr"%string) eq_refl); discriminate.
Defined.

(** ** Ties in the fused ranking *)

(** The sort keeps the relative order of the elements of a class [p] whose
    members are all related by [leb]. *)
Lemma stable_sort_stable {A : Type} (leb : A -> A -> bool) (p : A -> bool)
    (l : list A) :
  (forall x y, p x = true -> p y = true -> leb x y = true) ->
  List.filter p (Py.stable_sort leb l) = List.filter p l.
Proof.
  intros Hp.
  assert (Hins : forall x t,
            List.filter p (Py.insert_sorted leb x t) = List.filter p (x :: t)).
  { intros x t. induction t as [|y t IH]; [reflexivity|].
    cbn [Py.insert_sorted]. destruct (leb x y) eqn:E; [reflexivity|].
    cbn [List.filter] in *. rewrite IH.
    destruct (p x) eqn:Ex, (p y) eqn:Ey; try reflexivity.
    rewrite (Hp x y Ex Ey) in E. discriminate. }
  induction l as [|x t IH]; [reflexivity|].
  cbn [Py.stable_sort fold_right]. fold (Py.stable_sort leb t).
  rewrite Hins. cbn [List.filter]. now rewrite IH.
Qed.

Section FusionTies.
Context {env : Collaborators}.
Import HybridRetriever.

Lemma existsb_keys (d : DocScores) (k : string) :
  existsb (String.eqb k) (keys d) = match dict_get d k with Some _ => true | None => false end.
Proof.
  induction d as [|[k0 e0] rest IH]; simpl; [reflexivity|].
  destruct (String.eqb k k0); [reflexivity | exact IH].
Qed.

Lemma keys_fold_stores (step : DocScores -> SearchResult -> DocScores)
    (results : list SearchResult) (d : DocScores) :
  stores_by_id step ->
  keys (fold_left step results d) = fold_left add_key (map doc_id results) (keys d).
Proof.
  intros Hstep. revert d. induction results as [|r rest IH]; intros d; [reflexivity|].
  simpl. rewrite IH. f_equal.
  destruct (Hstep d r) as (e & -> & _).
  rewrite keys_dict_set. unfold add_key. rewrite existsb_keys.
  now destruct (dict_get d (doc_id r)).
Qed.

Lemma with_score_final_results (c : Q) (n : nat) (entries : list Entry) :
  map doc_id (with_score c (map final_result (Py.enumerate_from n entries)))
  = map entry_id (List.filter (fun e => Qeq_bool (e_combined_score e) c) entries).
Proof.
  unfold with_score. revert n. induction entries as [|e t IH]; intros n; [reflexivity|].
  cbn [Py.enumerate_from map List.filter]. simpl score.
  destruct (Qeq_bool (e_combined_score e) c); simpl; now rewrite IH.
Qed.

Lemma filter_by_id (pe : Entry -> bool) (pk : string -> bool) (values : list Entry) :
  Forall (fun e => pe e = pk (entry_id e)) values ->
  map entry_id (List.filter pe values) = List.filter pk (map entry_id values).
Proof.
  induction 1 as [|e t He _ IH]; [reflexivity|].
  simpl. rewrite <- He. destruct (pe e); simpl; now rewrite IH.
Qed.

(** When both sources hold results, the documents of the fused ranking that
    share a score are in the order in which [doc_scores] received them: the
    vector results in their order, then the documents only the lexical
    search returned. *)
Theorem hybrid_fusion_ties (self : t) (query : string) (top_k : Z)
    (language : option string) :
  Py.blank query = false ->
  let F := source_results (faiss_retriever self) query top_k language in
  let B := source_results (bm25_retriever self) query top_k language in
  F <> [] -> B <> [] ->
  exists ranking,
    search self query top_k language = Py.slice_to top_k ranking /\
    forall c,
      map doc_id (with_score c ranking)
      = List.filter
          (fun k => Qeq_bool
                      (fused_score (faiss_weight self) (bm25_weight self)
                         (_normalize_scores F) (_normalize_scores B) k) c)
          (first_occurrences (map doc_id F ++ map doc_id B)).
Proof.
  intros Hq F B HF HB.
  set (NF := _normalize_scores F). set (NB := _normalize_scores B).
  set (d := fold_left (add_bm25 (bm25_weight self)) NB
              (fold_left (add_faiss (faiss_weight self)) NF [])).
  set (values := dict_values (map set_combined d)).
  exists (ranking_of (Py.sorted_reverse e_combined_score values)).
  split.
  - rewrite (hybrid_search_unfold self query top_k language Hq). fold F B. cbv zeta.
    destruct F as [|f F']; [congruence|]. destruct B as [|b B']; [congruence|].
    unfold _combine_results, ranking_of. fold NF NB. fold d. fold values.
    apply slice_to_map_enumerate.
  - intros c. unfold ranking_of, Py.enumerate.
    rewrite with_score_final_results.
    unfold Py.sorted_reverse. rewrite stable_sort_stable.
    2: { intros x y Hx Hy. apply Qeq_bool_eq in Hx, Hy. apply Qle_bool_iff.
         rewrite Hx, Hy. apply Qle_refl. }
    destruct (combined_entries (faiss_weight self) (bm25_weight self) NF NB)
      as (_ & _ & Hsc).
    fold d values in Hsc.
    rewrite (filter_by_id _
               (fun k => Qeq_bool
                           (fused_score (faiss_weight self) (bm25_weight self) NF NB k) c)).
    2: { eapply List.Forall_impl; [|exact Hsc]. intros e He. simpl.
         now rewrite He. }
    f_equal.
    destruct (fold_stores_keys (add_faiss (faiss_weight self)) NF []
                (add_faiss_stores (faiss_weight self)))
      as (Hnd1 & Hk1 & _); [constructor | constructor |].
    destruct (fold_stores_keys (add_bm25 (bm25_weight self)) NB _
                (add_bm25_stores (bm25_weight self)) Hnd1 Hk1) as (_ & Hk2 & _).
    fold d in Hk2. unfold values. rewrite (keyed_keys d Hk2).
    unfold d.
    rewrite (keys_fold_stores _ NB _ (add_bm25_stores (bm25_weight self))).
    rewrite (keys_fold_stores _ NF _ (add_faiss_stores (faiss_weight self))).
    unfold first_occurrences. rewrite fold_left_app.
    unfold NF, NB. now rewrite !normalize_scores_ids.
Qed.

End FusionTies.

Lemma hybrid_fusion_ties_witness :
  exists ranking,
    HybridRetriever.search (env := Demo.collaborators)
      (HybridRetriever.mk (Some (Demo.constant_retriever Demo.vector_results))
         (Some (Demo.constant_retriever Demo.lexical_results)) (1 # 2) (1 # 2))
      "capital" 4 (Some "fr"%string) = Py.slice_to 4 ranking /\
    forall c,
      map doc_id (with_score c ranking)
      = List.filter
          (fun k => Qeq_bool
                      (fused_score (1 # 2) (1 # 2)
                         (HybridRetriever._normalize_scores Demo.vector_results)
                         (HybridRetriever._normalize_scores Demo.lexical_results) k) c)
          (first_occurrences
             (map doc_id Demo.vector_results ++ map doc_id Demo.lexical_results)).
Proof.
  apply (hybrid_fusion_ties (env := Demo.collaborators)
           (HybridRetriever.mk (Some (Demo.constant_retriever Demo.vector_results))
              (Some (Demo.constant_retriever Demo.lexical_results)) (1 # 2) (1 # 2))
           "capital" 4 (Some "fr"%string) eq_refl); discriminate.
Defined.

(** ** Language detection of the text processor *)

(** [detect_language] answers ['fr'] or ['ar'] unless langdetect is
    available and itself answers another code for a non-blank text, which is
    then returned as it is; it never answers ['arb']. *)
Theorem detect_language_codes {env : Collaborators} (text : string) :
  detect_language text <> "arb"%string /\
  (detect_language text = "fr"%string \/ detect_language text = "ar"%string \/
   (LANGDETECT_AVAILABLE = true /\ Py.blank text = false /\
    detect text = Ok (detect_language text))).
Proof.
  unfold detect_language, arabic_or_french.
  destruct (Py.blank text); [split; [discriminate | now left]|].
  destruct LANGDETECT_AVAILABLE; simpl.
  2: { destruct (has_arabic text); split; try discriminate; auto. }
  destruct (detect text) as [lang|e]; simpl.
  2: { destruct (has_arabic text); split; try discriminate; auto. }
  destruct (String.eqb lang "fr") eqn:Efr; [split; [discriminate | now left]|].
  destruct (String.eqb lang "ar") eqn:Ear; simpl; [split; [discriminate | auto]|].
  destruct (String.eqb lang "arb") eqn:Earb; [split; [discriminate | auto]|].
  apply String.eqb_neq in Earb. split; [exact Earb|]. right. right. auto.
Qed.

(** ** Keywords *)

Section Keywords.
Context {env : Collaborators}.
Import TextProcessor.

Lemma unique_keywords_spec (keywords seen : list string) :
  List.NoDup (map PyChar.lower (unique_keywords keywords seen)) /\
  (forall k, In k (unique_keywords keywords seen) ->
             In k keywords /\ ~ In (PyChar.lower k) seen).
Proof.
  revert seen. induction keywords as [|keyword rest IH]; intros seen; simpl.
  - split; [constructor | contradiction].
  - destruct (existsb (String.eqb (PyChar.lower keyword)) seen) eqn:E.
    + destruct (IH seen) as [Hnd Hin]. split; [exact Hnd|].
      intros k Hk. destruct (Hin k Hk). auto.
    + destruct (IH (PyChar.lower keyword :: seen)) as [Hnd Hin]. split.
      * simpl. constructor; [|exact Hnd].
        intros Hc. apply in_map_iff in Hc. destruct Hc as (k & Hl & Hk).
        destruct (Hin k Hk) as [_ Hns]. apply Hns. left. now symmetry.
      * intros k [<-|Hk].
        -- split; [now left|]. intros Hs.
           assert (existsb (String.eqb (PyChar.lower keyword)) seen = true).
           { apply existsb_exists. exists (PyChar.lower keyword).
             split; [exact Hs | apply String.eqb_refl]. }
           congruence.
        -- destruct (Hin k Hk) as [H1 H2]. split; [now right|].
           intros Hs. apply H2. now right.
Qed.

(** The keywords extracted from a text are tokens of its preprocessing with
    at least three characters, pairwise different even when case is ignored,
    and at most [max_keywords] of them are returned (for
    [max_keywords >= 0]). *)
Theorem extract_keywords_spec (text : string) (language : option string)
    (max_keywords : Z) :
  0 <= max_keywords ->
  let keywords := extract_keywords text language max_keywords in
  Py.len keywords <= max_keywords /\
  List.NoDup (map PyChar.lower keywords) /\
  Forall (fun k => In k (preprocess text language) /\ (3 <= String.length k)%nat) keywords.
Proof.
  intros Hk keywords. unfold keywords, extract_keywords.
  destruct (negb (Py.truthy text)).
  - split; [unfold Py.len; simpl; lia|]. split; constructor.
  - set (candidates :=
           List.filter (fun token => (3 <=? String.length token)%nat)
                       (preprocess text language)).
    destruct (unique_keywords_spec candidates []) as [Hnd Hin].
    split; [now apply slice_to_length|]. split.
    + rewrite slice_to_nonneg by exact Hk. rewrite <- firstn_map.
      clear Hin. revert Hnd.
      generalize (map PyChar.lower (unique_keywords candidates [])).
      intros l Hnd. revert l Hnd.
      induction (Z.to_nat max_keywords) as [|n IHn]; intros l Hnd; [constructor|].
      destruct l as [|x l]; [constructor|]. simpl.
      apply List.NoDup_cons_iff in Hnd. destruct Hnd as [Hx Hnd].
      constructor; [|now apply IHn].
      intros Hc. apply Hx. eapply In_firstn. exact Hc.
    + apply List.Forall_forall. intros k Hkin. apply In_slice_to in Hkin.
      destruct (Hin k Hkin) as [Hc _]. unfold candidates in Hc.
      apply List.filter_In in Hc. destruct Hc as [Hc Hl].
      split; [exact Hc | now apply Nat.leb_le].
Qed.

End Keywords.

Lemma extract_keywords_spec_witness :
  let keywords :=
    TextProcessor.extract_keywords (env := Demo.collaborators)
      "Capital minimum du capital SARL" (Some "fr"%string) 2 in
  Py.len keywords <= 2 /\
  List.NoDup (map PyChar.lower keywords) /\
  Forall (fun k => In k (preprocess (env := Demo.collaborators)
                           "Capital minimum du capital SARL" (Some "fr"%string)) /\
                   (3 <= String.length k)%nat) keywords.
Proof.
  apply (extract_keywords_spec (env := Demo.collaborators)
           "Capital minimum du capital SARL" (Some "fr"%string) 2).
  lia.
Defined.

(** ** The language detector *)

Section Detector.
Context {env : Collaborators} (arabic : ArabicPatterns).
Import LanguageDetector.

(** An answer the detector may give: a supported language or the default. *)
Local Abbreviation admissible self l :=
  (In l (supported_languages self) \/ l = default_language self).

Lemma member_In (l : string) (ls : list string) : member l ls = true -> In l ls.
Proof.
  unfold member. intros H. apply existsb_exists in H.
  destruct H as (x & Hin & E). apply String.eqb_eq in E. now subst.
Qed.

Lemma supported_or_default_admissible (self : t) (l : string) :
  admissible self (supported_or_default self l).
Proof.
  unfold supported_or_default. destruct (member l _) eqn:E; [left | now right].
  now apply member_In.
Qed.

Lemma detect_with_patterns_admissible (self : t) (text : string) :
  admissible self (_detect_with_patterns arabic self text).
Proof.
  unfold _detect_with_patterns.
  repeat match goal with
         | |- context [if ?b then _ else _] => destruct b
         end;
    try apply supported_or_default_admissible; now right.
Qed.

Lemma detect_language_admissible (self : t) (text : string) :
  admissible self (detect_language arabic self text).
Proof.
  unfold detect_language.
  destruct (negb (Py.truthy text) || _); [now right|].
  destruct LANGDETECT_AVAILABLE; [|apply detect_with_patterns_admissible].
  destruct (detect (Py.strip text)) as [lang|e]; cbn [try_except bind];
    [|apply detect_with_patterns_admissible].
  destruct (member lang ["ar"; "arb"]%string);
    [apply supported_or_default_admissible|].
  destruct (String.eqb lang "fr"); [apply supported_or_default_admissible|].
  destruct (member lang (supported_languages self)) eqn:E;
    [left; now apply member_In | apply detect_with_patterns_admissible].
Qed.

(** Whatever langdetect and the patterns find, [detect_language] answers a
    supported language or the default language. *)
Theorem detector_answers_supported (self : t) (text : string) :
  In (detect_language arabic self text) (supported_languages self) \/
  detect_language arabic self text = default_language self.
Proof. apply detect_language_admissible. Qed.

(** [validate_language] answers a supported language or the default
    language. *)
Theorem validate_language_supported (self : t) (language_code : string) :
  In (validate_language arabic self language_code) (supported_languages self) \/
  validate_language arabic self language_code = default_language self.
Proof.
  unfold validate_language.
  destruct (negb (Py.truthy language_code)); [now right|].
  destruct (member _ (supported_languages self)) eqn:E;
    [left; now apply member_In | now right].
Qed.

(** A supported code written in lower case without surrounding white space,
    and which is not one of the long names of a language, is answered
    unchanged by [validate_language]. *)
Theorem validate_language_keeps_code (self : t) (language_code : string) :
  Py.truthy language_code = true ->
  Py.strip (PyChar.lower language_code) = language_code ->
  language_mapping arabic language_code = None ->
  In language_code (supported_languages self) ->
  validate_language arabic self language_code = language_code.
Proof.
  unfold validate_language.
  intros Ht Hs Hm Hin. rewrite Ht, Hs, Hm. cbn [negb].
  assert (E : member language_code (supported_languages self) = true).
  { unfold member. apply existsb_exists. exists language_code.
    split; [exact Hin | apply String.eqb_refl]. }
  now rewrite E.
Qed.

End Detector.

(** With the default configuration the detector answers ['fr'] or ['ar']. *)
Example detector_default_configuration (text : string) :
  let answer :=
    LanguageDetector.detect_language (env := Demo.collaborators) no_arabic
      (LanguageDetector.init None "fr") text in
  answer = "fr"%string \/ answer = "ar"%string.
Proof.
  destruct (detect_language_admissible (env := Demo.collaborators) no_arabic
              (LanguageDetector.init None "fr") text) as [[H|[H|[]]]|H];
    cbv zeta; auto.
Qed.

Lemma validate_language_keeps_code_witness :
  LanguageDetector.validate_language no_arabic (LanguageDetector.init None "fr") "ar"
  = "ar"%string.
Proof.
  apply (validate_language_keeps_code no_arabic (LanguageDetector.init None "fr") "ar");
    [reflexivity | reflexivity | reflexivity | simpl; tauto].
Defined.

(** ** Start-up *)

Section StartUp.
Context {env : Collaborators}.

(** When a first start-up on a store holding neither snapshot builds both
    retrievers and leaves their three files on the store (the index, the
    documents, the lexical data), every later start-up on that store loads
    the same two retrievers, whatever the data loader would extract, and
    leaves the store unchanged. *)
Theorem second_start_loads_snapshots (fp bp : string) (fs0 fs1 : gmap string File)
    (texts : list string) (docs : list Document)
    (f : FAISSRetriever.t) (b : BM25Retriever.t) (ix : Faiss.IndexFlatIP) :
  Py.truthy fp = true -> Py.truthy bp = true ->
  fs0 !! fp = None -> fs0 !! bp = None ->
  Main.initialize_components fp bp fs0 texts docs = Ok (f, b, fs1) ->
  FAISSRetriever.index f = Some ix ->
  fs1 !! fp = Some (FaissIndexFile ix) ->
  fs1 !! FAISSRetriever.documents_path fp
    = Some (DocsPickle (FAISSRetriever.documents f)) ->
  fs1 !! bp = Some (BM25Pickle (BM25Retriever.saved_data b)) ->
  forall texts' docs',
    Main.initialize_components fp bp fs1 texts' docs' = Ok (f, b, fs1).
Proof.
  intros Htf Htb Hmf Hmb Hinit Hix Hfile Hdocs Hdata texts' docs'.
  assert (Hlf : FAISSRetriever.load_index (FAISSRetriever.init (Some fp)) fs0
                = (false, FAISSRetriever.init (Some fp))).
  { unfold FAISSRetriever.load_index, Os.exists_. simpl. rewrite Htf, Hmf. reflexivity. }
  assert (Hlb : BM25Retriever.load_index (BM25Retriever.init (Some bp)) fs0
                = (false, BM25Retriever.init (Some bp))).
  { unfold BM25Retriever.load_index, Os.exists_. simpl. rewrite Htb, Hmb. reflexivity. }
  unfold Main.initialize_components in Hinit. rewrite Hlf, Hlb in Hinit.
  cbn [negb andb] in Hinit.
  destruct (FAISSRetriever.build_index (FAISSRetriever.init (Some fp)) fs0 texts docs)
    as [[f' fsa]|e] eqn:Ef; cbn [bind] in Hinit; [|discriminate].
  destruct (BM25Retriever.build_index (BM25Retriever.init (Some bp)) fsa texts docs)
    as [[b' fsb]|e] eqn:Eb; cbn [bind] in Hinit; [|discriminate].
  injection Hinit as -> -> ->.
  destruct (faiss_build_state _ f fs0 fsa texts docs ix Ef eq_refl Hix) as [Hfp _].
  destruct (bm25_build_state _ b fsa fs1 texts docs Eb) as (Hbp & Hfr & Har & _).
  unfold Main.initialize_components.
  rewrite (faiss_load_saved f fs1 fp ix Hfp Htf Hix Hfile Hdocs).
  rewrite (bm25_load_saved b fs1 bp Hbp Htb Hfr Har Hdata).
  reflexivity.
Qed.

End StartUp.

Lemma second_start_loads_snapshots_witness :
  Main.initialize_components (env := Demo.collaborators)
    "data/faiss_index.bin" "data/bm25_data.pkl"
    (snd (Snapshots.build_lexical "data/bm25_data.pkl")
     ∪ snd (Snapshots.build_vector "data/faiss_index.bin"))
    ["statuts"%string] [Demo.doc "n0" "fr"]
  = Ok (fst (Snapshots.build_vector "data/faiss_index.bin"),
        fst (Snapshots.build_lexical "data/bm25_data.pkl"),
        snd (Snapshots.build_lexical "data/bm25_data.pkl")
        ∪ snd (Snapshots.build_vector "data/faiss_index.bin")).
Proof.
  apply (second_start_loads_snapshots (env := Demo.collaborators)
           "data/faiss_index.bin" "data/bm25_data.pkl" ∅
           (snd (Snapshots.build_lexical "data/bm25_data.pkl")
            ∪ snd (Snapshots.build_vector "data/faiss_index.bin"))
           Corpus.texts Corpus.documents
           (fst (Snapshots.build_vector "data/faiss_index.bin"))
           (fst (Snapshots.build_lexical "data/bm25_data.pkl"))
           (Faiss.mkIndex 2 (repeat [1%Q; 0%Q] 8)));
    reflexivity.
Defined.
